(** * Verification of the debounced background-blur renderer (blur.hpp)

    The development embeds [blur::blur_renderer] as a state-passing
    program: the renderer object is a record with the fields of the C++
    class, the D3D11 device and immediate context are an explicit
    environment (which calls succeed, which handles come back) plus the
    part of the context state that the code reads and writes, and every
    call into the graphics API is recorded in a call log.

    Floating-point values ([float], [double]) are kept abstract: the model
    only uses the operations the code applies to them, collected in
    [FloatOps]; the concrete runs use IEEE 754 values.  The fragment
    shaders are modelled separately, over an arithmetic that is a
    parameter as well, in [Module Shader]. *)

From Stdlib Require Import ZArith QArith List Bool Lia Reals Lra SpecFloat.
Import ListNotations.

Close Scope Q_scope.
Close Scope R_scope.

(** ** Pointers and floating-point operations *)

(** A non-null COM interface pointer.  [None] is [nullptr]. *)
Definition handle := positive.
Definition ptr := option handle.

Definition is_set (p : ptr) : bool :=
  match p with Some _ => true | None => false end.

Definition ptr_eqb (a b : ptr) : bool :=
  match a, b with
  | Some h, Some k => Pos.eqb h k
  | None, None => true
  | _, _ => false
  end.

(** The operations the renderer applies to [float] and [double] values. *)
Class FloatOps (fl : Type) := {
  fl_of_Z : Z -> fl;            (* literals and static_cast<float>(int) *)
  fl_add : fl -> fl -> fl;
  fl_sub : fl -> fl -> fl;
  fl_max : fl -> fl -> fl;      (* std::max *)
  fl_geb : fl -> fl -> bool;    (* a >= b *)
  fl_to_int : fl -> Z;          (* static_cast<int> *)
  fl_to_uint : fl -> Z          (* static_cast<UINT> *)
}.

(** *** IEEE 754 values

    An executable instance: [float] and [double] values are
    [spec_float]s, the Standard Library's specification of IEEE 754
    binary floating point with rounding to nearest, ties to even.
    binary32 ([float]) has precision 24 and [emax] 128, binary64
    ([double]) has precision 53 and [emax] 1024; every binary32 value is
    a binary64 value.  The renderer adds [float]s (window position plus
    window size) and subtracts [double]s (the times). *)

Definition float_add : spec_float -> spec_float -> spec_float := SFadd 24 128.
Definition double_sub : spec_float -> spec_float -> spec_float := SFsub 53 1024.

(** [static_cast<float>] of an [int], and the literals [0.0f], [1.0f]. *)
Definition float_of_int (z : Z) : spec_float := binary_normalize 24 128 z 0 false.

(** [std::max(a, b)] is [(a < b) ? b : a]. *)
Definition float_max (a b : spec_float) : spec_float := if SFltb a b then b else a.

(** [a >= b]; false when either is a NaN. *)
Definition float_geb (a b : spec_float) : bool := SFleb b a.

(** The integer part of [m * 2^e]. *)
Definition magnitude (m : positive) (e : Z) : Z :=
  match e with
  | Zneg p => (Zpos m / 2 ^ Zpos p)%Z
  | _ => (Zpos m * 2 ^ e)%Z
  end.

(** The integer part of a finite value, rounded toward zero. *)
Definition truncate (x : spec_float) : option Z :=
  match x with
  | S754_zero _ => Some 0%Z
  | S754_finite s m e => Some (if s then (- magnitude m e)%Z else magnitude m e)
  | S754_infinity _ | S754_nan => None
  end.

(** [static_cast<int>] of a [float]: the integer part when it is an
    [int].  Otherwise C++ leaves the conversion undefined; the value here
    is what the x86 conversion instruction (cvttss2si) returns,
    0x80000000. *)
Definition float_to_int (x : spec_float) : Z :=
  match truncate x with
  | Some z => if ((- 2 ^ 31 <=? z) && (z <? 2 ^ 31))%Z then z else (- 2 ^ 31)%Z
  | None => (- 2 ^ 31)%Z
  end.

(** [static_cast<UINT>] of a [float]: the integer part when it is a
    [UINT].  Otherwise C++ leaves the conversion undefined; the value here
    is what x86-64 code gives, the low 32 bits of the conversion to a
    64-bit integer (0 when that is out of range too). *)
Definition float_to_uint (x : spec_float) : Z :=
  match truncate x with
  | Some z => if ((- 2 ^ 63 <=? z) && (z <? 2 ^ 63))%Z then (z mod 2 ^ 32)%Z else 0%Z
  | None => 0%Z
  end.

#[export] Instance IEEE_FloatOps : FloatOps spec_float := {|
  fl_of_Z := float_of_int;
  fl_add := float_add;
  fl_sub := double_sub;
  fl_max := float_max;
  fl_geb := float_geb;
  fl_to_int := float_to_int;
  fl_to_uint := float_to_uint
|}.

Section Renderer.

Context {fl : Type} {F : FloatOps fl}.

(** ** Data model *)

Record ImVec2 := mkImVec2 { vec_x : fl; vec_y : fl }.

Record blur_params := {
  device : ptr;
  draw_list : ptr;
  window_pos : ImVec2;
  window_size : ImVec2;
  blur_strength : fl;
  corner_radius : fl;
  delay_time : fl
}.

Record blur_constants := {
  texture_size_0 : fl;
  texture_size_1 : fl;
  constants_blur_strength : fl;
  padding : fl
}.

Record D3D11_VIEWPORT := {
  TopLeftX : fl; TopLeftY : fl; Width : fl; Height : fl; MinDepth : fl; MaxDepth : fl
}.

Record D3D11_BOX := {
  box_left : Z; box_top : Z; box_front : Z; box_right : Z; box_bottom : Z; box_back : Z
}.

(** The fields of [class blur_renderer], in declaration order. *)
Record blur_renderer := {
  device_ : ptr;
  context_ : ptr;
  vertex_shader_ : ptr;
  pixel_shader_horizontal_ : ptr;
  pixel_shader_vertical_ : ptr;
  vertex_buffer_ : ptr;
  constant_buffer_ : ptr;
  input_layout_ : ptr;
  sampler_state_ : ptr;
  blend_state_ : ptr;
  rasterizer_state_ : ptr;
  background_capture_ : ptr;
  background_srv_ : ptr;
  temp_texture_ : ptr;
  temp_rtv_ : ptr;
  temp_srv_ : ptr;
  blur_texture_ : ptr;
  blur_rtv_ : ptr;
  blur_srv_ : ptr;
  width_ : Z;
  height_ : Z;
  initialized_ : bool;
  background_captured_ : bool;
  blur_processed_ : bool;
  blur_enabled_last_frame_ : bool;
  blur_enable_time_ : fl;
  blur_capture_pending_ : bool
}.

(** The default member initialisers. *)
Definition new_renderer : blur_renderer := {|
  device_ := None; context_ := None;
  vertex_shader_ := None; pixel_shader_horizontal_ := None;
  pixel_shader_vertical_ := None; vertex_buffer_ := None; constant_buffer_ := None;
  input_layout_ := None; sampler_state_ := None; blend_state_ := None;
  rasterizer_state_ := None;
  background_capture_ := None; background_srv_ := None; temp_texture_ := None;
  temp_rtv_ := None; temp_srv_ := None; blur_texture_ := None; blur_rtv_ := None;
  blur_srv_ := None;
  width_ := 0; height_ := 0;
  initialized_ := false; background_captured_ := false; blur_processed_ := false;
  blur_enabled_last_frame_ := false; blur_enable_time_ := fl_of_Z 0;
  blur_capture_pending_ := false
|}.

(** Field assignment, one function per member. *)
Definition set_device_ (v : ptr) (r : blur_renderer) : blur_renderer :=
  {| device_ := v; context_ := context_ r; vertex_shader_ := vertex_shader_ r;
     pixel_shader_horizontal_ := pixel_shader_horizontal_ r;
     pixel_shader_vertical_ := pixel_shader_vertical_ r; vertex_buffer_ := vertex_buffer_ r;
     constant_buffer_ := constant_buffer_ r; input_layout_ := input_layout_ r;
     sampler_state_ := sampler_state_ r; blend_state_ := blend_state_ r;
     rasterizer_state_ := rasterizer_state_ r; background_capture_ := background_capture_ r;
     background_srv_ := background_srv_ r; temp_texture_ := temp_texture_ r;
     temp_rtv_ := temp_rtv_ r; temp_srv_ := temp_srv_ r; blur_texture_ := blur_texture_ r;
     blur_rtv_ := blur_rtv_ r; blur_srv_ := blur_srv_ r; width_ := width_ r;
     height_ := height_ r; initialized_ := initialized_ r;
     background_captured_ := background_captured_ r; blur_processed_ := blur_processed_ r;
     blur_enabled_last_frame_ := blur_enabled_last_frame_ r;
     blur_enable_time_ := blur_enable_time_ r;
     blur_capture_pending_ := blur_capture_pending_ r  |}.
Definition set_context_ (v : ptr) (r : blur_renderer) : blur_renderer :=
  {| device_ := device_ r; context_ := v; vertex_shader_ := vertex_shader_ r;
     pixel_shader_horizontal_ := pixel_shader_horizontal_ r;
     pixel_shader_vertical_ := pixel_shader_vertical_ r; vertex_buffer_ := vertex_buffer_ r;
     constant_buffer_ := constant_buffer_ r; input_layout_ := input_layout_ r;
     sampler_state_ := sampler_state_ r; blend_state_ := blend_state_ r;
     rasterizer_state_ := rasterizer_state_ r; background_capture_ := background_capture_ r;
     background_srv_ := background_srv_ r; temp_texture_ := temp_texture_ r;
     temp_rtv_ := temp_rtv_ r; temp_srv_ := temp_srv_ r; blur_texture_ := blur_texture_ r;
     blur_rtv_ := blur_rtv_ r; blur_srv_ := blur_srv_ r; width_ := width_ r;
     height_ := height_ r; initialized_ := initialized_ r;
     background_captured_ := background_captured_ r; blur_processed_ := blur_processed_ r;
     blur_enabled_last_frame_ := blur_enabled_last_frame_ r;
     blur_enable_time_ := blur_enable_time_ r;
     blur_capture_pending_ := blur_capture_pending_ r  |}.
Definition set_vertex_shader_ (v : ptr) (r : blur_renderer) : blur_renderer :=
  {| device_ := device_ r; context_ := context_ r; vertex_shader_ := v;
     pixel_shader_horizontal_ := pixel_shader_horizontal_ r;
     pixel_shader_vertical_ := pixel_shader_vertical_ r; vertex_buffer_ := vertex_buffer_ r;
     constant_buffer_ := constant_buffer_ r; input_layout_ := input_layout_ r;
     sampler_state_ := sampler_state_ r; blend_state_ := blend_state_ r;
     rasterizer_state_ := rasterizer_state_ r; background_capture_ := background_capture_ r;
     background_srv_ := background_srv_ r; temp_texture_ := temp_texture_ r;
     temp_rtv_ := temp_rtv_ r; temp_srv_ := temp_srv_ r; blur_texture_ := blur_texture_ r;
     blur_rtv_ := blur_rtv_ r; blur_srv_ := blur_srv_ r; width_ := width_ r;
     height_ := height_ r; initialized_ := initialized_ r;
     background_captured_ := background_captured_ r; blur_processed_ := blur_processed_ r;
     blur_enabled_last_frame_ := blur_enabled_last_frame_ r;
     blur_enable_time_ := blur_enable_time_ r;
     blur_capture_pending_ := blur_capture_pending_ r  |}.
Definition set_pixel_shader_horizontal_ (v : ptr) (r : blur_renderer) : blur_renderer :=
  {| device_ := device_ r; context_ := context_ r; vertex_shader_ := vertex_shader_ r;
     pixel_shader_horizontal_ := v; pixel_shader_vertical_ := pixel_shader_vertical_ r;
     vertex_buffer_ := vertex_buffer_ r; constant_buffer_ := constant_buffer_ r;
     input_layout_ := input_layout_ r; sampler_state_ := sampler_state_ r;
     blend_state_ := blend_state_ r; rasterizer_state_ := rasterizer_state_ r;
     background_capture_ := background_capture_ r; background_srv_ := background_srv_ r;
     temp_texture_ := temp_texture_ r; temp_rtv_ := temp_rtv_ r; temp_srv_ := temp_srv_ r;
     blur_texture_ := blur_texture_ r; blur_rtv_ := blur_rtv_ r; blur_srv_ := blur_srv_ r;
     width_ := width_ r; height_ := height_ r; initialized_ := initialized_ r;
     background_captured_ := background_captured_ r; blur_processed_ := blur_processed_ r;
     blur_enabled_last_frame_ := blur_enabled_last_frame_ r;
     blur_enable_time_ := blur_enable_time_ r;
     blur_capture_pending_ := blur_capture_pending_ r  |}.
Definition set_pixel_shader_vertical_ (v : ptr) (r : blur_renderer) : blur_renderer :=
  {| device_ := device_ r; context_ := context_ r; vertex_shader_ := vertex_shader_ r;
     pixel_shader_horizontal_ := pixel_shader_horizontal_ r; pixel_shader_vertical_ := v;
     vertex_buffer_ := vertex_buffer_ r; constant_buffer_ := constant_buffer_ r;
     input_layout_ := input_layout_ r; sampler_state_ := sampler_state_ r;
     blend_state_ := blend_state_ r; rasterizer_state_ := rasterizer_state_ r;
     background_capture_ := background_capture_ r; background_srv_ := background_srv_ r;
     temp_texture_ := temp_texture_ r; temp_rtv_ := temp_rtv_ r; temp_srv_ := temp_srv_ r;
     blur_texture_ := blur_texture_ r; blur_rtv_ := blur_rtv_ r; blur_srv_ := blur_srv_ r;
     width_ := width_ r; height_ := height_ r; initialized_ := initialized_ r;
     background_captured_ := background_captured_ r; blur_processed_ := blur_processed_ r;
     blur_enabled_last_frame_ := blur_enabled_last_frame_ r;
     blur_enable_time_ := blur_enable_time_ r;
     blur_capture_pending_ := blur_capture_pending_ r  |}.
Definition set_vertex_buffer_ (v : ptr) (r : blur_renderer) : blur_renderer :=
  {| device_ := device_ r; context_ := context_ r; vertex_shader_ := vertex_shader_ r;
     pixel_shader_horizontal_ := pixel_shader_horizontal_ r;
     pixel_shader_vertical_ := pixel_shader_vertical_ r; vertex_buffer_ := v;
     constant_buffer_ := constant_buffer_ r; input_layout_ := input_layout_ r;
     sampler_state_ := sampler_state_ r; blend_state_ := blend_state_ r;
     rasterizer_state_ := rasterizer_state_ r; background_capture_ := background_capture_ r;
     background_srv_ := background_srv_ r; temp_texture_ := temp_texture_ r;
     temp_rtv_ := temp_rtv_ r; temp_srv_ := temp_srv_ r; blur_texture_ := blur_texture_ r;
     blur_rtv_ := blur_rtv_ r; blur_srv_ := blur_srv_ r; width_ := width_ r;
     height_ := height_ r; initialized_ := initialized_ r;
     background_captured_ := background_captured_ r; blur_processed_ := blur_processed_ r;
     blur_enabled_last_frame_ := blur_enabled_last_frame_ r;
     blur_enable_time_ := blur_enable_time_ r;
     blur_capture_pending_ := blur_capture_pending_ r  |}.
Definition set_constant_buffer_ (v : ptr) (r : blur_renderer) : blur_renderer :=
  {| device_ := device_ r; context_ := context_ r; vertex_shader_ := vertex_shader_ r;
     pixel_shader_horizontal_ := pixel_shader_horizontal_ r;
     pixel_shader_vertical_ := pixel_shader_vertical_ r; vertex_buffer_ := vertex_buffer_ r;
     constant_buffer_ := v; input_layout_ := input_layout_ r;
     sampler_state_ := sampler_state_ r; blend_state_ := blend_state_ r;
     rasterizer_state_ := rasterizer_state_ r; background_capture_ := background_capture_ r;
     background_srv_ := background_srv_ r; temp_texture_ := temp_texture_ r;
     temp_rtv_ := temp_rtv_ r; temp_srv_ := temp_srv_ r; blur_texture_ := blur_texture_ r;
     blur_rtv_ := blur_rtv_ r; blur_srv_ := blur_srv_ r; width_ := width_ r;
     height_ := height_ r; initialized_ := initialized_ r;
     background_captured_ := background_captured_ r; blur_processed_ := blur_processed_ r;
     blur_enabled_last_frame_ := blur_enabled_last_frame_ r;
     blur_enable_time_ := blur_enable_time_ r;
     blur_capture_pending_ := blur_capture_pending_ r  |}.
Definition set_input_layout_ (v : ptr) (r : blur_renderer) : blur_renderer :=
  {| device_ := device_ r; context_ := context_ r; vertex_shader_ := vertex_shader_ r;
     pixel_shader_horizontal_ := pixel_shader_horizontal_ r;
     pixel_shader_vertical_ := pixel_shader_vertical_ r; vertex_buffer_ := vertex_buffer_ r;
     constant_buffer_ := constant_buffer_ r; input_layout_ := v;
     sampler_state_ := sampler_state_ r; blend_state_ := blend_state_ r;
     rasterizer_state_ := rasterizer_state_ r; background_capture_ := background_capture_ r;
     background_srv_ := background_srv_ r; temp_texture_ := temp_texture_ r;
     temp_rtv_ := temp_rtv_ r; temp_srv_ := temp_srv_ r; blur_texture_ := blur_texture_ r;
     blur_rtv_ := blur_rtv_ r; blur_srv_ := blur_srv_ r; width_ := width_ r;
     height_ := height_ r; initialized_ := initialized_ r;
     background_captured_ := background_captured_ r; blur_processed_ := blur_processed_ r;
     blur_enabled_last_frame_ := blur_enabled_last_frame_ r;
     blur_enable_time_ := blur_enable_time_ r;
     blur_capture_pending_ := blur_capture_pending_ r  |}.
Definition set_sampler_state_ (v : ptr) (r : blur_renderer) : blur_renderer :=
  {| device_ := device_ r; context_ := context_ r; vertex_shader_ := vertex_shader_ r;
     pixel_shader_horizontal_ := pixel_shader_horizontal_ r;
     pixel_shader_vertical_ := pixel_shader_vertical_ r; vertex_buffer_ := vertex_buffer_ r;
     constant_buffer_ := constant_buffer_ r; input_layout_ := input_layout_ r;
     sampler_state_ := v; blend_state_ := blend_state_ r;
     rasterizer_state_ := rasterizer_state_ r; background_capture_ := background_capture_ r;
     background_srv_ := background_srv_ r; temp_texture_ := temp_texture_ r;
     temp_rtv_ := temp_rtv_ r; temp_srv_ := temp_srv_ r; blur_texture_ := blur_texture_ r;
     blur_rtv_ := blur_rtv_ r; blur_srv_ := blur_srv_ r; width_ := width_ r;
     height_ := height_ r; initialized_ := initialized_ r;
     background_captured_ := background_captured_ r; blur_processed_ := blur_processed_ r;
     blur_enabled_last_frame_ := blur_enabled_last_frame_ r;
     blur_enable_time_ := blur_enable_time_ r;
     blur_capture_pending_ := blur_capture_pending_ r  |}.
Definition set_blend_state_ (v : ptr) (r : blur_renderer) : blur_renderer :=
  {| device_ := device_ r; context_ := context_ r; vertex_shader_ := vertex_shader_ r;
     pixel_shader_horizontal_ := pixel_shader_horizontal_ r;
     pixel_shader_vertical_ := pixel_shader_vertical_ r; vertex_buffer_ := vertex_buffer_ r;
     constant_buffer_ := constant_buffer_ r; input_layout_ := input_layout_ r;
     sampler_state_ := sampler_state_ r; blend_state_ := v;
     rasterizer_state_ := rasterizer_state_ r; background_capture_ := background_capture_ r;
     background_srv_ := background_srv_ r; temp_texture_ := temp_texture_ r;
     temp_rtv_ := temp_rtv_ r; temp_srv_ := temp_srv_ r; blur_texture_ := blur_texture_ r;
     blur_rtv_ := blur_rtv_ r; blur_srv_ := blur_srv_ r; width_ := width_ r;
     height_ := height_ r; initialized_ := initialized_ r;
     background_captured_ := background_captured_ r; blur_processed_ := blur_processed_ r;
     blur_enabled_last_frame_ := blur_enabled_last_frame_ r;
     blur_enable_time_ := blur_enable_time_ r;
     blur_capture_pending_ := blur_capture_pending_ r  |}.
Definition set_rasterizer_state_ (v : ptr) (r : blur_renderer) : blur_renderer :=
  {| device_ := device_ r; context_ := context_ r; vertex_shader_ := vertex_shader_ r;
     pixel_shader_horizontal_ := pixel_shader_horizontal_ r;
     pixel_shader_vertical_ := pixel_shader_vertical_ r; vertex_buffer_ := vertex_buffer_ r;
     constant_buffer_ := constant_buffer_ r; input_layout_ := input_layout_ r;
     sampler_state_ := sampler_state_ r; blend_state_ := blend_state_ r;
     rasterizer_state_ := v; background_capture_ := background_capture_ r;
     background_srv_ := background_srv_ r; temp_texture_ := temp_texture_ r;
     temp_rtv_ := temp_rtv_ r; temp_srv_ := temp_srv_ r; blur_texture_ := blur_texture_ r;
     blur_rtv_ := blur_rtv_ r; blur_srv_ := blur_srv_ r; width_ := width_ r;
     height_ := height_ r; initialized_ := initialized_ r;
     background_captured_ := background_captured_ r; blur_processed_ := blur_processed_ r;
     blur_enabled_last_frame_ := blur_enabled_last_frame_ r;
     blur_enable_time_ := blur_enable_time_ r;
     blur_capture_pending_ := blur_capture_pending_ r  |}.
Definition set_background_capture_ (v : ptr) (r : blur_renderer) : blur_renderer :=
  {| device_ := device_ r; context_ := context_ r; vertex_shader_ := vertex_shader_ r;
     pixel_shader_horizontal_ := pixel_shader_horizontal_ r;
     pixel_shader_vertical_ := pixel_shader_vertical_ r; vertex_buffer_ := vertex_buffer_ r;
     constant_buffer_ := constant_buffer_ r; input_layout_ := input_layout_ r;
     sampler_state_ := sampler_state_ r; blend_state_ := blend_state_ r;
     rasterizer_state_ := rasterizer_state_ r; background_capture_ := v;
     background_srv_ := background_srv_ r; temp_texture_ := temp_texture_ r;
     temp_rtv_ := temp_rtv_ r; temp_srv_ := temp_srv_ r; blur_texture_ := blur_texture_ r;
     blur_rtv_ := blur_rtv_ r; blur_srv_ := blur_srv_ r; width_ := width_ r;
     height_ := height_ r; initialized_ := initialized_ r;
     background_captured_ := background_captured_ r; blur_processed_ := blur_processed_ r;
     blur_enabled_last_frame_ := blur_enabled_last_frame_ r;
     blur_enable_time_ := blur_enable_time_ r;
     blur_capture_pending_ := blur_capture_pending_ r  |}.
Definition set_background_srv_ (v : ptr) (r : blur_renderer) : blur_renderer :=
  {| device_ := device_ r; context_ := context_ r; vertex_shader_ := vertex_shader_ r;
     pixel_shader_horizontal_ := pixel_shader_horizontal_ r;
     pixel_shader_vertical_ := pixel_shader_vertical_ r; vertex_buffer_ := vertex_buffer_ r;
     constant_buffer_ := constant_buffer_ r; input_layout_ := input_layout_ r;
     sampler_state_ := sampler_state_ r; blend_state_ := blend_state_ r;
     rasterizer_state_ := rasterizer_state_ r; background_capture_ := background_capture_ r;
     background_srv_ := v; temp_texture_ := temp_texture_ r; temp_rtv_ := temp_rtv_ r;
     temp_srv_ := temp_srv_ r; blur_texture_ := blur_texture_ r; blur_rtv_ := blur_rtv_ r;
     blur_srv_ := blur_srv_ r; width_ := width_ r; height_ := height_ r;
     initialized_ := initialized_ r; background_captured_ := background_captured_ r;
     blur_processed_ := blur_processed_ r;
     blur_enabled_last_frame_ := blur_enabled_last_frame_ r;
     blur_enable_time_ := blur_enable_time_ r;
     blur_capture_pending_ := blur_capture_pending_ r  |}.
Definition set_temp_texture_ (v : ptr) (r : blur_renderer) : blur_renderer :=
  {| device_ := device_ r; context_ := context_ r; vertex_shader_ := vertex_shader_ r;
     pixel_shader_horizontal_ := pixel_shader_horizontal_ r;
     pixel_shader_vertical_ := pixel_shader_vertical_ r; vertex_buffer_ := vertex_buffer_ r;
     constant_buffer_ := constant_buffer_ r; input_layout_ := input_layout_ r;
     sampler_state_ := sampler_state_ r; blend_state_ := blend_state_ r;
     rasterizer_state_ := rasterizer_state_ r; background_capture_ := background_capture_ r;
     background_srv_ := background_srv_ r; temp_texture_ := v; temp_rtv_ := temp_rtv_ r;
     temp_srv_ := temp_srv_ r; blur_texture_ := blur_texture_ r; blur_rtv_ := blur_rtv_ r;
     blur_srv_ := blur_srv_ r; width_ := width_ r; height_ := height_ r;
     initialized_ := initialized_ r; background_captured_ := background_captured_ r;
     blur_processed_ := blur_processed_ r;
     blur_enabled_last_frame_ := blur_enabled_last_frame_ r;
     blur_enable_time_ := blur_enable_time_ r;
     blur_capture_pending_ := blur_capture_pending_ r  |}.
Definition set_temp_rtv_ (v : ptr) (r : blur_renderer) : blur_renderer :=
  {| device_ := device_ r; context_ := context_ r; vertex_shader_ := vertex_shader_ r;
     pixel_shader_horizontal_ := pixel_shader_horizontal_ r;
     pixel_shader_vertical_ := pixel_shader_vertical_ r; vertex_buffer_ := vertex_buffer_ r;
     constant_buffer_ := constant_buffer_ r; input_layout_ := input_layout_ r;
     sampler_state_ := sampler_state_ r; blend_state_ := blend_state_ r;
     rasterizer_state_ := rasterizer_state_ r; background_capture_ := background_capture_ r;
     background_srv_ := background_srv_ r; temp_texture_ := temp_texture_ r; temp_rtv_ := v;
     temp_srv_ := temp_srv_ r; blur_texture_ := blur_texture_ r; blur_rtv_ := blur_rtv_ r;
     blur_srv_ := blur_srv_ r; width_ := width_ r; height_ := height_ r;
     initialized_ := initialized_ r; background_captured_ := background_captured_ r;
     blur_processed_ := blur_processed_ r;
     blur_enabled_last_frame_ := blur_enabled_last_frame_ r;
     blur_enable_time_ := blur_enable_time_ r;
     blur_capture_pending_ := blur_capture_pending_ r  |}.
Definition set_temp_srv_ (v : ptr) (r : blur_renderer) : blur_renderer :=
  {| device_ := device_ r; context_ := context_ r; vertex_shader_ := vertex_shader_ r;
     pixel_shader_horizontal_ := pixel_shader_horizontal_ r;
     pixel_shader_vertical_ := pixel_shader_vertical_ r; vertex_buffer_ := vertex_buffer_ r;
     constant_buffer_ := constant_buffer_ r; input_layout_ := input_layout_ r;
     sampler_state_ := sampler_state_ r; blend_state_ := blend_state_ r;
     rasterizer_state_ := rasterizer_state_ r; background_capture_ := background_capture_ r;
     background_srv_ := background_srv_ r; temp_texture_ := temp_texture_ r;
     temp_rtv_ := temp_rtv_ r; temp_srv_ := v; blur_texture_ := blur_texture_ r;
     blur_rtv_ := blur_rtv_ r; blur_srv_ := blur_srv_ r; width_ := width_ r;
     height_ := height_ r; initialized_ := initialized_ r;
     background_captured_ := background_captured_ r; blur_processed_ := blur_processed_ r;
     blur_enabled_last_frame_ := blur_enabled_last_frame_ r;
     blur_enable_time_ := blur_enable_time_ r;
     blur_capture_pending_ := blur_capture_pending_ r  |}.
Definition set_blur_texture_ (v : ptr) (r : blur_renderer) : blur_renderer :=
  {| device_ := device_ r; context_ := context_ r; vertex_shader_ := vertex_shader_ r;
     pixel_shader_horizontal_ := pixel_shader_horizontal_ r;
     pixel_shader_vertical_ := pixel_shader_vertical_ r; vertex_buffer_ := vertex_buffer_ r;
     constant_buffer_ := constant_buffer_ r; input_layout_ := input_layout_ r;
     sampler_state_ := sampler_state_ r; blend_state_ := blend_state_ r;
     rasterizer_state_ := rasterizer_state_ r; background_capture_ := background_capture_ r;
     background_srv_ := background_srv_ r; temp_texture_ := temp_texture_ r;
     temp_rtv_ := temp_rtv_ r; temp_srv_ := temp_srv_ r; blur_texture_ := v;
     blur_rtv_ := blur_rtv_ r; blur_srv_ := blur_srv_ r; width_ := width_ r;
     height_ := height_ r; initialized_ := initialized_ r;
     background_captured_ := background_captured_ r; blur_processed_ := blur_processed_ r;
     blur_enabled_last_frame_ := blur_enabled_last_frame_ r;
     blur_enable_time_ := blur_enable_time_ r;
     blur_capture_pending_ := blur_capture_pending_ r  |}.
Definition set_blur_rtv_ (v : ptr) (r : blur_renderer) : blur_renderer :=
  {| device_ := device_ r; context_ := context_ r; vertex_shader_ := vertex_shader_ r;
     pixel_shader_horizontal_ := pixel_shader_horizontal_ r;
     pixel_shader_vertical_ := pixel_shader_vertical_ r; vertex_buffer_ := vertex_buffer_ r;
     constant_buffer_ := constant_buffer_ r; input_layout_ := input_layout_ r;
     sampler_state_ := sampler_state_ r; blend_state_ := blend_state_ r;
     rasterizer_state_ := rasterizer_state_ r; background_capture_ := background_capture_ r;
     background_srv_ := background_srv_ r; temp_texture_ := temp_texture_ r;
     temp_rtv_ := temp_rtv_ r; temp_srv_ := temp_srv_ r; blur_texture_ := blur_texture_ r;
     blur_rtv_ := v; blur_srv_ := blur_srv_ r; width_ := width_ r; height_ := height_ r;
     initialized_ := initialized_ r; background_captured_ := background_captured_ r;
     blur_processed_ := blur_processed_ r;
     blur_enabled_last_frame_ := blur_enabled_last_frame_ r;
     blur_enable_time_ := blur_enable_time_ r;
     blur_capture_pending_ := blur_capture_pending_ r  |}.
Definition set_blur_srv_ (v : ptr) (r : blur_renderer) : blur_renderer :=
  {| device_ := device_ r; context_ := context_ r; vertex_shader_ := vertex_shader_ r;
     pixel_shader_horizontal_ := pixel_shader_horizontal_ r;
     pixel_shader_vertical_ := pixel_shader_vertical_ r; vertex_buffer_ := vertex_buffer_ r;
     constant_buffer_ := constant_buffer_ r; input_layout_ := input_layout_ r;
     sampler_state_ := sampler_state_ r; blend_state_ := blend_state_ r;
     rasterizer_state_ := rasterizer_state_ r; background_capture_ := background_capture_ r;
     background_srv_ := background_srv_ r; temp_texture_ := temp_texture_ r;
     temp_rtv_ := temp_rtv_ r; temp_srv_ := temp_srv_ r; blur_texture_ := blur_texture_ r;
     blur_rtv_ := blur_rtv_ r; blur_srv_ := v; width_ := width_ r; height_ := height_ r;
     initialized_ := initialized_ r; background_captured_ := background_captured_ r;
     blur_processed_ := blur_processed_ r;
     blur_enabled_last_frame_ := blur_enabled_last_frame_ r;
     blur_enable_time_ := blur_enable_time_ r;
     blur_capture_pending_ := blur_capture_pending_ r  |}.
Definition set_width_ (v : Z) (r : blur_renderer) : blur_renderer :=
  {| device_ := device_ r; context_ := context_ r; vertex_shader_ := vertex_shader_ r;
     pixel_shader_horizontal_ := pixel_shader_horizontal_ r;
     pixel_shader_vertical_ := pixel_shader_vertical_ r; vertex_buffer_ := vertex_buffer_ r;
     constant_buffer_ := constant_buffer_ r; input_layout_ := input_layout_ r;
     sampler_state_ := sampler_state_ r; blend_state_ := blend_state_ r;
     rasterizer_state_ := rasterizer_state_ r; background_capture_ := background_capture_ r;
     background_srv_ := background_srv_ r; temp_texture_ := temp_texture_ r;
     temp_rtv_ := temp_rtv_ r; temp_srv_ := temp_srv_ r; blur_texture_ := blur_texture_ r;
     blur_rtv_ := blur_rtv_ r; blur_srv_ := blur_srv_ r; width_ := v; height_ := height_ r;
     initialized_ := initialized_ r; background_captured_ := background_captured_ r;
     blur_processed_ := blur_processed_ r;
     blur_enabled_last_frame_ := blur_enabled_last_frame_ r;
     blur_enable_time_ := blur_enable_time_ r;
     blur_capture_pending_ := blur_capture_pending_ r  |}.
Definition set_height_ (v : Z) (r : blur_renderer) : blur_renderer :=
  {| device_ := device_ r; context_ := context_ r; vertex_shader_ := vertex_shader_ r;
     pixel_shader_horizontal_ := pixel_shader_horizontal_ r;
     pixel_shader_vertical_ := pixel_shader_vertical_ r; vertex_buffer_ := vertex_buffer_ r;
     constant_buffer_ := constant_buffer_ r; input_layout_ := input_layout_ r;
     sampler_state_ := sampler_state_ r; blend_state_ := blend_state_ r;
     rasterizer_state_ := rasterizer_state_ r; background_capture_ := background_capture_ r;
     background_srv_ := background_srv_ r; temp_texture_ := temp_texture_ r;
     temp_rtv_ := temp_rtv_ r; temp_srv_ := temp_srv_ r; blur_texture_ := blur_texture_ r;
     blur_rtv_ := blur_rtv_ r; blur_srv_ := blur_srv_ r; width_ := width_ r; height_ := v;
     initialized_ := initialized_ r; background_captured_ := background_captured_ r;
     blur_processed_ := blur_processed_ r;
     blur_enabled_last_frame_ := blur_enabled_last_frame_ r;
     blur_enable_time_ := blur_enable_time_ r;
     blur_capture_pending_ := blur_capture_pending_ r  |}.
Definition set_initialized_ (v : bool) (r : blur_renderer) : blur_renderer :=
  {| device_ := device_ r; context_ := context_ r; vertex_shader_ := vertex_shader_ r;
     pixel_shader_horizontal_ := pixel_shader_horizontal_ r;
     pixel_shader_vertical_ := pixel_shader_vertical_ r; vertex_buffer_ := vertex_buffer_ r;
     constant_buffer_ := constant_buffer_ r; input_layout_ := input_layout_ r;
     sampler_state_ := sampler_state_ r; blend_state_ := blend_state_ r;
     rasterizer_state_ := rasterizer_state_ r; background_capture_ := background_capture_ r;
     background_srv_ := background_srv_ r; temp_texture_ := temp_texture_ r;
     temp_rtv_ := temp_rtv_ r; temp_srv_ := temp_srv_ r; blur_texture_ := blur_texture_ r;
     blur_rtv_ := blur_rtv_ r; blur_srv_ := blur_srv_ r; width_ := width_ r;
     height_ := height_ r; initialized_ := v; background_captured_ := background_captured_ r;
     blur_processed_ := blur_processed_ r;
     blur_enabled_last_frame_ := blur_enabled_last_frame_ r;
     blur_enable_time_ := blur_enable_time_ r;
     blur_capture_pending_ := blur_capture_pending_ r  |}.
Definition set_background_captured_ (v : bool) (r : blur_renderer) : blur_renderer :=
  {| device_ := device_ r; context_ := context_ r; vertex_shader_ := vertex_shader_ r;
     pixel_shader_horizontal_ := pixel_shader_horizontal_ r;
     pixel_shader_vertical_ := pixel_shader_vertical_ r; vertex_buffer_ := vertex_buffer_ r;
     constant_buffer_ := constant_buffer_ r; input_layout_ := input_layout_ r;
     sampler_state_ := sampler_state_ r; blend_state_ := blend_state_ r;
     rasterizer_state_ := rasterizer_state_ r; background_capture_ := background_capture_ r;
     background_srv_ := background_srv_ r; temp_texture_ := temp_texture_ r;
     temp_rtv_ := temp_rtv_ r; temp_srv_ := temp_srv_ r; blur_texture_ := blur_texture_ r;
     blur_rtv_ := blur_rtv_ r; blur_srv_ := blur_srv_ r; width_ := width_ r;
     height_ := height_ r; initialized_ := initialized_ r; background_captured_ := v;
     blur_processed_ := blur_processed_ r;
     blur_enabled_last_frame_ := blur_enabled_last_frame_ r;
     blur_enable_time_ := blur_enable_time_ r;
     blur_capture_pending_ := blur_capture_pending_ r  |}.
Definition set_blur_processed_ (v : bool) (r : blur_renderer) : blur_renderer :=
  {| device_ := device_ r; context_ := context_ r; vertex_shader_ := vertex_shader_ r;
     pixel_shader_horizontal_ := pixel_shader_horizontal_ r;
     pixel_shader_vertical_ := pixel_shader_vertical_ r; vertex_buffer_ := vertex_buffer_ r;
     constant_buffer_ := constant_buffer_ r; input_layout_ := input_layout_ r;
     sampler_state_ := sampler_state_ r; blend_state_ := blend_state_ r;
     rasterizer_state_ := rasterizer_state_ r; background_capture_ := background_capture_ r;
     background_srv_ := background_srv_ r; temp_texture_ := temp_texture_ r;
     temp_rtv_ := temp_rtv_ r; temp_srv_ := temp_srv_ r; blur_texture_ := blur_texture_ r;
     blur_rtv_ := blur_rtv_ r; blur_srv_ := blur_srv_ r; width_ := width_ r;
     height_ := height_ r; initialized_ := initialized_ r;
     background_captured_ := background_captured_ r; blur_processed_ := v;
     blur_enabled_last_frame_ := blur_enabled_last_frame_ r;
     blur_enable_time_ := blur_enable_time_ r;
     blur_capture_pending_ := blur_capture_pending_ r  |}.
Definition set_blur_enabled_last_frame_ (v : bool) (r : blur_renderer) : blur_renderer :=
  {| device_ := device_ r; context_ := context_ r; vertex_shader_ := vertex_shader_ r;
     pixel_shader_horizontal_ := pixel_shader_horizontal_ r;
     pixel_shader_vertical_ := pixel_shader_vertical_ r; vertex_buffer_ := vertex_buffer_ r;
     constant_buffer_ := constant_buffer_ r; input_layout_ := input_layout_ r;
     sampler_state_ := sampler_state_ r; blend_state_ := blend_state_ r;
     rasterizer_state_ := rasterizer_state_ r; background_capture_ := background_capture_ r;
     background_srv_ := background_srv_ r; temp_texture_ := temp_texture_ r;
     temp_rtv_ := temp_rtv_ r; temp_srv_ := temp_srv_ r; blur_texture_ := blur_texture_ r;
     blur_rtv_ := blur_rtv_ r; blur_srv_ := blur_srv_ r; width_ := width_ r;
     height_ := height_ r; initialized_ := initialized_ r;
     background_captured_ := background_captured_ r; blur_processed_ := blur_processed_ r;
     blur_enabled_last_frame_ := v; blur_enable_time_ := blur_enable_time_ r;
     blur_capture_pending_ := blur_capture_pending_ r  |}.
Definition set_blur_enable_time_ (v : fl) (r : blur_renderer) : blur_renderer :=
  {| device_ := device_ r; context_ := context_ r; vertex_shader_ := vertex_shader_ r;
     pixel_shader_horizontal_ := pixel_shader_horizontal_ r;
     pixel_shader_vertical_ := pixel_shader_vertical_ r; vertex_buffer_ := vertex_buffer_ r;
     constant_buffer_ := constant_buffer_ r; input_layout_ := input_layout_ r;
     sampler_state_ := sampler_state_ r; blend_state_ := blend_state_ r;
     rasterizer_state_ := rasterizer_state_ r; background_capture_ := background_capture_ r;
     background_srv_ := background_srv_ r; temp_texture_ := temp_texture_ r;
     temp_rtv_ := temp_rtv_ r; temp_srv_ := temp_srv_ r; blur_texture_ := blur_texture_ r;
     blur_rtv_ := blur_rtv_ r; blur_srv_ := blur_srv_ r; width_ := width_ r;
     height_ := height_ r; initialized_ := initialized_ r;
     background_captured_ := background_captured_ r; blur_processed_ := blur_processed_ r;
     blur_enabled_last_frame_ := blur_enabled_last_frame_ r; blur_enable_time_ := v;
     blur_capture_pending_ := blur_capture_pending_ r  |}.
Definition set_blur_capture_pending_ (v : bool) (r : blur_renderer) : blur_renderer :=
  {| device_ := device_ r; context_ := context_ r; vertex_shader_ := vertex_shader_ r;
     pixel_shader_horizontal_ := pixel_shader_horizontal_ r;
     pixel_shader_vertical_ := pixel_shader_vertical_ r; vertex_buffer_ := vertex_buffer_ r;
     constant_buffer_ := constant_buffer_ r; input_layout_ := input_layout_ r;
     sampler_state_ := sampler_state_ r; blend_state_ := blend_state_ r;
     rasterizer_state_ := rasterizer_state_ r; background_capture_ := background_capture_ r;
     background_srv_ := background_srv_ r; temp_texture_ := temp_texture_ r;
     temp_rtv_ := temp_rtv_ r; temp_srv_ := temp_srv_ r; blur_texture_ := blur_texture_ r;
     blur_rtv_ := blur_rtv_ r; blur_srv_ := blur_srv_ r; width_ := width_ r;
     height_ := height_ r; initialized_ := initialized_ r;
     background_captured_ := background_captured_ r; blur_processed_ := blur_processed_ r;
     blur_enabled_last_frame_ := blur_enabled_last_frame_ r;
     blur_enable_time_ := blur_enable_time_ r; blur_capture_pending_ := v  |}.
(** ** The graphics API seen from the renderer *)

(** The slice of the immediate context's state that [process_blur] and
    [capture_background] read or write: slot 0 of each binding. *)
Record context_state := {
  om_rtv : ptr;
  om_dsv : ptr;
  rs_viewport : D3D11_VIEWPORT;
  ps_srv : ptr;
  ps_shader : ptr;
  vs_shader : ptr;
  ia_vertex_buffer : ptr;
  ia_input_layout : ptr;
  ia_triangle_strip : bool;
  ps_constant_buffer : ptr;
  ps_sampler : ptr;
  rs_state : ptr;
  om_blend_state : ptr
}.

Definition set_om_rtv (v : ptr) (r : context_state) : context_state :=
  {| om_rtv := v; om_dsv := om_dsv r; rs_viewport := rs_viewport r; ps_srv := ps_srv r;
     ps_shader := ps_shader r; vs_shader := vs_shader r;
     ia_vertex_buffer := ia_vertex_buffer r; ia_input_layout := ia_input_layout r;
     ia_triangle_strip := ia_triangle_strip r; ps_constant_buffer := ps_constant_buffer r;
     ps_sampler := ps_sampler r; rs_state := rs_state r; om_blend_state := om_blend_state r  |}.
Definition set_om_dsv (v : ptr) (r : context_state) : context_state :=
  {| om_rtv := om_rtv r; om_dsv := v; rs_viewport := rs_viewport r; ps_srv := ps_srv r;
     ps_shader := ps_shader r; vs_shader := vs_shader r;
     ia_vertex_buffer := ia_vertex_buffer r; ia_input_layout := ia_input_layout r;
     ia_triangle_strip := ia_triangle_strip r; ps_constant_buffer := ps_constant_buffer r;
     ps_sampler := ps_sampler r; rs_state := rs_state r; om_blend_state := om_blend_state r  |}.
Definition set_rs_viewport (v : D3D11_VIEWPORT) (r : context_state) : context_state :=
  {| om_rtv := om_rtv r; om_dsv := om_dsv r; rs_viewport := v; ps_srv := ps_srv r;
     ps_shader := ps_shader r; vs_shader := vs_shader r;
     ia_vertex_buffer := ia_vertex_buffer r; ia_input_layout := ia_input_layout r;
     ia_triangle_strip := ia_triangle_strip r; ps_constant_buffer := ps_constant_buffer r;
     ps_sampler := ps_sampler r; rs_state := rs_state r; om_blend_state := om_blend_state r  |}.
Definition set_ps_srv (v : ptr) (r : context_state) : context_state :=
  {| om_rtv := om_rtv r; om_dsv := om_dsv r; rs_viewport := rs_viewport r; ps_srv := v;
     ps_shader := ps_shader r; vs_shader := vs_shader r;
     ia_vertex_buffer := ia_vertex_buffer r; ia_input_layout := ia_input_layout r;
     ia_triangle_strip := ia_triangle_strip r; ps_constant_buffer := ps_constant_buffer r;
     ps_sampler := ps_sampler r; rs_state := rs_state r; om_blend_state := om_blend_state r  |}.
Definition set_ps_shader (v : ptr) (r : context_state) : context_state :=
  {| om_rtv := om_rtv r; om_dsv := om_dsv r; rs_viewport := rs_viewport r;
     ps_srv := ps_srv r; ps_shader := v; vs_shader := vs_shader r;
     ia_vertex_buffer := ia_vertex_buffer r; ia_input_layout := ia_input_layout r;
     ia_triangle_strip := ia_triangle_strip r; ps_constant_buffer := ps_constant_buffer r;
     ps_sampler := ps_sampler r; rs_state := rs_state r; om_blend_state := om_blend_state r  |}.
Definition set_vs_shader (v : ptr) (r : context_state) : context_state :=
  {| om_rtv := om_rtv r; om_dsv := om_dsv r; rs_viewport := rs_viewport r;
     ps_srv := ps_srv r; ps_shader := ps_shader r; vs_shader := v;
     ia_vertex_buffer := ia_vertex_buffer r; ia_input_layout := ia_input_layout r;
     ia_triangle_strip := ia_triangle_strip r; ps_constant_buffer := ps_constant_buffer r;
     ps_sampler := ps_sampler r; rs_state := rs_state r; om_blend_state := om_blend_state r  |}.
Definition set_ia_vertex_buffer (v : ptr) (r : context_state) : context_state :=
  {| om_rtv := om_rtv r; om_dsv := om_dsv r; rs_viewport := rs_viewport r;
     ps_srv := ps_srv r; ps_shader := ps_shader r; vs_shader := vs_shader r;
     ia_vertex_buffer := v; ia_input_layout := ia_input_layout r;
     ia_triangle_strip := ia_triangle_strip r; ps_constant_buffer := ps_constant_buffer r;
     ps_sampler := ps_sampler r; rs_state := rs_state r; om_blend_state := om_blend_state r  |}.
Definition set_ia_input_layout (v : ptr) (r : context_state) : context_state :=
  {| om_rtv := om_rtv r; om_dsv := om_dsv r; rs_viewport := rs_viewport r;
     ps_srv := ps_srv r; ps_shader := ps_shader r; vs_shader := vs_shader r;
     ia_vertex_buffer := ia_vertex_buffer r; ia_input_layout := v;
     ia_triangle_strip := ia_triangle_strip r; ps_constant_buffer := ps_constant_buffer r;
     ps_sampler := ps_sampler r; rs_state := rs_state r; om_blend_state := om_blend_state r  |}.
Definition set_ia_triangle_strip (v : bool) (r : context_state) : context_state :=
  {| om_rtv := om_rtv r; om_dsv := om_dsv r; rs_viewport := rs_viewport r;
     ps_srv := ps_srv r; ps_shader := ps_shader r; vs_shader := vs_shader r;
     ia_vertex_buffer := ia_vertex_buffer r; ia_input_layout := ia_input_layout r;
     ia_triangle_strip := v; ps_constant_buffer := ps_constant_buffer r;
     ps_sampler := ps_sampler r; rs_state := rs_state r; om_blend_state := om_blend_state r  |}.
Definition set_ps_constant_buffer (v : ptr) (r : context_state) : context_state :=
  {| om_rtv := om_rtv r; om_dsv := om_dsv r; rs_viewport := rs_viewport r;
     ps_srv := ps_srv r; ps_shader := ps_shader r; vs_shader := vs_shader r;
     ia_vertex_buffer := ia_vertex_buffer r; ia_input_layout := ia_input_layout r;
     ia_triangle_strip := ia_triangle_strip r; ps_constant_buffer := v;
     ps_sampler := ps_sampler r; rs_state := rs_state r; om_blend_state := om_blend_state r  |}.
Definition set_ps_sampler (v : ptr) (r : context_state) : context_state :=
  {| om_rtv := om_rtv r; om_dsv := om_dsv r; rs_viewport := rs_viewport r;
     ps_srv := ps_srv r; ps_shader := ps_shader r; vs_shader := vs_shader r;
     ia_vertex_buffer := ia_vertex_buffer r; ia_input_layout := ia_input_layout r;
     ia_triangle_strip := ia_triangle_strip r; ps_constant_buffer := ps_constant_buffer r;
     ps_sampler := v; rs_state := rs_state r; om_blend_state := om_blend_state r  |}.
Definition set_rs_state (v : ptr) (r : context_state) : context_state :=
  {| om_rtv := om_rtv r; om_dsv := om_dsv r; rs_viewport := rs_viewport r;
     ps_srv := ps_srv r; ps_shader := ps_shader r; vs_shader := vs_shader r;
     ia_vertex_buffer := ia_vertex_buffer r; ia_input_layout := ia_input_layout r;
     ia_triangle_strip := ia_triangle_strip r; ps_constant_buffer := ps_constant_buffer r;
     ps_sampler := ps_sampler r; rs_state := v; om_blend_state := om_blend_state r  |}.
Definition set_om_blend_state (v : ptr) (r : context_state) : context_state :=
  {| om_rtv := om_rtv r; om_dsv := om_dsv r; rs_viewport := rs_viewport r;
     ps_srv := ps_srv r; ps_shader := ps_shader r; vs_shader := vs_shader r;
     ia_vertex_buffer := ia_vertex_buffer r; ia_input_layout := ia_input_layout r;
     ia_triangle_strip := ia_triangle_strip r; ps_constant_buffer := ps_constant_buffer r;
     ps_sampler := ps_sampler r; rs_state := rs_state r; om_blend_state := v  |}.
Inductive shader_source :=
  vertex_shader_source_ | horizontal_blur_source_ | vertical_blur_source_.

Inductive texture_slot := Background | Temp | Blur.

(** The fallible [ID3D11Device::Create*] call sites of the renderer. *)
Inductive site :=
  | VertexShader_site
  | PixelShader_horizontal_site
  | PixelShader_vertical_site
  | InputLayout_site
  | VertexBuffer_site
  | ConstantBuffer_site
  | SamplerState_site
  | BlendState_site
  | RasterizerState_site
  | Texture2D_site (t : texture_slot)
  | RenderTargetView_site (t : texture_slot)
  | ShaderResourceView_site (t : texture_slot).

(** Every call the renderer makes into D3D11, in the order it makes them. *)
Inductive gpu_call :=
  | GetImmediateContext (dev : handle)
  | D3DCompile (src : shader_source)
  | DeviceCreate (s : site)
  | CreateTexture2D (t : texture_slot) (w h : Z) (bind_flags : Z)
  | Release (h : handle)
  | OMGetRenderTargets
  | GetResource (rtv : handle)
  | CopySubresourceRegion (dst : ptr) (src : handle) (box : D3D11_BOX)
  | RSGetViewports
  | Map (buffer : ptr)
  | WriteConstants (c : blur_constants)
  | Unmap (buffer : ptr)
  | IASetVertexBuffers (buffer : ptr)
  | IASetInputLayout (layout : ptr)
  | IASetPrimitiveTopology_TRIANGLESTRIP
  | VSSetShader (s : ptr)
  | PSSetConstantBuffers (buffer : ptr)
  | PSSetSamplers (s : ptr)
  | RSSetState (s : ptr)
  | OMSetBlendState (s : ptr)
  | RSSetViewports (vp : D3D11_VIEWPORT)
  | OMSetRenderTargets (rtv dsv : ptr)
  | PSSetShader (s : ptr)
  | PSSetShaderResources (srv : ptr)
  | Draw (vertex_count start : Z).

(** [ImDrawList::AddImageRounded], the only draw-list call of the renderer. *)
Record draw_cmd := AddImageRounded {
  cmd_list : handle;
  cmd_texture : handle;
  cmd_p_min : ImVec2;
  cmd_p_max : ImVec2;
  cmd_uv_min : ImVec2;
  cmd_uv_max : ImVec2;
  cmd_col : Z;
  cmd_rounding : fl
}.

(** What the outside world answers during one call of [render]. Each
    fallible call site runs at most once per call, so one answer per site
    is enough. *)
Record env := {
  GetTime : fl;                      (* ImGui::GetTime() *)
  immediate_context : handle;        (* device->GetImmediateContext *)
  compile_shader : shader_source -> ptr;  (* blob, nullptr when D3DCompile fails *)
  create : site -> ptr;              (* created object, nullptr when FAILED *)
  map_succeeds : bool;               (* SUCCEEDED(context->Map(...)) *)
  rtv_resource : ptr                 (* current_rtv->GetResource *)
}.

(** The mutable state threaded through a call: the renderer object, the
    context state, the call log and the commands added to the draw list. *)
Record mstate := {
  rend : blur_renderer;
  gctx : context_state;
  glog : list gpu_call;
  gdraw : list draw_cmd
}.

Definition M (A : Type) : Type := env -> mstate -> A * mstate.

Definition ret {A} (a : A) : M A := fun _ s => (a, s).

Definition bind {A B} (m : M A) (k : A -> M B) : M B :=
  fun e s => let (a, s') := m e s in k a e s'.

Definition ask : M env := fun e s => (e, s).
Definition this : M blur_renderer := fun _ s => (rend s, s).
Definition context : M context_state := fun _ s => (gctx s, s).

Definition assign (f : blur_renderer -> blur_renderer) : M unit :=
  fun _ s => (tt, {| rend := f (rend s); gctx := gctx s; glog := glog s; gdraw := gdraw s |}).

Definition set_context (f : context_state -> context_state) : M unit :=
  fun _ s => (tt, {| rend := rend s; gctx := f (gctx s); glog := glog s; gdraw := gdraw s |}).

Definition call (c : gpu_call) : M unit :=
  fun _ s => (tt, {| rend := rend s; gctx := gctx s; glog := glog s ++ [c]; gdraw := gdraw s |}).

Definition add_draw (d : draw_cmd) : M unit :=
  fun _ s => (tt, {| rend := rend s; gctx := gctx s; glog := glog s; gdraw := gdraw s ++ [d] |}).

Notation "x <- m ;; k" := (bind m (fun x => k))
  (at level 61, m at next level, right associativity).
Notation "m ;; k" := (bind m (fun _ => k))
  (at level 61, right associativity).

Definition when (b : bool) (m : M unit) : M unit := if b then m else ret tt.

(** Short-circuit [a && b] and [a || b] over calls with effects. *)
Definition and_then (a b : M bool) : M bool :=
  x <- a ;; if x then b else ret false.
Definition or_else (a b : M bool) : M bool :=
  x <- a ;; if x then ret true else b.
Definition not_ (a : M bool) : M bool := x <- a ;; ret (negb x).

Infix "&&&" := and_then (at level 40, left associativity).
Infix "|||" := or_else (at level 50, left associativity).

(** [if (p) p->Release();] on a local pointer. *)
Definition release_local (p : ptr) : M unit :=
  match p with
  | Some h => call (Release h)
  | None => ret tt
  end.

(** [if (f) { f->Release(); f = nullptr; }] on a member. *)
Definition release (get : blur_renderer -> ptr)
    (set : ptr -> blur_renderer -> blur_renderer) : M unit :=
  r <- this ;;
  match get r with
  | Some h => call (Release h) ;; assign (set None)
  | None => ret tt
  end.

(** A [device_->Create*] call writing its result to a member; the result
    is [SUCCEEDED(hr)].  The member is null before every such call of the
    renderer, and it is null after a failing one. *)
Definition device_create (s : site)
    (set : ptr -> blur_renderer -> blur_renderer) : M bool :=
  call (DeviceCreate s) ;;
  e <- ask ;;
  assign (set (create e s)) ;;
  ret (is_set (create e s)).

(** ** The member functions of [blur_renderer] *)

Definition reset_state : M unit :=
  assign (set_background_captured_ false) ;;
  assign (set_blur_processed_ false) ;;
  assign (set_blur_capture_pending_ false).

Definition cleanup_render_targets : M unit :=
  release background_capture_ set_background_capture_ ;;
  release background_srv_ set_background_srv_ ;;
  release temp_texture_ set_temp_texture_ ;;
  release temp_rtv_ set_temp_rtv_ ;;
  release temp_srv_ set_temp_srv_ ;;
  release blur_texture_ set_blur_texture_ ;;
  release blur_rtv_ set_blur_rtv_ ;;
  release blur_srv_ set_blur_srv_.

Definition cleanup_all : M unit :=
  cleanup_render_targets ;;
  release vertex_shader_ set_vertex_shader_ ;;
  release pixel_shader_horizontal_ set_pixel_shader_horizontal_ ;;
  release pixel_shader_vertical_ set_pixel_shader_vertical_ ;;
  release vertex_buffer_ set_vertex_buffer_ ;;
  release constant_buffer_ set_constant_buffer_ ;;
  release input_layout_ set_input_layout_ ;;
  release sampler_state_ set_sampler_state_ ;;
  release blend_state_ set_blend_state_ ;;
  release rasterizer_state_ set_rasterizer_state_ ;;
  release context_ set_context_ ;;
  assign (set_initialized_ false) ;;
  assign (set_device_ None).

(** The local lambda of [initialize_shaders]: the blob, or [nullptr] when
    [D3DCompile] fails.  The error blob it releases is not tracked. *)
Definition compile (source : shader_source) : M ptr :=
  call (D3DCompile source) ;;
  e <- ask ;;
  ret (compile_shader e source).

Definition initialize_shaders : M bool :=
  vs_blob <- compile vertex_shader_source_ ;;
  ps_h_blob <- compile horizontal_blur_source_ ;;
  ps_v_blob <- compile vertical_blur_source_ ;;
  if negb (is_set vs_blob) || negb (is_set ps_h_blob) || negb (is_set ps_v_blob) then
    release_local vs_blob ;;
    release_local ps_h_blob ;;
    release_local ps_v_blob ;;
    ret false
  else
    success <- device_create VertexShader_site set_vertex_shader_
               &&& device_create PixelShader_horizontal_site set_pixel_shader_horizontal_
               &&& device_create PixelShader_vertical_site set_pixel_shader_vertical_ ;;
    success <- (if success then device_create InputLayout_site set_input_layout_
                else ret false) ;;
    release_local vs_blob ;;
    release_local ps_h_blob ;;
    release_local ps_v_blob ;;
    ret success.

Definition initialize_render_states : M bool :=
  created <- device_create VertexBuffer_site set_vertex_buffer_ ;;
  if negb created then ret false else
  created <- device_create ConstantBuffer_site set_constant_buffer_ ;;
  if negb created then ret false else
  created <- device_create SamplerState_site set_sampler_state_ ;;
  if negb created then ret false else
  created <- device_create BlendState_site set_blend_state_ ;;
  if negb created then ret false else
  device_create RasterizerState_site set_rasterizer_state_.

Definition D3D11_BIND_SHADER_RESOURCE : Z := 8.
Definition D3D11_BIND_RENDER_TARGET : Z := 32.

(** The local lambda of [ensure_render_targets]; [rtv] and [srv] are the
    optional out-parameters. *)
Definition create_texture (w h : Z) (bind_flags : Z) (t : texture_slot)
    (texture : ptr -> blur_renderer -> blur_renderer)
    (rtv srv : option (ptr -> blur_renderer -> blur_renderer)) : M bool :=
  call (CreateTexture2D t w h bind_flags) ;;
  e <- ask ;;
  assign (texture (create e (Texture2D_site t))) ;;
  if negb (is_set (create e (Texture2D_site t))) then ret false else
  rtv_failed <- match rtv with
                | Some set => not_ (device_create (RenderTargetView_site t) set)
                | None => ret false
                end ;;
  if rtv_failed then ret false else
  srv_failed <- match srv with
                | Some set => not_ (device_create (ShaderResourceView_site t) set)
                | None => ret false
                end ;;
  if srv_failed then ret false else
  ret true.

Definition ensure_render_targets (width height : Z) : M bool :=
  r <- this ;;
  if is_set (background_capture_ r) && (width_ r =? width)%Z && (height_ r =? height)%Z
  then ret true else
  cleanup_render_targets ;;
  create_texture width height D3D11_BIND_SHADER_RESOURCE Background
    set_background_capture_ None (Some set_background_srv_)
  &&& create_texture width height
        (Z.lor D3D11_BIND_RENDER_TARGET D3D11_BIND_SHADER_RESOURCE) Temp
        set_temp_texture_ (Some set_temp_rtv_) (Some set_temp_srv_)
  &&& create_texture width height
        (Z.lor D3D11_BIND_RENDER_TARGET D3D11_BIND_SHADER_RESOURCE) Blur
        set_blur_texture_ (Some set_blur_rtv_) (Some set_blur_srv_).

Definition capture_background (window_pos window_size : ImVec2) : M bool :=
  call OMGetRenderTargets ;;
  c <- context ;;
  let current_rtv := om_rtv c in
  let current_dsv := om_dsv c in
  match current_rtv with
  | None => ret false
  | Some rtv =>
    call (GetResource rtv) ;;
    e <- ask ;;
    success <- match rtv_resource e with
               | Some back_buffer =>
                 let src_box := {|
                   box_left := fl_to_uint (fl_max (fl_of_Z 0) (vec_x window_pos));
                   box_top := fl_to_uint (fl_max (fl_of_Z 0) (vec_y window_pos));
                   box_right := fl_to_uint (fl_add (vec_x window_pos) (vec_x window_size));
                   box_bottom := fl_to_uint (fl_add (vec_y window_pos) (vec_y window_size));
                   box_front := 0;
                   box_back := 1 |} in
                 r <- this ;;
                 call (CopySubresourceRegion (background_capture_ r) back_buffer src_box) ;;
                 assign (set_background_captured_ true) ;;
                 call (Release back_buffer) ;;
                 ret true
               | None => ret false
               end ;;
    call (Release rtv) ;;
    release_local current_dsv ;;
    ret success
  end.

(** A context call together with its effect on the tracked state. *)
Definition context_call (c : gpu_call) (f : context_state -> context_state) : M unit :=
  call c ;; set_context f.

Definition process_blur (blur_strength : fl) : M bool :=
  r <- this ;;
  if negb (background_captured_ r) then ret false else
  call OMGetRenderTargets ;;
  c <- context ;;
  let original_rtv := om_rtv c in
  let original_dsv := om_dsv c in
  call RSGetViewports ;;
  let original_viewport := rs_viewport c in
  call (Map (constant_buffer_ r)) ;;
  e <- ask ;;
  when (map_succeeds e)
    (call (WriteConstants {| texture_size_0 := fl_of_Z (width_ r);
                             texture_size_1 := fl_of_Z (height_ r);
                             constants_blur_strength := blur_strength;
                             padding := fl_of_Z 0 |}) ;;
     call (Unmap (constant_buffer_ r))) ;;
  context_call (IASetVertexBuffers (vertex_buffer_ r))
    (set_ia_vertex_buffer (vertex_buffer_ r)) ;;
  context_call (IASetInputLayout (input_layout_ r))
    (set_ia_input_layout (input_layout_ r)) ;;
  context_call IASetPrimitiveTopology_TRIANGLESTRIP (set_ia_triangle_strip true) ;;
  context_call (VSSetShader (vertex_shader_ r)) (set_vs_shader (vertex_shader_ r)) ;;
  context_call (PSSetConstantBuffers (constant_buffer_ r))
    (set_ps_constant_buffer (constant_buffer_ r)) ;;
  context_call (PSSetSamplers (sampler_state_ r)) (set_ps_sampler (sampler_state_ r)) ;;
  context_call (RSSetState (rasterizer_state_ r)) (set_rs_state (rasterizer_state_ r)) ;;
  context_call (OMSetBlendState (blend_state_ r)) (set_om_blend_state (blend_state_ r)) ;;
  let viewport := {| TopLeftX := fl_of_Z 0; TopLeftY := fl_of_Z 0;
                     Width := fl_of_Z (width_ r); Height := fl_of_Z (height_ r);
                     MinDepth := fl_of_Z 0; MaxDepth := fl_of_Z 1 |} in
  context_call (RSSetViewports viewport) (set_rs_viewport viewport) ;;
  context_call (OMSetRenderTargets (temp_rtv_ r) None)
    (fun c => set_om_dsv None (set_om_rtv (temp_rtv_ r) c)) ;;
  context_call (PSSetShader (pixel_shader_horizontal_ r))
    (set_ps_shader (pixel_shader_horizontal_ r)) ;;
  context_call (PSSetShaderResources (background_srv_ r)) (set_ps_srv (background_srv_ r)) ;;
  call (Draw 4 0) ;;
  context_call (OMSetRenderTargets (blur_rtv_ r) None)
    (fun c => set_om_dsv None (set_om_rtv (blur_rtv_ r) c)) ;;
  context_call (PSSetShader (pixel_shader_vertical_ r))
    (set_ps_shader (pixel_shader_vertical_ r)) ;;
  context_call (PSSetShaderResources (temp_srv_ r)) (set_ps_srv (temp_srv_ r)) ;;
  call (Draw 4 0) ;;
  context_call (OMSetRenderTargets original_rtv original_dsv)
    (fun c => set_om_dsv original_dsv (set_om_rtv original_rtv c)) ;;
  context_call (RSSetViewports original_viewport) (set_rs_viewport original_viewport) ;;
  context_call (PSSetShaderResources None) (set_ps_srv None) ;;
  release_local original_rtv ;;
  release_local original_dsv ;;
  assign (set_blur_processed_ true) ;;
  ret true.

Definition IM_COL32_WHITE : Z := 4294967295.

Definition render (params : blur_params) (should_blur : bool) : M bool :=
  if negb (is_set (device params)) || negb (is_set (draw_list params)) then ret false else
  r <- this ;;
  init_failed <-
    (if negb (initialized_ r) || negb (ptr_eqb (device_ r) (device params)) then
       cleanup_all ;;
       assign (set_device_ (device params)) ;;
       e <- ask ;;
       match device params with
       | Some dev => call (GetImmediateContext dev)
       | None => ret tt
       end ;;
       assign (set_context_ (Some (immediate_context e))) ;;
       failed <- not_ initialize_shaders ||| not_ initialize_render_states ;;
       if failed then ret true else
       assign (set_initialized_ true) ;;
       ret false
     else ret false) ;;
  if init_failed then ret false else
  let window_width := fl_to_int (vec_x (window_size params)) in
  let window_height := fl_to_int (vec_y (window_size params)) in
  if (window_width <=? 0)%Z || (window_height <=? 0)%Z then ret false else
  e <- ask ;;
  let current_time := GetTime e in
  r <- this ;;
  when (negb (width_ r =? window_width)%Z || negb (height_ r =? window_height)%Z)
    (cleanup_render_targets ;;
     reset_state ;;
     assign (set_width_ window_width) ;;
     assign (set_height_ window_height)) ;;
  r <- this ;;
  (if should_blur && negb (blur_enabled_last_frame_ r) then
     reset_state ;;
     assign (set_blur_capture_pending_ true) ;;
     assign (set_blur_enable_time_ current_time)
   else if negb should_blur && blur_enabled_last_frame_ r then
     reset_state
   else ret tt) ;;
  r <- this ;;
  when (should_blur && blur_capture_pending_ r && negb (blur_processed_ r))
    (when (fl_geb (fl_sub current_time (blur_enable_time_ r)) (delay_time params))
       (assign (set_blur_capture_pending_ false) ;;
        targets <- ensure_render_targets window_width window_height ;;
        when targets
          (captured <- capture_background (window_pos params) (window_size params) ;;
           when captured
             (_ <- process_blur (blur_strength params) ;; ret tt)))) ;;
  assign (set_blur_enabled_last_frame_ should_blur) ;;
  r <- this ;;
  match draw_list params, blur_srv_ r with
  | Some list, Some srv =>
    when (should_blur && blur_processed_ r)
      (add_draw {| cmd_list := list;
                   cmd_texture := srv;
                   cmd_p_min := window_pos params;
                   cmd_p_max := {| vec_x := fl_add (vec_x (window_pos params))
                                                   (vec_x (window_size params));
                                   vec_y := fl_add (vec_y (window_pos params))
                                                   (vec_y (window_size params)) |};
                   cmd_uv_min := {| vec_x := fl_of_Z 0; vec_y := fl_of_Z 0 |};
                   cmd_uv_max := {| vec_x := fl_of_Z 1; vec_y := fl_of_Z 1 |};
                   cmd_col := IM_COL32_WHITE;
                   cmd_rounding := corner_radius params |})
  | _, _ => ret tt
  end ;;
  ret true.

(** ** Frames and runs *)

(** One call of [render] by the host: the request, the intent flag, the
    answers of the outside world and the context state the host has set
    up before the call. *)
Record frame := {
  params : blur_params;
  should_blur : bool;
  world : env;
  host : context_state
}.

(** What one call leaves behind: its return value, the draw commands it
    added, the API calls it made, and the renderer and context after it. *)
Record outcome := {
  returned : bool;
  drawn : list draw_cmd;
  calls : list gpu_call;
  after : blur_renderer;
  context_after : context_state
}.

Definition start (r : blur_renderer) (c : context_state) : mstate :=
  {| rend := r; gctx := c; glog := []; gdraw := [] |}.

Definition render_frame (f : frame) (r : blur_renderer) : outcome :=
  let (b, s) := render (params f) (should_blur f) (world f) (start r (host f)) in
  {| returned := b; drawn := gdraw s; calls := glog s; after := rend s;
     context_after := gctx s |}.

(** One entry per call of a run: the call, the renderer it found and
    what it left behind. *)
Record step := {
  req : frame;
  before : blur_renderer;
  result : outcome
}.

Fixpoint run (r : blur_renderer) (fs : list frame) : list step :=
  match fs with
  | [] => []
  | f :: fs' =>
    let o := render_frame f r in
    {| req := f; before := r; result := o |} :: run (after o) fs'
  end.

(** The renderer after a sequence of calls. *)
Fixpoint final (r : blur_renderer) (fs : list frame) : blur_renderer :=
  match fs with
  | [] => r
  | f :: fs' => final (after (render_frame f r)) fs'
  end.

(** ** Notions used in the proofs *)

(** *** Reasoning about calls *)

(** [maintains I m]: running [m] keeps the property [I] of the state. *)
Definition maintains {A} (I : mstate -> Prop) (m : M A) : Prop :=
  forall e s, I s -> I (snd (m e s)).

(** The activation flags and the recorded size. *)
Definition flags (r : blur_renderer) :=
  (background_captured_ r, blur_processed_ r, blur_capture_pending_ r,
   blur_enabled_last_frame_ r, blur_enable_time_ r, width_ r, height_ r).

(** The render-target set. *)
Definition targets (r : blur_renderer) :=
  (background_capture_ r, background_srv_ r, temp_texture_ r, temp_rtv_ r,
   temp_srv_ r, blur_texture_ r, blur_rtv_ r, blur_srv_ r).

(** *** Draw list, context state and flags across the resource helpers *)

(** What the resource helpers leave alone. *)
Definition view (s : mstate) := (gdraw s, gctx s, flags (rend s)).

Definition quiet (x : list draw_cmd * context_state * _) (s : mstate) : Prop :=
  view s = x.

(** *** The phases of [render]

    [render] is one function in the source.  For the proofs its body is
    cut at the empty lines of the source into phases, and [render_phases]
    shows that [render] is their composition. *)

Definition bad_handles (params : blur_params) : bool :=
  negb (is_set (device params)) || negb (is_set (draw_list params)).

Definition window_width (params : blur_params) : Z :=
  fl_to_int (vec_x (window_size params)).

Definition window_height (params : blur_params) : Z :=
  fl_to_int (vec_y (window_size params)).

Definition bad_size (params : blur_params) : bool :=
  (window_width params <=? 0)%Z || (window_height params <=? 0)%Z.

(** Lines 135-144; the result is [true] when initialisation failed. *)
Definition init_phase (params : blur_params) : M bool :=
  r <- this ;;
  if negb (initialized_ r) || negb (ptr_eqb (device_ r) (device params)) then
    cleanup_all ;;
    assign (set_device_ (device params)) ;;
    e <- ask ;;
    match device params with
    | Some dev => call (GetImmediateContext dev)
    | None => ret tt
    end ;;
    assign (set_context_ (Some (immediate_context e))) ;;
    failed <- not_ initialize_shaders ||| not_ initialize_render_states ;;
    if failed then ret true else
    assign (set_initialized_ true) ;;
    ret false
  else ret false.

(** Lines 153-158. *)
Definition resize_phase (params : blur_params) : M unit :=
  r <- this ;;
  when (negb (width_ r =? window_width params)%Z
        || negb (height_ r =? window_height params)%Z)
    (cleanup_render_targets ;;
     reset_state ;;
     assign (set_width_ (window_width params)) ;;
     assign (set_height_ (window_height params))).

(** Lines 160-167. *)
Definition activation_phase (should_blur : bool) : M unit :=
  e <- ask ;;
  r <- this ;;
  if should_blur && negb (blur_enabled_last_frame_ r) then
    reset_state ;;
    assign (set_blur_capture_pending_ true) ;;
    assign (set_blur_enable_time_ (GetTime e))
  else if negb should_blur && blur_enabled_last_frame_ r then
    reset_state
  else ret tt.

(** Lines 173-177. *)
Definition capture_and_blur (params : blur_params) : M unit :=
  targets <- ensure_render_targets (window_width params) (window_height params) ;;
  when targets
    (captured <- capture_background (window_pos params) (window_size params) ;;
     when captured
       (_ <- process_blur (blur_strength params) ;; ret tt)).

(** Lines 169-179. *)
Definition capture_phase (params : blur_params) (should_blur : bool) : M unit :=
  e <- ask ;;
  r <- this ;;
  when (should_blur && blur_capture_pending_ r && negb (blur_processed_ r))
    (when (fl_geb (fl_sub (GetTime e) (blur_enable_time_ r)) (delay_time params))
       (assign (set_blur_capture_pending_ false) ;;
        capture_and_blur params)).

Definition composite (params : blur_params) (list srv : handle) : draw_cmd :=
  {| cmd_list := list;
     cmd_texture := srv;
     cmd_p_min := window_pos params;
     cmd_p_max := {| vec_x := fl_add (vec_x (window_pos params))
                                     (vec_x (window_size params));
                     vec_y := fl_add (vec_y (window_pos params))
                                     (vec_y (window_size params)) |};
     cmd_uv_min := {| vec_x := fl_of_Z 0; vec_y := fl_of_Z 0 |};
     cmd_uv_max := {| vec_x := fl_of_Z 1; vec_y := fl_of_Z 1 |};
     cmd_col := IM_COL32_WHITE;
     cmd_rounding := corner_radius params |}.

(** Lines 181-195. *)
Definition finish_phase (params : blur_params) (should_blur : bool) : M bool :=
  assign (set_blur_enabled_last_frame_ should_blur) ;;
  r <- this ;;
  match draw_list params, blur_srv_ r with
  | Some list, Some srv =>
    when (should_blur && blur_processed_ r) (add_draw (composite params list srv))
  | _, _ => ret tt
  end ;;
  ret true.

Definition body (params : blur_params) (should_blur : bool) : M bool :=
  resize_phase params ;;
  activation_phase should_blur ;;
  capture_phase params should_blur ;;
  finish_phase params should_blur.

(** *** The activation state machine

    The effect of one completed call on the flags, as a function of the
    intent, the time, and whether capture and blur went through. *)

Definition reset_flags (r : blur_renderer) : blur_renderer :=
  set_blur_capture_pending_ false
    (set_blur_processed_ false (set_background_captured_ false r)).

Definition resized (params : blur_params) (r : blur_renderer) : bool :=
  negb (width_ r =? window_width params)%Z || negb (height_ r =? window_height params)%Z.

Definition on_resize (params : blur_params) (r : blur_renderer) : blur_renderer :=
  if resized params r then
    set_height_ (window_height params) (set_width_ (window_width params) (reset_flags r))
  else r.

Definition on_intent (should_blur : bool) (now : fl) (r : blur_renderer) : blur_renderer :=
  if should_blur && negb (blur_enabled_last_frame_ r) then
    set_blur_enable_time_ now (set_blur_capture_pending_ true (reset_flags r))
  else if negb should_blur && blur_enabled_last_frame_ r then reset_flags r
  else r.

(** The capture is due: lines 169-170. *)
Definition due (params : blur_params) (should_blur : bool) (now : fl)
    (r : blur_renderer) : bool :=
  should_blur && blur_capture_pending_ r && negb (blur_processed_ r)
  && fl_geb (fl_sub now (blur_enable_time_ r)) (delay_time params).

Definition on_capture (params : blur_params) (should_blur : bool) (now : fl)
    (done : bool) (r : blur_renderer) : blur_renderer :=
  if due params should_blur now r then
    let r1 := set_blur_capture_pending_ false r in
    if done then set_blur_processed_ true (set_background_captured_ true r1) else r1
  else r.

Definition advance (params : blur_params) (should_blur : bool) (now : fl)
    (done : bool) (r : blur_renderer) : blur_renderer :=
  set_blur_enabled_last_frame_ should_blur
    (on_capture params should_blur now done
       (on_intent should_blur now (on_resize params r))).

(** The bindings the host cares about across a call. *)
Definition ambient (c : context_state) := (om_rtv c, om_dsv c, rs_viewport c).

(** The draw commands of lines 183-193. *)
Definition composite_when (params : blur_params) (should_blur : bool)
    (r : blur_renderer) : list draw_cmd :=
  match draw_list params, blur_srv_ r with
  | Some list, Some srv =>
    if should_blur && blur_processed_ r then [composite params list srv] else []
  | _, _ => []
  end.

(** *** Pipeline initialisation *)

Definition shaders_ok (e : env) : bool :=
  is_set (compile_shader e vertex_shader_source_)
  && is_set (compile_shader e horizontal_blur_source_)
  && is_set (compile_shader e vertical_blur_source_)
  && is_set (create e VertexShader_site)
  && is_set (create e PixelShader_horizontal_site)
  && is_set (create e PixelShader_vertical_site)
  && is_set (create e InputLayout_site).

Definition render_states_ok (e : env) : bool :=
  is_set (create e VertexBuffer_site)
  && is_set (create e ConstantBuffer_site)
  && is_set (create e SamplerState_site)
  && is_set (create e BlendState_site)
  && is_set (create e RasterizerState_site).

Definition shaders_complete (r : blur_renderer) : bool :=
  is_set (vertex_shader_ r) && is_set (pixel_shader_horizontal_ r)
  && is_set (pixel_shader_vertical_ r) && is_set (input_layout_ r).

Definition render_states_complete (r : blur_renderer) : bool :=
  is_set (vertex_buffer_ r) && is_set (constant_buffer_ r) && is_set (sampler_state_ r)
  && is_set (blend_state_ r) && is_set (rasterizer_state_ r).

(** Every pipeline object is valid. *)
Definition pipeline_complete (r : blur_renderer) : bool :=
  shaders_complete r && render_states_complete r.

(** No pipeline object is held. *)
Definition pipeline_empty (r : blur_renderer) : bool :=
  negb (is_set (vertex_shader_ r) || is_set (pixel_shader_horizontal_ r)
        || is_set (pixel_shader_vertical_ r) || is_set (input_layout_ r)
        || is_set (vertex_buffer_ r) || is_set (constant_buffer_ r)
        || is_set (sampler_state_ r) || is_set (blend_state_ r)
        || is_set (rasterizer_state_ r)).

Definition needs_init (params : blur_params) (r : blur_renderer) : bool :=
  negb (initialized_ r) || negb (ptr_eqb (device_ r) (device params)).

(** The pipeline is usable for this call: it is already there for this
    device, or every compilation and creation succeeds now. *)
Definition init_ok (params : blur_params) (e : env) (r : blur_renderer) : bool :=
  if needs_init params r then shaders_ok e && render_states_ok e else true.

(** *** One call of [render] *)

(** The call is not rejected: both handles are there, the pipeline is
    usable and the truncated window size is positive. *)
Definition accepted (params : blur_params) (e : env) (r : blur_renderer) : bool :=
  negb (bad_handles params) && init_ok params e r && negb (bad_size params).

(** *** Which API calls a call of [render] makes *)

Definition pipeline_site (s : site) : bool :=
  match s with
  | Texture2D_site _ | RenderTargetView_site _ | ShaderResourceView_site _ => false
  | _ => true
  end.

(** Calls that only manage the renderer's own objects: releasing what is
    held and (re)building the pipeline.  No texture is allocated, nothing
    is read from or bound to the context, nothing is drawn. *)
Definition housekeeping (c : gpu_call) : bool :=
  match c with
  | GetImmediateContext _ | D3DCompile _ | Release _ => true
  | DeviceCreate s => pipeline_site s
  | _ => false
  end.

Definition only_housekeeping (s : mstate) : Prop :=
  Forall (fun c => housekeeping c = true) (glog s).

Definition clear_targets (r : blur_renderer) : blur_renderer :=
  set_blur_srv_ None (set_blur_rtv_ None (set_blur_texture_ None
    (set_temp_srv_ None (set_temp_rtv_ None (set_temp_texture_ None
      (set_background_srv_ None (set_background_capture_ None r))))))).

Definition clear_all (r : blur_renderer) : blur_renderer :=
  set_device_ None (set_initialized_ false (set_context_ None
    (set_rasterizer_state_ None (set_blend_state_ None (set_sampler_state_ None
      (set_input_layout_ None (set_constant_buffer_ None (set_vertex_buffer_ None
        (set_pixel_shader_vertical_ None (set_pixel_shader_horizontal_ None
          (set_vertex_shader_ None (clear_targets r)))))))))))).

(** *** Capture before blur *)

(** [blur_processed_] only with [background_captured_]. *)
Definition processed_after_capture (r : blur_renderer) : Prop :=
  blur_processed_ r = true -> background_captured_ r = true.

(** The calls of [capture_background]. *)
Definition capture_attempt (c : gpu_call) : bool :=
  match c with
  | OMGetRenderTargets | GetResource _ | CopySubresourceRegion _ _ _ => true
  | _ => false
  end.

(** Texture and view allocation calls. *)
Definition allocates_texture (c : gpu_call) : bool :=
  match c with
  | CreateTexture2D _ _ _ _ => true
  | DeviceCreate s => negb (pipeline_site s)
  | _ => false
  end.

(** *** The pipeline across a call *)

Definition steady (x : bool * bool) (s : mstate) : Prop :=
  (pipeline_complete (rend s), initialized_ (rend s)) = x.

(** The pipeline is complete whenever the renderer counts as initialised. *)
Definition initialised_complete (r : blur_renderer) : Prop :=
  initialized_ r = true -> pipeline_complete r = true.

(** *** After a failed attempt or a resize: nothing pending *)

(** The intent was set on the last completed call, yet no capture is
    pending and no blur is there.  Only an intent edge leaves this state. *)
Definition stalled (r : blur_renderer) : Prop :=
  blur_capture_pending_ r = false /\ blur_processed_ r = false /\
  blur_enabled_last_frame_ r = true.

(** *** The final texture view between captures *)

(** Outside [ensure_render_targets], [blur_srv_] is only ever released. *)
Definition kept_or_released (x : ptr) (s : mstate) : Prop :=
  blur_srv_ (rend s) = x \/ blur_srv_ (rend s) = None.

(** *** The debounce *)

(** What one completed call can do to the activation flags, for a
    renderer in which a pending capture excludes a processed blur and
    both imply that the intent was set on the last completed call. *)
Inductive transition (params : blur_params) (should_blur : bool) (now : fl)
    (r r' : blur_renderer) : Prop :=
  | t_idle :
      blur_capture_pending_ r' = false -> blur_processed_ r' = false ->
      transition params should_blur now r r'
  | t_armed :
      should_blur = true -> blur_enabled_last_frame_ r = false ->
      blur_capture_pending_ r' = true -> blur_processed_ r' = false ->
      blur_enable_time_ r' = now ->
      transition params should_blur now r r'
  | t_waiting :
      should_blur = true -> blur_capture_pending_ r = true ->
      blur_capture_pending_ r' = true -> blur_processed_ r' = false ->
      blur_enable_time_ r' = blur_enable_time_ r ->
      transition params should_blur now r r'
  | t_captured_at_once :
      should_blur = true -> blur_enabled_last_frame_ r = false ->
      blur_capture_pending_ r' = false -> blur_processed_ r' = true ->
      fl_geb (fl_sub now now) (delay_time params) = true ->
      transition params should_blur now r r'
  | t_captured :
      should_blur = true -> blur_capture_pending_ r = true ->
      blur_capture_pending_ r' = false -> blur_processed_ r' = true ->
      fl_geb (fl_sub now (blur_enable_time_ r)) (delay_time params) = true ->
      transition params should_blur now r r'
  | t_kept :
      should_blur = true -> blur_processed_ r = true ->
      blur_capture_pending_ r' = false -> blur_processed_ r' = true ->
      transition params should_blur now r r'.

(** A call that turns the intent on: it completes with the intent set, and
    the intent was not set on the last completed call before it. *)
Definition activation (st : step) : Prop :=
  should_blur (req st) = true /\ returned (result st) = true /\
  blur_enabled_last_frame_ (before st) = false.

(** At call [sm] the delay of that call has elapsed since call [sj]:
    the comparison of line 170, with the time of [sj] as the start. *)
Definition elapsed_between (sj sm : step) : Prop :=
  fl_geb (fl_sub (GetTime (world (req sm))) (GetTime (world (req sj))))
         (delay_time (params (req sm))) = true.

(** Every completed call after position [j] has the intent set. *)
Definition intent_held (tr : list step) (j : nat) : Prop :=
  forall i si, j < i -> nth_error tr i = Some si ->
               returned (result si) = true -> should_blur (req si) = true.

(** No call at a position from [j] up to, but not including, [m] draws. *)
Definition no_draw (tr : list step) (j m : nat) : Prop :=
  forall i si, j <= i < m -> nth_error tr i = Some si -> drawn (result si) = [].

Definition debounced (tr : list step) (r : blur_renderer) : Prop :=
  (blur_capture_pending_ r = true -> blur_processed_ r = false) /\
  (blur_capture_pending_ r = true \/ blur_processed_ r = true ->
   blur_enabled_last_frame_ r = true) /\
  (blur_capture_pending_ r = true ->
   exists j sj,
     nth_error tr j = Some sj /\ activation sj /\
     blur_enable_time_ r = GetTime (world (req sj)) /\
     intent_held tr j /\ no_draw tr j (length tr)) /\
  (blur_processed_ r = true ->
   exists j m sj sm,
     j <= m /\ nth_error tr j = Some sj /\ nth_error tr m = Some sm /\
     activation sj /\ intent_held tr j /\ elapsed_between sj sm /\ no_draw tr j m /\
     (is_set (blur_srv_ r) = true -> drawn (result sm) <> [])).

(** *** What a release sequence gives back *)

(** The call [if (p) p->Release();] makes on [p]. *)
Definition released (p : ptr) : list gpu_call :=
  match p with
  | Some h => [Release h]
  | None => []
  end.

(** The objects given back by a sequence of calls, in order. *)
Definition releases (l : list gpu_call) : list handle :=
  flat_map (fun c => match c with Release h => [h] | _ => [] end) l.

(** The releases of [cleanup_render_targets], in the order of lines 432-439. *)
Definition held_targets (r : blur_renderer) : list gpu_call :=
  released (background_capture_ r) ++ released (background_srv_ r)
  ++ released (temp_texture_ r) ++ released (temp_rtv_ r) ++ released (temp_srv_ r)
  ++ released (blur_texture_ r) ++ released (blur_rtv_ r) ++ released (blur_srv_ r).

(** The releases of [cleanup_all] after those of the render targets, in
    the order of lines 444-453. *)
Definition held_pipeline (r : blur_renderer) : list gpu_call :=
  released (vertex_shader_ r) ++ released (pixel_shader_horizontal_ r)
  ++ released (pixel_shader_vertical_ r) ++ released (vertex_buffer_ r)
  ++ released (constant_buffer_ r) ++ released (input_layout_ r)
  ++ released (sampler_state_ r) ++ released (blend_state_ r)
  ++ released (rasterizer_state_ r) ++ released (context_ r).

(** The destructor, line 128. *)
Definition destroy : M unit := cleanup_all.

(** *** Calls that find everything in place *)

(** Lines 133-158 do nothing: both handles are there, the pipeline is
    initialised for this device, the truncated window size is positive
    and it is the recorded size. *)
Definition settled (params : blur_params) (r : blur_renderer) : bool :=
  negb (bad_handles params) && negb (needs_init params r)
  && negb (bad_size params) && negb (resized params r).

(** *** The calls of a capture *)

Definition is_copy (c : gpu_call) : bool :=
  match c with
  | CopySubresourceRegion _ _ _ => true
  | _ => false
  end.

Definition is_draw (c : gpu_call) : bool :=
  match c with
  | Draw _ _ => true
  | _ => false
  end.

(** The constants written to the mapped constant buffer, in order. *)
Definition uploads (l : list gpu_call) : list blur_constants :=
  flat_map (fun c => match c with WriteConstants k => [k] | _ => [] end) l.

(** The reference a local pointer holds, if any. *)
Definition reference (p : ptr) : list handle :=
  match p with
  | Some h => [h]
  | None => []
  end.

(** The source box of lines 345-351. *)
Definition capture_box (window_pos window_size : ImVec2) : D3D11_BOX :=
  {| box_left := fl_to_uint (fl_max (fl_of_Z 0) (vec_x window_pos));
     box_top := fl_to_uint (fl_max (fl_of_Z 0) (vec_y window_pos));
     box_right := fl_to_uint (fl_add (vec_x window_pos) (vec_x window_size));
     box_bottom := fl_to_uint (fl_add (vec_y window_pos) (vec_y window_size));
     box_front := 0;
     box_back := 1 |}.

(** Every texture and view creation of [ensure_render_targets] succeeds. *)
Definition textures_ok (e : env) : bool :=
  is_set (create e (Texture2D_site Background))
  && is_set (create e (ShaderResourceView_site Background))
  && is_set (create e (Texture2D_site Temp))
  && is_set (create e (RenderTargetView_site Temp))
  && is_set (create e (ShaderResourceView_site Temp))
  && is_set (create e (Texture2D_site Blur))
  && is_set (create e (RenderTargetView_site Blur))
  && is_set (create e (ShaderResourceView_site Blur)).

(** The render-target set as a fully successful [ensure_render_targets]
    leaves it. *)
Definition fresh_targets (e : env) (r : blur_renderer) : blur_renderer :=
  set_blur_srv_ (create e (ShaderResourceView_site Blur))
    (set_blur_rtv_ (create e (RenderTargetView_site Blur))
      (set_blur_texture_ (create e (Texture2D_site Blur))
        (set_temp_srv_ (create e (ShaderResourceView_site Temp))
          (set_temp_rtv_ (create e (RenderTargetView_site Temp))
            (set_temp_texture_ (create e (Texture2D_site Temp))
              (set_background_srv_ (create e (ShaderResourceView_site Background))
                (set_background_capture_ (create e (Texture2D_site Background))
                  (clear_targets r)))))))).

(** The creation calls of lines 323-330 when none of them fails. *)
Definition allocation (width height : Z) : list gpu_call :=
  [ CreateTexture2D Background width height D3D11_BIND_SHADER_RESOURCE;
    DeviceCreate (ShaderResourceView_site Background);
    CreateTexture2D Temp width height
      (Z.lor D3D11_BIND_RENDER_TARGET D3D11_BIND_SHADER_RESOURCE);
    DeviceCreate (RenderTargetView_site Temp);
    DeviceCreate (ShaderResourceView_site Temp);
    CreateTexture2D Blur width height
      (Z.lor D3D11_BIND_RENDER_TARGET D3D11_BIND_SHADER_RESOURCE);
    DeviceCreate (RenderTargetView_site Blur);
    DeviceCreate (ShaderResourceView_site Blur) ].

(** *** Without a final texture view *)

(** The intent was set on the last completed call, no capture is pending
    and there is no final texture view to draw. *)
Definition viewless (r : blur_renderer) : Prop :=
  blur_capture_pending_ r = false /\ blur_enabled_last_frame_ r = true /\
  blur_srv_ r = None.

(** *** The render-target set as a whole *)

(** All three textures and their five views are there. *)
Definition targets_complete (r : blur_renderer) : bool :=
  is_set (background_capture_ r) && is_set (background_srv_ r)
  && is_set (temp_texture_ r) && is_set (temp_rtv_ r) && is_set (temp_srv_ r)
  && is_set (blur_texture_ r) && is_set (blur_rtv_ r) && is_set (blur_srv_ r).

(** The final texture view is there only together with the whole set. *)
Definition targets_sound (r : blur_renderer) : Prop :=
  is_set (blur_srv_ r) = true -> targets_complete r = true.

(** *** The global renderer *)

(** [inline blur_renderer g_blur_renderer;], line 461. *)
Definition g_blur_renderer : blur_renderer := new_renderer.

(** Lines 463-465: a call of [render] on the global renderer. *)
Definition render_blur_overlay (params : blur_params) (should_blur : bool) : M bool :=
  render params should_blur.

(** *** Creation sequences *)

(** The creations of [initialize_render_states], in order. *)
Definition render_state_sites : list site :=
  [ VertexBuffer_site; ConstantBuffer_site; SamplerState_site; BlendState_site;
    RasterizerState_site ].

(** The sites a sequence of creations gets to when it stops at the first
    one that fails. *)
Fixpoint attempted (e : env) (sites : list site) : list site :=
  match sites with
  | [] => []
  | s :: rest => s :: (if is_set (create e s) then attempted e rest else [])
  end.

(** ** Proofs *)

(** *** Frame lemmas *)

Lemma maintains_ret A (I : mstate -> Prop) (a : A) : maintains I (ret a).
Proof. intros e s H. exact H. Qed.

Lemma maintains_bind A B (I : mstate -> Prop) (m : M A) (k : A -> M B) :
  maintains I m -> (forall a, maintains I (k a)) -> maintains I (bind m k).
Proof.
  intros Hm Hk e s H. unfold bind.
  specialize (Hm e s H). destruct (m e s) as [a s']. apply Hk. exact Hm.
Qed.

Lemma maintains_ask (I : mstate -> Prop) : maintains I ask.
Proof. intros e s H. exact H. Qed.

Lemma maintains_this (I : mstate -> Prop) : maintains I this.
Proof. intros e s H. exact H. Qed.

Lemma maintains_context (I : mstate -> Prop) : maintains I context.
Proof. intros e s H. exact H. Qed.

Ltac split_bind :=
  match goal with
  | |- maintains _ (bind _ _) => apply maintains_bind; [ | intro ]
  end.

Ltac case_split :=
  match goal with
  | |- maintains _ (if ?c then _ else _) => destruct c
  | |- maintains _ (match ?c with _ => _ end) => destruct c
  end.

Ltac maintain_with leaf :=
  repeat first
    [ solve [ leaf ]
    | apply maintains_ret
    | apply maintains_ask
    | apply maintains_this
    | apply maintains_context
    | split_bind
    | case_split
    | progress unfold when, and_then, or_else, not_, release, release_local,
        device_create, context_call, create_texture, compile, reset_state ].

(** A leaf that does not touch the part of the state [I] looks at. *)
Ltac untouched := intros ? ? ?; assumption.

Ltac maintain := maintain_with untouched.

Lemma cleanup_render_targets_quiet x : maintains (quiet x) cleanup_render_targets.
Proof. unfold cleanup_render_targets. maintain. Qed.

Lemma cleanup_all_quiet x : maintains (quiet x) cleanup_all.
Proof.
  unfold cleanup_all.
  maintain_with ltac:(first [ untouched | apply cleanup_render_targets_quiet ]).
Qed.

Lemma initialize_shaders_quiet x : maintains (quiet x) initialize_shaders.
Proof. unfold initialize_shaders. maintain. Qed.

Lemma initialize_render_states_quiet x : maintains (quiet x) initialize_render_states.
Proof. unfold initialize_render_states. maintain. Qed.

Lemma ensure_render_targets_quiet x w h : maintains (quiet x) (ensure_render_targets w h).
Proof.
  unfold ensure_render_targets.
  maintain_with ltac:(first [ untouched | apply cleanup_render_targets_quiet ]).
Qed.

(** *** The phases of [render] *)

Lemma render_unfold params should_blur :
  render params should_blur =
  if bad_handles params then ret false else
  init_failed <- init_phase params ;;
  if init_failed then ret false else
  if bad_size params then ret false else
  body params should_blur.
Proof. reflexivity. Qed.

Lemma render_phases params should_blur e s :
  render params should_blur e s =
  if bad_handles params then (false, s) else
  let (init_failed, s1) := init_phase params e s in
  if init_failed then (false, s1) else
  if bad_size params then (false, s1) else
  body params should_blur e s1.
Proof.
  rewrite render_unfold.
  destruct (bad_handles params); [ reflexivity | ].
  unfold bind at 1.
  destruct (init_phase params e s) as [failed s1].
  destruct failed; [ reflexivity | ].
  destruct (bad_size params); reflexivity.
Qed.

(** *** The blur passes

    [process_blur] behind its guard: what it leaves in the context. *)

Lemma process_blur_guard blur_strength e s :
  background_captured_ (rend s) = false ->
  process_blur blur_strength e s = (false, s).
Proof.
  intro H. unfold process_blur, bind. cbn [this]. rewrite H. reflexivity.
Qed.

Lemma process_blur_passes blur_strength e s :
  background_captured_ (rend s) = true ->
  fst (process_blur blur_strength e s) = true /\
  rend (snd (process_blur blur_strength e s)) = set_blur_processed_ true (rend s) /\
  gdraw (snd (process_blur blur_strength e s)) = gdraw s /\
  om_rtv (gctx (snd (process_blur blur_strength e s))) = om_rtv (gctx s) /\
  om_dsv (gctx (snd (process_blur blur_strength e s))) = om_dsv (gctx s) /\
  rs_viewport (gctx (snd (process_blur blur_strength e s))) = rs_viewport (gctx s) /\
  ps_srv (gctx (snd (process_blur blur_strength e s))) = None.
Proof.
  intro H.
  unfold process_blur, context_call, when, release_local, bind.
  cbn [this]. rewrite H. cbn [negb].
  cbn [this context ask call assign set_context ret fst snd rend gctx glog gdraw].
  destruct (map_succeeds e), (om_rtv (gctx s)), (om_dsv (gctx s)); cbn;
    repeat split; reflexivity.
Qed.

Lemma process_blur_returns blur_strength e s :
  fst (process_blur blur_strength e s) = background_captured_ (rend s).
Proof.
  destruct (background_captured_ (rend s)) eqn:H.
  - apply process_blur_passes, H.
  - rewrite process_blur_guard by exact H. reflexivity.
Qed.

Lemma capture_background_effect window_pos window_size e s :
  let (captured, s') := capture_background window_pos window_size e s in
  rend s' = (if captured then set_background_captured_ true (rend s) else rend s) /\
  gdraw s' = gdraw s /\ gctx s' = gctx s.
Proof.
  unfold capture_background, release_local, bind.
  cbn [this context ask call assign set_context ret fst snd rend gctx glog gdraw].
  destruct (om_rtv (gctx s)); [ | cbn; auto ].
  destruct (rtv_resource e), (om_dsv (gctx s)); cbn; auto.
Qed.

Lemma quiet_view {A} {m : M A} :
  (forall x, maintains (quiet x) m) -> forall e s, view (snd (m e s)) = view s.
Proof. intros Hq e s. exact (Hq (view s) e s eq_refl). Qed.

Lemma view_inv s1 s2 :
  view s1 = view s2 ->
  gdraw s1 = gdraw s2 /\ gctx s1 = gctx s2 /\ flags (rend s1) = flags (rend s2).
Proof.
  intro H. repeat split.
  - exact (f_equal (fun v => fst (fst v)) H).
  - exact (f_equal (fun v => snd (fst v)) H).
  - exact (f_equal snd H).
Qed.

Lemma flags_inv r1 r2 :
  flags r1 = flags r2 ->
  background_captured_ r1 = background_captured_ r2 /\
  blur_processed_ r1 = blur_processed_ r2 /\
  blur_capture_pending_ r1 = blur_capture_pending_ r2 /\
  blur_enabled_last_frame_ r1 = blur_enabled_last_frame_ r2 /\
  blur_enable_time_ r1 = blur_enable_time_ r2 /\
  width_ r1 = width_ r2 /\ height_ r1 = height_ r2.
Proof. unfold flags. intro H. injection H; intros; repeat split; assumption. Qed.

Ltac flags_eq H :=
  apply flags_inv in H;
  let H1 := fresh "Hcap" in let H2 := fresh "Hproc" in let H3 := fresh "Hpend" in
  let H4 := fresh "Hlast" in let H5 := fresh "Htime" in let H6 := fresh "Hw" in
  let H7 := fresh "Hh" in
  destruct H as (H1 & H2 & H3 & H4 & H5 & H6 & H7).

Lemma on_intent_flags should_blur now r1 r2 :
  flags r1 = flags r2 ->
  flags (on_intent should_blur now r1) = flags (on_intent should_blur now r2).
Proof.
  intro H. flags_eq H. unfold on_intent, reset_flags.
  rewrite Hlast.
  destruct (should_blur && negb (blur_enabled_last_frame_ r2));
    [ | destruct (negb should_blur && blur_enabled_last_frame_ r2) ];
    unfold flags; cbn; congruence.
Qed.

Lemma on_capture_flags params should_blur now done r1 r2 :
  flags r1 = flags r2 ->
  flags (on_capture params should_blur now done r1) =
  flags (on_capture params should_blur now done r2).
Proof.
  intro H. flags_eq H. unfold on_capture, due.
  rewrite Hpend, Hproc, Htime.
  destruct (should_blur && blur_capture_pending_ r2 && negb (blur_processed_ r2)
            && fl_geb (fl_sub now (blur_enable_time_ r2)) (delay_time params));
    [ destruct done | ]; unfold flags; cbn; congruence.
Qed.

Lemma set_last_flags should_blur r1 r2 :
  flags r1 = flags r2 ->
  flags (set_blur_enabled_last_frame_ should_blur r1) =
  flags (set_blur_enabled_last_frame_ should_blur r2).
Proof. intro H. flags_eq H. unfold flags; cbn; congruence. Qed.

Lemma resize_phase_effect params e s :
  flags (rend (snd (resize_phase params e s))) = flags (on_resize params (rend s)) /\
  gdraw (snd (resize_phase params e s)) = gdraw s /\
  gctx (snd (resize_phase params e s)) = gctx s.
Proof.
  unfold resize_phase, on_resize, bind, when. cbn [this].
  fold (resized params (rend s)).
  destruct (resized params (rend s)); [ | cbn; auto ].
  pose proof (quiet_view cleanup_render_targets_quiet e s) as H.
  destruct (cleanup_render_targets e s) as [u s1]. cbn [snd] in H.
  apply view_inv in H. destruct H as (Hd & Hc & Hf). flags_eq Hf.
  unfold reset_state, bind, reset_flags, flags. cbn. repeat split; congruence.
Qed.

Lemma activation_phase_effect should_blur e s :
  activation_phase should_blur e s =
  (tt, {| rend := on_intent should_blur (GetTime e) (rend s);
          gctx := gctx s; glog := glog s; gdraw := gdraw s |}).
Proof.
  unfold activation_phase, on_intent, reset_state, reset_flags, bind. cbn [this ask].
  destruct (should_blur && negb (blur_enabled_last_frame_ (rend s)));
    [ reflexivity | ].
  destruct (negb should_blur && blur_enabled_last_frame_ (rend s));
    [ reflexivity | ].
  destruct s; reflexivity.
Qed.

Lemma capture_and_blur_effect params e s :
  exists done : bool,
    flags (rend (snd (capture_and_blur params e s))) =
    flags (if done then set_blur_processed_ true (set_background_captured_ true (rend s))
           else rend s) /\
    gdraw (snd (capture_and_blur params e s)) = gdraw s /\
    ambient (gctx (snd (capture_and_blur params e s))) = ambient (gctx s).
Proof.
  unfold capture_and_blur, bind, when.
  pose proof (quiet_view (fun x => ensure_render_targets_quiet x
    (window_width params) (window_height params)) e s) as H.
  destruct (ensure_render_targets (window_width params) (window_height params) e s)
    as [targets s1].
  cbn [snd] in H. apply view_inv in H. destruct H as (Hd0 & Hc0 & Hf0).
  destruct targets; [ | exists false; cbn; unfold ambient; repeat split; congruence ].
  pose proof (capture_background_effect (window_pos params) (window_size params) e s1) as Hc.
  destruct (capture_background (window_pos params) (window_size params) e s1)
    as [captured s2].
  destruct Hc as (Hr & Hd & Hg).
  destruct captured; [ | exists false; cbn; unfold ambient; repeat split; congruence ].
  assert (Hcap : background_captured_ (rend s2) = true) by (rewrite Hr; reflexivity).
  destruct (process_blur_passes (blur_strength params) e s2 Hcap)
    as (_ & Hp & Hpd & H1 & H2 & H3 & _).
  destruct (process_blur (blur_strength params) e s2) as [b s3].
  cbn [fst snd ret] in *. exists true. rewrite Hp, Hr.
  flags_eq Hf0. unfold flags, ambient. cbn. repeat split; congruence.
Qed.

Lemma capture_phase_skipped params should_blur e s :
  due params should_blur (GetTime e) (rend s) = false ->
  capture_phase params should_blur e s = (tt, s).
Proof.
  unfold due, capture_phase, bind, when. cbn [this ask]. intro H.
  destruct (should_blur && blur_capture_pending_ (rend s) && negb (blur_processed_ (rend s)));
    [ | reflexivity ].
  cbn [andb] in H. rewrite H. reflexivity.
Qed.

Lemma capture_phase_effect params should_blur e s :
  exists done : bool,
    flags (rend (snd (capture_phase params should_blur e s))) =
    flags (on_capture params should_blur (GetTime e) done (rend s)) /\
    gdraw (snd (capture_phase params should_blur e s)) = gdraw s /\
    ambient (gctx (snd (capture_phase params should_blur e s))) = ambient (gctx s).
Proof.
  destruct (due params should_blur (GetTime e) (rend s)) eqn:Hdue.
  - unfold on_capture. rewrite Hdue.
    unfold due in Hdue. apply andb_prop in Hdue. destruct Hdue as [H1 H2].
    unfold capture_phase, bind, when. cbn [this ask]. rewrite H1, H2.
    cbn [assign].
    match goal with
    | |- context [capture_and_blur params e ?s0] =>
      destruct (capture_and_blur_effect params e s0) as (done & Hf & Hd & Ha)
    end.
    exists done. cbn [rend gdraw gctx] in *. rewrite Hf, Hd, Ha.
    destruct done; auto.
  - rewrite capture_phase_skipped by exact Hdue. exists false.
    unfold on_capture. rewrite Hdue. auto.
Qed.

Lemma finish_phase_effect params should_blur e s :
  finish_phase params should_blur e s =
  (true, {| rend := set_blur_enabled_last_frame_ should_blur (rend s);
            gctx := gctx s; glog := glog s;
            gdraw := gdraw s ++ composite_when params should_blur (rend s) |}).
Proof.
  unfold finish_phase, composite_when, bind, when. cbn [assign this rend].
  cbn [blur_srv_ blur_processed_ set_blur_enabled_last_frame_].
  destruct (draw_list params), (blur_srv_ (rend s));
    try destruct (should_blur && blur_processed_ (rend s));
    cbn; rewrite ?app_nil_r; reflexivity.
Qed.

(** One completed call: the flags follow [advance], the ambient context
    state is as before, and a composite is drawn only when the intent is
    set and the blur has been processed. *)
Lemma body_effect params should_blur e s :
  fst (body params should_blur e s) = true /\
  exists done : bool,
    flags (rend (snd (body params should_blur e s))) =
    flags (advance params should_blur (GetTime e) done (rend s)) /\
    ambient (gctx (snd (body params should_blur e s))) = ambient (gctx s) /\
    gdraw (snd (body params should_blur e s)) =
    gdraw s ++ composite_when params should_blur (rend (snd (body params should_blur e s))).
Proof.
  remember (body params should_blur e s) as o eqn:Ho.
  unfold body, bind in Ho.
  destruct (resize_phase_effect params e s) as (Hf1 & Hd1 & Hc1).
  destruct (resize_phase params e s) as [u1 s1]. cbn [snd] in *.
  rewrite activation_phase_effect in Ho.
  match type of Ho with
  | context [capture_phase params should_blur e ?s0] =>
    destruct (capture_phase_effect params should_blur e s0) as (done & Hf3 & Hd3 & Ha3);
    destruct (capture_phase params should_blur e s0) as [u3 s3]
  end.
  cbn [snd rend gdraw gctx] in *.
  rewrite finish_phase_effect in Ho. subst o. cbn [fst snd rend gdraw gctx].
  split; [ reflexivity | ].
  exists done. split; [ | split ].
  - unfold advance. apply set_last_flags. rewrite Hf3.
    apply on_capture_flags, on_intent_flags, Hf1.
  - rewrite Ha3, Hc1. reflexivity.
  - rewrite Hd3, Hd1. reflexivity.
Qed.

(** *** Pipeline initialisation *)

Lemma initialize_shaders_effect e s :
  fst (initialize_shaders e s) = shaders_ok e /\
  (shaders_ok e = true ->
   shaders_complete (rend (snd (initialize_shaders e s))) = true) /\
  initialized_ (rend (snd (initialize_shaders e s))) = initialized_ (rend s).
Proof.
  unfold initialize_shaders, compile, device_create, and_then, release_local, bind,
    shaders_ok, shaders_complete.
  cbn.
  destruct (compile_shader e vertex_shader_source_); cbn;
  destruct (compile_shader e horizontal_blur_source_); cbn;
  destruct (compile_shader e vertical_blur_source_); cbn;
  destruct (create e VertexShader_site); cbn;
  destruct (create e PixelShader_horizontal_site); cbn;
  destruct (create e PixelShader_vertical_site); cbn;
  destruct (create e InputLayout_site); cbn;
    repeat split; intros; try reflexivity; discriminate.
Qed.

Lemma initialize_render_states_effect e s :
  fst (initialize_render_states e s) = render_states_ok e /\
  (render_states_ok e = true ->
   render_states_complete (rend (snd (initialize_render_states e s))) = true) /\
  shaders_complete (rend (snd (initialize_render_states e s))) = shaders_complete (rend s) /\
  initialized_ (rend (snd (initialize_render_states e s))) = initialized_ (rend s).
Proof.
  unfold initialize_render_states, device_create, bind, render_states_ok,
    render_states_complete, shaders_complete.
  cbn.
  destruct (create e VertexBuffer_site); cbn;
  destruct (create e ConstantBuffer_site); cbn;
  destruct (create e SamplerState_site); cbn;
  destruct (create e BlendState_site); cbn;
  destruct (create e RasterizerState_site); cbn;
    repeat split; intros; try reflexivity; discriminate.
Qed.

Lemma cleanup_all_uninitialised e s :
  initialized_ (rend (snd (cleanup_all e s))) = false.
Proof.
  unfold cleanup_all.
  repeat (unfold bind at 1;
          match goal with
          | |- context [let (_, _) := release ?g ?st e ?s0 in _] =>
            destruct (release g st e s0) as [? ?]
          | |- context [let (_, _) := cleanup_render_targets e ?s0 in _] =>
            destruct (cleanup_render_targets e s0) as [? ?]
          end).
  reflexivity.
Qed.

Lemma init_phase_quiet params x : maintains (quiet x) (init_phase params).
Proof.
  unfold init_phase.
  maintain_with ltac:(first [ untouched | apply cleanup_all_quiet
                            | apply initialize_shaders_quiet
                            | apply initialize_render_states_quiet ]).
Qed.

Lemma init_phase_skipped params e s :
  needs_init params (rend s) = false -> init_phase params e s = (false, s).
Proof.
  unfold needs_init, init_phase, bind. cbn [this]. intro H. rewrite H. reflexivity.
Qed.

Lemma init_phase_effect params e s :
  needs_init params (rend s) = true ->
  fst (init_phase params e s) = negb (shaders_ok e && render_states_ok e) /\
  initialized_ (rend (snd (init_phase params e s))) = (shaders_ok e && render_states_ok e) /\
  (shaders_ok e && render_states_ok e = true ->
   pipeline_complete (rend (snd (init_phase params e s))) = true).
Proof.
  unfold needs_init. intro H.
  remember (init_phase params e s) as o eqn:Ho.
  unfold init_phase, bind in Ho. cbn [this] in Ho. rewrite H in Ho.
  pose proof (cleanup_all_uninitialised e s) as Hu.
  destruct (cleanup_all e s) as [u s0]. cbn [snd] in Hu.
  cbn [assign ask] in Ho.
  assert (Hg : exists l,
    match device params with
    | Some dev => call (GetImmediateContext dev)
    | None => ret tt
    end e {| rend := set_device_ (device params) (rend s0);
             gctx := gctx s0; glog := glog s0; gdraw := gdraw s0 |} =
    (tt, {| rend := set_device_ (device params) (rend s0);
            gctx := gctx s0; glog := l; gdraw := gdraw s0 |}))
    by (destruct (device params); eexists; reflexivity).
  destruct Hg as (l & Hg). rewrite Hg in Ho. clear Hg.
  cbn [assign rend gctx glog gdraw] in Ho.
  unfold or_else, not_, bind in Ho.
  match type of Ho with
  | context [initialize_shaders e ?s1] =>
    destruct (initialize_shaders_effect e s1) as (Hs1 & Hs2 & Hs3);
    destruct (initialize_shaders e s1) as [ok1 s2]
  end.
  cbn [fst snd ret] in *. subst ok1.
  destruct (shaders_ok e).
  - cbn [negb andb] in *.
    destruct (initialize_render_states_effect e s2) as (Hr1 & Hr2 & Hr3 & Hr4).
    destruct (initialize_render_states e s2) as [ok2 s3].
    cbn [fst snd] in *. subst ok2.
    destruct (render_states_ok e); cbn in Ho; subst o; cbn.
    + unfold pipeline_complete.
      repeat split; try reflexivity. intros _.
      change (shaders_complete (rend s3) && render_states_complete (rend s3) = true).
      rewrite Hr3, Hs2, Hr2 by reflexivity. reflexivity.
    + repeat split; try discriminate. rewrite Hr4, Hs3. exact Hu.
  - cbn in Ho. subst o. cbn. repeat split; try discriminate. rewrite Hs3. exact Hu.
Qed.

(** *** One call of [render] *)

Lemma init_phase_returns params e s :
  fst (init_phase params e s) = negb (init_ok params e (rend s)).
Proof.
  unfold init_ok. destruct (needs_init params (rend s)) eqn:H.
  - apply init_phase_effect, H.
  - rewrite init_phase_skipped by exact H. reflexivity.
Qed.

Lemma init_phase_view params e s : view (snd (init_phase params e s)) = view s.
Proof. apply quiet_view. intro x. apply init_phase_quiet. Qed.

Lemma render_returned params should_blur e s :
  fst (render params should_blur e s) = accepted params e (rend s).
Proof.
  rewrite render_phases. unfold accepted.
  destruct (bad_handles params); [ reflexivity | ].
  pose proof (init_phase_returns params e s) as H.
  destruct (init_phase params e s) as [failed s1]. cbn [fst] in H. subst failed.
  destruct (init_ok params e (rend s)); [ | reflexivity ].
  cbn [negb andb]. destruct (bad_size params); [ reflexivity | ].
  apply body_effect.
Qed.

Lemma render_rejected params should_blur e s :
  fst (render params should_blur e s) = false ->
  view (snd (render params should_blur e s)) = view s.
Proof.
  rewrite render_phases.
  destruct (bad_handles params); [ reflexivity | ].
  pose proof (init_phase_view params e s) as H.
  destruct (init_phase params e s) as [failed s1]. cbn [snd] in H.
  destruct failed; [ intros _; exact H | ].
  destruct (bad_size params); [ intros _; exact H | ].
  intro Hb. destruct (body_effect params should_blur e s1) as [Ht _]. congruence.
Qed.

Lemma on_resize_flags params r1 r2 :
  flags r1 = flags r2 -> flags (on_resize params r1) = flags (on_resize params r2).
Proof.
  intro H. flags_eq H. unfold on_resize, resized, reset_flags. rewrite Hw, Hh.
  destruct (negb (width_ r2 =? window_width params)%Z
            || negb (height_ r2 =? window_height params)%Z);
    unfold flags; cbn; congruence.
Qed.

Lemma advance_flags params should_blur now done r1 r2 :
  flags r1 = flags r2 ->
  flags (advance params should_blur now done r1) =
  flags (advance params should_blur now done r2).
Proof.
  intro H. unfold advance.
  apply set_last_flags, on_capture_flags, on_intent_flags, on_resize_flags, H.
Qed.

Lemma render_accepted params should_blur e s :
  fst (render params should_blur e s) = true ->
  exists done : bool,
    flags (rend (snd (render params should_blur e s))) =
    flags (advance params should_blur (GetTime e) done (rend s)) /\
    gdraw (snd (render params should_blur e s)) =
    gdraw s ++ composite_when params should_blur (rend (snd (render params should_blur e s))).
Proof.
  rewrite render_phases.
  destruct (bad_handles params); [ discriminate | ].
  pose proof (init_phase_view params e s) as H.
  destruct (init_phase params e s) as [failed s1]. cbn [snd] in H.
  destruct failed; [ discriminate | ].
  destruct (bad_size params); [ discriminate | ].
  intros _. apply view_inv in H. destruct H as (Hd & Hc & Hf).
  destruct (body_effect params should_blur e s1) as (_ & done & Hb & _ & Hdraw).
  exists done. rewrite Hb, <- Hd. split; [ apply advance_flags, Hf | exact Hdraw ].
Qed.

Lemma render_ambient params should_blur e s :
  ambient (gctx (snd (render params should_blur e s))) = ambient (gctx s).
Proof.
  rewrite render_phases.
  destruct (bad_handles params); [ reflexivity | ].
  pose proof (init_phase_view params e s) as H.
  destruct (init_phase params e s) as [failed s1]. cbn [snd] in H.
  apply view_inv in H. destruct H as (Hd & Hc & Hf).
  destruct failed; [ cbn; congruence | ].
  destruct (bad_size params); [ cbn; congruence | ].
  destruct (body_effect params should_blur e s1) as (_ & done & _ & Ha & _).
  congruence.
Qed.

(** *** Which API calls a call of [render] makes *)

Ltac housekeeping_call :=
  intros ? ? ?; unfold only_housekeeping in *; cbn;
  first [ assumption
        | apply Forall_app; split; [ assumption | repeat constructor ] ].

Lemma cleanup_render_targets_calls : maintains only_housekeeping cleanup_render_targets.
Proof. unfold cleanup_render_targets. maintain_with housekeeping_call. Qed.

Lemma cleanup_all_calls : maintains only_housekeeping cleanup_all.
Proof.
  unfold cleanup_all.
  maintain_with ltac:(first [ housekeeping_call | apply cleanup_render_targets_calls ]).
Qed.

Lemma initialize_shaders_calls : maintains only_housekeeping initialize_shaders.
Proof. unfold initialize_shaders. maintain_with housekeeping_call. Qed.

Lemma initialize_render_states_calls : maintains only_housekeeping initialize_render_states.
Proof. unfold initialize_render_states. maintain_with housekeeping_call. Qed.

Lemma init_phase_calls params : maintains only_housekeeping (init_phase params).
Proof.
  unfold init_phase.
  maintain_with ltac:(first [ housekeeping_call | apply cleanup_all_calls
                            | apply initialize_shaders_calls
                            | apply initialize_render_states_calls ]).
Qed.

Lemma resize_phase_calls params : maintains only_housekeeping (resize_phase params).
Proof.
  unfold resize_phase.
  maintain_with ltac:(first [ housekeeping_call | apply cleanup_render_targets_calls ]).
Qed.

Lemma due_flags params should_blur now r1 r2 :
  flags r1 = flags r2 -> due params should_blur now r1 = due params should_blur now r2.
Proof. intro H. flags_eq H. unfold due. congruence. Qed.

(** When no capture is due on this call, the call only does housekeeping. *)
Lemma render_calls params should_blur e s :
  due params should_blur (GetTime e)
    (on_intent should_blur (GetTime e) (on_resize params (rend s))) = false ->
  only_housekeeping s ->
  only_housekeeping (snd (render params should_blur e s)).
Proof.
  intros Hdue Hs. rewrite render_phases.
  destruct (bad_handles params); [ exact Hs | ].
  pose proof (init_phase_view params e s) as Hv.
  pose proof (init_phase_calls params e s Hs) as Hl.
  destruct (init_phase params e s) as [failed s1]. cbn [snd] in *.
  destruct failed; [ exact Hl | ].
  destruct (bad_size params); [ exact Hl | ].
  apply view_inv in Hv. destruct Hv as (_ & _ & Hf).
  unfold body, bind.
  destruct (resize_phase_effect params e s1) as (Hf1 & _ & _).
  pose proof (resize_phase_calls params e s1 Hl) as Hl1.
  destruct (resize_phase params e s1) as [u1 s2]. cbn [snd] in *.
  rewrite activation_phase_effect.
  rewrite capture_phase_skipped.
  - rewrite finish_phase_effect. exact Hl1.
  - cbn [rend]. rewrite <- Hdue. apply due_flags, on_intent_flags.
    rewrite Hf1. apply on_resize_flags, Hf.
Qed.

(** *** Calls as the host sees them *)

Lemma render_frame_eq f r :
  render_frame f r =
  let o := render (params f) (should_blur f) (world f) (start r (host f)) in
  {| returned := fst o; drawn := gdraw (snd o); calls := glog (snd o);
     after := rend (snd o); context_after := gctx (snd o) |}.
Proof.
  unfold render_frame.
  destruct (render (params f) (should_blur f) (world f) (start r (host f))).
  reflexivity.
Qed.

Lemma frame_returned f r :
  returned (render_frame f r) = accepted (params f) (world f) r.
Proof. rewrite render_frame_eq. cbn. apply render_returned. Qed.

Lemma frame_rejected f r :
  returned (render_frame f r) = false ->
  flags (after (render_frame f r)) = flags r /\
  drawn (render_frame f r) = [] /\
  context_after (render_frame f r) = host f.
Proof.
  rewrite render_frame_eq. cbn. intro H.
  apply render_rejected, view_inv in H. destruct H as (Hd & Hc & Hf). auto.
Qed.

Lemma frame_accepted f r :
  returned (render_frame f r) = true ->
  exists done : bool,
    flags (after (render_frame f r)) =
    flags (advance (params f) (should_blur f) (GetTime (world f)) done r) /\
    drawn (render_frame f r) =
    composite_when (params f) (should_blur f) (after (render_frame f r)).
Proof.
  rewrite render_frame_eq. cbn. intro H.
  apply render_accepted in H. exact H.
Qed.

(** [blur_enabled_last_frame_] is the intent of the last completed call. *)
Lemma frame_last_intent f r :
  blur_enabled_last_frame_ (after (render_frame f r)) =
  if returned (render_frame f r) then should_blur f else blur_enabled_last_frame_ r.
Proof.
  destruct (returned (render_frame f r)) eqn:Hret.
  - destruct (frame_accepted f r Hret) as (done & Hf & _). flags_eq Hf.
    rewrite Hlast. reflexivity.
  - destruct (frame_rejected f r Hret) as (Hf & _). flags_eq Hf. exact Hlast.
Qed.

Lemma composite_when_cases params should_blur r :
  composite_when params should_blur r = [] \/
  should_blur = true /\ blur_processed_ r = true /\
  exists list srv,
    draw_list params = Some list /\ blur_srv_ r = Some srv /\
    composite_when params should_blur r = [composite params list srv].
Proof.
  unfold composite_when.
  destruct (draw_list params) as [ list | ]; [ | left; reflexivity ].
  destruct (blur_srv_ r) as [ srv | ]; [ | left; reflexivity ].
  destruct (should_blur && blur_processed_ r) eqn:Hb; [ | left; reflexivity ].
  apply andb_prop in Hb. destruct Hb as [Hb1 Hb2].
  right. repeat split; try assumption. exists list, srv. auto.
Qed.

Lemma frame_drawn f r :
  drawn (render_frame f r) <> [] ->
  returned (render_frame f r) = true /\ should_blur f = true /\
  blur_processed_ (after (render_frame f r)) = true /\
  exists list srv,
    draw_list (params f) = Some list /\
    blur_srv_ (after (render_frame f r)) = Some srv /\
    drawn (render_frame f r) = [composite (params f) list srv].
Proof.
  intro Hd. destruct (returned (render_frame f r)) eqn:Hret.
  - destruct (frame_accepted f r Hret) as (done & _ & Hdraw).
    rewrite Hdraw in *.
    destruct (composite_when_cases (params f) (should_blur f) (after (render_frame f r)))
      as [ H | H ]; [ contradiction | ].
    split; [ reflexivity | exact H ].
  - apply frame_rejected in Hret. destruct Hret as (_ & H & _). contradiction.
Qed.

Lemma frame_calls f r :
  due (params f) (should_blur f) (GetTime (world f))
    (on_intent (should_blur f) (GetTime (world f)) (on_resize (params f) r)) = false ->
  Forall (fun c => housekeeping c = true) (calls (render_frame f r)).
Proof.
  intro H. rewrite render_frame_eq. cbn.
  apply (render_calls (params f) (should_blur f) (world f) (start r (host f)) H).
  constructor.
Qed.

(** A property kept by every call holds along every run, together with
    whatever each call guarantees under it. *)
Lemma run_Forall (P : blur_renderer -> Prop) (Q : step -> Prop) :
  (forall f r, P r ->
     P (after (render_frame f r)) /\
     Q {| req := f; before := r; result := render_frame f r |}) ->
  forall fs r, P r -> Forall Q (run r fs).
Proof.
  intros Hstep fs. induction fs as [ | f fs IH ]; intros r Hr.
  - constructor.
  - cbn [run]. destruct (Hstep f r Hr) as [HP HQ].
    constructor; [ exact HQ | apply IH, HP ].
Qed.

(** *** Releasing resources *)

Ltac lens_law := intros r H; destruct r; cbn in *; subst; reflexivity.

Lemma release_effect get set :
  (forall r, get r = None -> set None r = r) ->
  forall e s,
    rend (snd (release get set e s)) = set None (rend s) /\
    gctx (snd (release get set e s)) = gctx s /\
    gdraw (snd (release get set e s)) = gdraw s.
Proof.
  intros law e s. unfold release, bind. cbn [this].
  destruct (get (rend s)) eqn:H; cbn; auto using eq_sym.
Qed.

Ltac release_chain e :=
  repeat (unfold bind at 1;
          match goal with
          | |- context [let (_, _) := release ?g ?st e ?s0 in _] =>
            let H := fresh "Hrel" in
            destruct (release_effect g st ltac:(lens_law) e s0) as (H & _ & _);
            destruct (release g st e s0) as [? ?]; cbn [snd] in H; rewrite <- H; clear H
          end).

Lemma cleanup_render_targets_rend e s :
  rend (snd (cleanup_render_targets e s)) = clear_targets (rend s).
Proof.
  unfold cleanup_render_targets, clear_targets.
  release_chain e.
  apply release_effect. lens_law.
Qed.

Lemma cleanup_all_rend e s :
  rend (snd (cleanup_all e s)) = clear_all (rend s).
Proof.
  unfold cleanup_all, clear_all.
  unfold bind at 1. rewrite <- (cleanup_render_targets_rend e s).
  destruct (cleanup_render_targets e s) as [u s0]. cbn [snd].
  release_chain e.
  reflexivity.
Qed.

(** Case analysis on one step of the state machine. *)
Ltac advance_cases params b r done :=
  unfold advance, on_capture, due, on_intent, on_resize, reset_flags;
  destruct (resized params r); cbn;
  tryif is_var b then destruct b else idtac; cbn;
  destruct (blur_enabled_last_frame_ r) eqn:?; cbn;
  destruct (blur_capture_pending_ r) eqn:?; cbn;
  destruct (blur_processed_ r) eqn:?; cbn;
  repeat match goal with
         | |- context [fl_geb ?x ?y] => destruct (fl_geb x y) eqn:?; cbn
         end;
  try destruct done; cbn.

Lemma advance_processed_after_capture params should_blur now done r :
  processed_after_capture r ->
  processed_after_capture (advance params should_blur now done r).
Proof.
  unfold processed_after_capture. intro H. advance_cases params should_blur r done;
    intros; try congruence; auto.
Qed.

Lemma frame_processed_after_capture f r :
  processed_after_capture r -> processed_after_capture (after (render_frame f r)).
Proof.
  intro H. unfold processed_after_capture in *.
  destruct (returned (render_frame f r)) eqn:Hret.
  - destruct (frame_accepted f r Hret) as (done & Hf & _).
    pose proof (advance_processed_after_capture (params f) (should_blur f)
                  (GetTime (world f)) done r H) as Ha.
    unfold processed_after_capture in Ha.
    flags_eq Hf. rewrite Hcap, Hproc. exact Ha.
  - apply frame_rejected in Hret. destruct Hret as (Hf & _). flags_eq Hf.
    rewrite Hcap, Hproc. exact H.
Qed.

(** C9. Every successful run of the two blur passes leaves the render
    target, the depth-stencil view and the viewport of the context as it
    found them, and leaves pixel-shader resource slot 0 unbound. *)
Theorem process_blur_restores_host_state blur_strength e s :
  fst (process_blur blur_strength e s) = true ->
  om_rtv (gctx (snd (process_blur blur_strength e s))) = om_rtv (gctx s) /\
  om_dsv (gctx (snd (process_blur blur_strength e s))) = om_dsv (gctx s) /\
  rs_viewport (gctx (snd (process_blur blur_strength e s))) = rs_viewport (gctx s) /\
  ps_srv (gctx (snd (process_blur blur_strength e s))) = None.
Proof.
  rewrite process_blur_returns. intro H.
  destruct (process_blur_passes blur_strength e s H) as (_ & _ & _ & H1 & H2 & H3 & H4).
  auto.
Qed.

(** C10. [process_blur] without a captured background returns [false]
    and does nothing at all; it sets [blur_processed_] only behind that
    guard; [reset_state] clears both flags; so along every run from a new
    renderer [blur_processed_] implies [background_captured_], and a call
    that adds the composite to the draw list has both flags set and draws
    the renderer's [blur_srv_]. *)
Theorem blur_only_after_capture :
  (forall blur_strength e s,
     background_captured_ (rend s) = false ->
     process_blur blur_strength e s = (false, s)) /\
  (forall blur_strength e s,
     blur_processed_ (rend (snd (process_blur blur_strength e s))) = true ->
     blur_processed_ (rend s) = true \/ background_captured_ (rend s) = true) /\
  (forall e s,
     background_captured_ (rend (snd (reset_state e s))) = false /\
     blur_processed_ (rend (snd (reset_state e s))) = false) /\
  (forall fs,
     Forall (fun st =>
               processed_after_capture (after (result st)) /\
               (drawn (result st) <> [] ->
                blur_processed_ (after (result st)) = true /\
                background_captured_ (after (result st)) = true /\
                forall cmd, In cmd (drawn (result st)) ->
                            blur_srv_ (after (result st)) = Some (cmd_texture cmd)))
            (run new_renderer fs)).
Proof.
  split; [ | split; [ | split ] ].
  - intros. apply process_blur_guard. assumption.
  - intros blur_strength e s H.
    destruct (background_captured_ (rend s)) eqn:Hc; [ right; reflexivity | ].
    rewrite process_blur_guard in H by exact Hc. left. exact H.
  - intros e s. split; reflexivity.
  - intro fs. apply run_Forall with (P := processed_after_capture).
    + intros f r Hr. pose proof (frame_processed_after_capture f r Hr) as Hinv.
      split; [ exact Hinv | ]. cbn [result]. split; [ exact Hinv | ].
      intro Hd. destruct (frame_drawn f r Hd) as (_ & _ & Hp & list & srv & _ & Hs & Hc).
      split; [ exact Hp | ]. split; [ apply Hinv, Hp | ].
      rewrite Hc, Hs. intros cmd [ <- | [] ]. reflexivity.
    + unfold processed_after_capture. cbn. discriminate.
Qed.

Lemma run_Forall_frames (R : frame -> Prop) (P : blur_renderer -> Prop)
    (Q : step -> Prop) :
  (forall f r, R f -> P r ->
     P (after (render_frame f r)) /\
     Q {| req := f; before := r; result := render_frame f r |}) ->
  forall fs r, Forall R fs -> P r -> Forall Q (run r fs).
Proof.
  intros Hstep fs. induction fs as [ | f fs IH ]; intros r Hfs Hr.
  - constructor.
  - cbn [run]. inversion Hfs as [ | ? ? Hf Hfs' ]; subst.
    destruct (Hstep f r Hf Hr) as [HP HQ].
    constructor; [ exact HQ | apply IH; assumption ].
Qed.

(** *** Rejected calls *)

Lemma render_rejected_calls params should_blur e s :
  fst (render params should_blur e s) = false ->
  only_housekeeping s ->
  only_housekeeping (snd (render params should_blur e s)).
Proof.
  intros Hret Hs. rewrite render_phases in *.
  destruct (bad_handles params); [ exact Hs | ].
  pose proof (init_phase_calls params e s Hs) as Hl.
  destruct (init_phase params e s) as [failed s1]. cbn [snd] in *.
  destruct failed; [ exact Hl | ].
  destruct (bad_size params); [ exact Hl | ].
  destruct (body_effect params should_blur e s1) as [Ht _]. congruence.
Qed.

Lemma frame_rejected_calls f r :
  returned (render_frame f r) = false ->
  Forall (fun c => housekeeping c = true) (calls (render_frame f r)).
Proof.
  rewrite render_frame_eq. cbn. intro H.
  apply (render_rejected_calls _ _ _ _ H). constructor.
Qed.

Lemma frame_bad_handles f r :
  bad_handles (params f) = true ->
  render_frame f r =
  {| returned := false; drawn := []; calls := []; after := r; context_after := host f |}.
Proof.
  intro H. rewrite render_frame_eq, render_phases, H. reflexivity.
Qed.

Lemma frame_bad_size_initialised f r :
  bad_handles (params f) = false ->
  needs_init (params f) r = false ->
  bad_size (params f) = true ->
  render_frame f r =
  {| returned := false; drawn := []; calls := []; after := r; context_after := host f |}.
Proof.
  intros Hh Hi Hs.
  rewrite render_frame_eq, render_phases, Hh, init_phase_skipped by exact Hi.
  rewrite Hs. reflexivity.
Qed.

Lemma housekeeping_no_allocation c :
  housekeeping c = true -> allocates_texture c = false.
Proof.
  destruct c; cbn; try discriminate; try reflexivity.
  intro H. rewrite H. reflexivity.
Qed.

Lemma body_steady params should_blur x : maintains (steady x) (body params should_blur).
Proof.
  unfold body, resize_phase, activation_phase, capture_phase, capture_and_blur,
    finish_phase, ensure_render_targets, capture_background, process_blur,
    cleanup_render_targets.
  maintain.
Qed.

Lemma init_phase_complete params e s :
  initialised_complete (rend s) ->
  (fst (init_phase params e s) = false ->
   initialized_ (rend (snd (init_phase params e s))) = true /\
   pipeline_complete (rend (snd (init_phase params e s))) = true) /\
  (fst (init_phase params e s) = true ->
   initialized_ (rend (snd (init_phase params e s))) = false).
Proof.
  intro J. destruct (needs_init params (rend s)) eqn:Hn.
  - destruct (init_phase_effect params e s Hn) as (H1 & H2 & H3).
    rewrite H1, H2.
    destruct (shaders_ok e && render_states_ok e); cbn; split; auto; discriminate.
  - rewrite init_phase_skipped by exact Hn. cbn.
    unfold needs_init in Hn. apply orb_false_elim in Hn. destruct Hn as [Hi _].
    apply negb_false_iff in Hi.
    split; [ intros _; split; [ exact Hi | apply J, Hi ] | discriminate ].
Qed.

Lemma frame_complete f r :
  initialised_complete r ->
  initialised_complete (after (render_frame f r)) /\
  (returned (render_frame f r) = true ->
   initialized_ (after (render_frame f r)) = true /\
   pipeline_complete (after (render_frame f r)) = true).
Proof.
  intro J. rewrite render_frame_eq. cbn. rewrite render_phases.
  destruct (bad_handles (params f)); [ cbn; split; [ exact J | discriminate ] | ].
  destruct (init_phase_complete (params f) (world f) (start r (host f)) J) as [Hok Hfail].
  destruct (init_phase (params f) (world f) (start r (host f))) as [failed s1].
  cbn [fst snd] in *.
  destruct failed.
  - cbn. split; [ | discriminate ].
    unfold initialised_complete. rewrite Hfail by reflexivity. discriminate.
  - destruct (Hok eq_refl) as [Hi Hc].
    destruct (bad_size (params f)).
    + cbn. split; [ intros _; exact Hc | discriminate ].
    + pose proof (body_steady (params f) (should_blur f) _ (world f) s1 eq_refl) as Hb.
      unfold steady in Hb. injection Hb as Hb1 Hb2.
      unfold initialised_complete. rewrite Hb1, Hb2, Hi, Hc. auto.
Qed.

(** *** Calls without intent, degenerate requests, initialisation *)

Lemma not_due_without_intent params now r : due params false now r = false.
Proof. reflexivity. Qed.

(** C4. Along every sequence of calls with [should_blur = false], from
    any renderer state: no call adds a draw command, no call allocates a
    texture or a view, and every well-formed call (handles present,
    positive truncated size, pipeline usable) returns [true]. *)
Theorem no_blur_without_intent fs r :
  Forall (fun f => should_blur f = false) fs ->
  Forall (fun st =>
            drawn (result st) = [] /\
            Forall (fun c => allocates_texture c = false) (calls (result st)) /\
            (accepted (params (req st)) (world (req st)) (before st) = true ->
             returned (result st) = true))
         (run r fs).
Proof.
  intro Hfs.
  apply run_Forall_frames with (R := fun f => should_blur f = false) (P := fun _ => True);
    [ | exact Hfs | exact I ].
  intros f r0 Hb _. split; [ exact I | ]. cbn [req before result].
  split; [ | split ].
  - destruct (drawn (render_frame f r0)) eqn:Hd; [ reflexivity | ].
    assert (Hne : drawn (render_frame f r0) <> []) by (rewrite Hd; discriminate).
    apply frame_drawn in Hne. destruct Hne as (_ & Hsb & _). congruence.
  - eapply Forall_impl; [ apply housekeeping_no_allocation | ].
    apply frame_calls. rewrite Hb. reflexivity.
  - intro Ha. rewrite frame_returned. exact Ha.
Qed.

(** C5, as the code does it. A call without device or draw-list handle
    returns [false] at once: no API call, no draw command, renderer and
    context unchanged.  A call whose truncated width or height is not
    positive also returns [false], draws nothing, leaves flags and context
    alone and makes no call besides pipeline housekeeping; but the size is
    only checked after the initialisation step, so the call is free of
    API calls when the renderer is already initialised for the request's
    device, and otherwise releases, compiles and creates first. *)
Theorem degenerate_request_rejected f r :
  (bad_handles (params f) = true ->
   render_frame f r =
   {| returned := false; drawn := []; calls := []; after := r;
      context_after := host f |}) /\
  (bad_size (params f) = true ->
   returned (render_frame f r) = false /\
   drawn (render_frame f r) = [] /\
   flags (after (render_frame f r)) = flags r /\
   context_after (render_frame f r) = host f /\
   Forall (fun c => housekeeping c = true) (calls (render_frame f r)) /\
   (needs_init (params f) r = false ->
    calls (render_frame f r) = [] /\ after (render_frame f r) = r)).
Proof.
  split.
  - apply frame_bad_handles.
  - intro Hs.
    assert (Hret : returned (render_frame f r) = false).
    { rewrite frame_returned. unfold accepted. rewrite Hs. apply andb_false_r. }
    destruct (frame_rejected f r Hret) as (Hf & Hd & Hc).
    repeat split; try assumption.
    + apply frame_rejected_calls, Hret.
    + destruct (bad_handles (params f)) eqn:Hh.
      * rewrite frame_bad_handles by exact Hh. reflexivity.
      * rewrite frame_bad_size_initialised by assumption. reflexivity.
    + destruct (bad_handles (params f)) eqn:Hh.
      * rewrite frame_bad_handles by exact Hh. reflexivity.
      * rewrite frame_bad_size_initialised by assumption. reflexivity.
Qed.

Lemma final_invariant (P : blur_renderer -> Prop) :
  (forall f r, P r -> P (after (render_frame f r))) ->
  forall fs r, P r -> P (final r fs).
Proof.
  intros Hstep fs. induction fs as [ | f fs IH ]; intros r Hr.
  - exact Hr.
  - cbn [final]. apply IH, Hstep, Hr.
Qed.

(** C7, as the code does it. Initialisation fails as soon as one shader
    does not compile or one pipeline object cannot be created; the
    renderer then stays uninitialised and [render] returns [false].
    Objects created before the failing step stay in the renderer until
    [cleanup_all] runs again, which empties the pipeline.  Along every run
    from a new renderer, whenever [render] gets past initialisation, and
    whenever it returns [true], every pipeline object is valid. *)
Theorem pipeline_complete_when_used fs f :
  let r := final new_renderer fs in
  let s1 := init_phase (params f) (world f) (start r (host f)) in
  (fst s1 = false ->
   initialized_ (rend (snd s1)) = true /\ pipeline_complete (rend (snd s1)) = true) /\
  (fst s1 = true ->
   initialized_ (rend (snd s1)) = false /\ returned (render_frame f r) = false) /\
  (returned (render_frame f r) = true ->
   pipeline_complete (after (render_frame f r)) = true) /\
  (forall e s, pipeline_empty (rend (snd (cleanup_all e s))) = true).
Proof.
  intros r s1.
  assert (J : initialised_complete r).
  { apply final_invariant.
    - intros f0 r0 H. apply frame_complete, H.
    - unfold initialised_complete. cbn. discriminate. }
  destruct (init_phase_complete (params f) (world f) (start r (host f)) J) as [Hok Hfail].
  fold s1 in Hok, Hfail.
  split; [ exact Hok | ]. split; [ | split ].
  - intro H. split; [ apply Hfail, H | ].
    rewrite render_frame_eq. cbn. rewrite render_phases.
    destruct (bad_handles (params f)); [ reflexivity | ].
    fold s1. destruct s1 as [failed s2]. cbn in H. subst failed. reflexivity.
  - apply frame_complete, J.
  - intros e s. rewrite cleanup_all_rend. reflexivity.
Qed.

(** *** After a failed attempt or a resize *)

Lemma advance_stalled params now done r :
  stalled r ->
  stalled (advance params true now done r) /\
  blur_enable_time_ (advance params true now done r) = blur_enable_time_ r.
Proof.
  unfold stalled. intros (Hp & Hq & Hl).
  advance_cases params true r done; repeat split; congruence.
Qed.

Lemma due_stalled params now r :
  stalled r -> due params true now (on_intent true now (on_resize params r)) = false.
Proof.
  unfold stalled. intros (Hp & Hq & Hl).
  unfold due, on_intent, on_resize, reset_flags.
  destruct (resized params r); cbn; rewrite Hl; cbn; [ reflexivity | ].
  rewrite Hp. reflexivity.
Qed.

Lemma frame_stalled f r :
  should_blur f = true ->
  stalled r ->
  stalled (after (render_frame f r)) /\
  blur_enable_time_ (after (render_frame f r)) = blur_enable_time_ r /\
  drawn (render_frame f r) = [] /\
  Forall (fun c => housekeeping c = true) (calls (render_frame f r)).
Proof.
  intros Hb Hs.
  assert (Hflags : stalled (after (render_frame f r)) /\
                   blur_enable_time_ (after (render_frame f r)) = blur_enable_time_ r).
  { destruct (returned (render_frame f r)) eqn:Hret.
    - destruct (frame_accepted f r Hret) as (done & Hf & _). rewrite Hb in Hf.
      destruct (advance_stalled (params f) (GetTime (world f)) done r Hs)
        as ((Hp & Hq & Hl) & Ht).
      flags_eq Hf. unfold stalled. repeat split; congruence.
    - destruct (frame_rejected f r Hret) as (Hf & _).
      destruct Hs as (Hp & Hq & Hl).
      flags_eq Hf. unfold stalled. repeat split; congruence. }
  destruct Hflags as [Hst Ht]. split; [ exact Hst | ]. split; [ exact Ht | ]. split.
  - destruct (drawn (render_frame f r)) eqn:Hd; [ reflexivity | ].
    assert (Hne : drawn (render_frame f r) <> []) by (rewrite Hd; discriminate).
    apply frame_drawn in Hne. destruct Hne as (_ & _ & Hp & _).
    destruct Hst as (_ & Hq & _). congruence.
  - apply frame_calls. rewrite Hb. apply due_stalled, Hs.
Qed.

(** Once stalled, a run of calls with the intent set never draws, never
    touches the context or allocates, and keeps the activation time. *)
Lemma run_stalled fs r :
  Forall (fun f => should_blur f = true) fs ->
  stalled r ->
  Forall (fun st =>
            drawn (result st) = [] /\
            Forall (fun c => housekeeping c = true) (calls (result st)) /\
            blur_capture_pending_ (after (result st)) = false /\
            blur_processed_ (after (result st)) = false /\
            blur_enable_time_ (after (result st)) = blur_enable_time_ r)
         (run r fs).
Proof.
  intros Hfs Hs.
  apply run_Forall_frames
    with (R := fun f => should_blur f = true)
         (P := fun r0 => stalled r0 /\ blur_enable_time_ r0 = blur_enable_time_ r);
    [ | exact Hfs | auto ].
  intros f r0 Hb [Hs0 Ht0].
  destruct (frame_stalled f r0 Hb Hs0) as (Hst & Ht & Hd & Hc).
  cbn [result]. destruct Hst as (Hp & Hq & Hl).
  unfold stalled. repeat split; try assumption; congruence.
Qed.

Lemma advance_failed params now done r :
  blur_capture_pending_ r = true ->
  blur_processed_ r = false ->
  blur_enabled_last_frame_ r = true ->
  fl_geb (fl_sub now (blur_enable_time_ r)) (delay_time params) = true ->
  blur_processed_ (advance params true now done r) = false ->
  stalled (advance params true now done r) /\
  blur_enable_time_ (advance params true now done r) = blur_enable_time_ r.
Proof.
  unfold stalled. intros Hp Hq Hl Hd.
  advance_cases params true r done; intros; repeat split; congruence.
Qed.

Lemma advance_resized params now done r :
  blur_enabled_last_frame_ r = true ->
  resized params r = true ->
  stalled (advance params true now done r) /\
  width_ (advance params true now done r) = window_width params /\
  height_ (advance params true now done r) = window_height params.
Proof.
  unfold stalled, advance, on_capture, due, on_intent, on_resize, reset_flags.
  intros Hl Hr. rewrite Hr. cbn. rewrite Hl. cbn. auto.
Qed.

Lemma stalled_flags r1 r2 : flags r1 = flags r2 -> stalled r2 -> stalled r1.
Proof. intros H (Hp & Hq & Hl). flags_eq H. unfold stalled. repeat split; congruence. Qed.

Lemma stalled_no_draw f r :
  stalled (after (render_frame f r)) -> drawn (render_frame f r) = [].
Proof.
  intros (_ & Hq & _).
  destruct (drawn (render_frame f r)) eqn:Hd; [ reflexivity | ].
  assert (Hne : drawn (render_frame f r) <> []) by (rewrite Hd; discriminate).
  apply frame_drawn in Hne. destruct Hne as (_ & _ & Hp & _). congruence.
Qed.

(** C1, as the code does it. A capture is pending, the delay has elapsed,
    the call completes, and the capture or the texture allocation fails
    (no blur has been processed after the call).  Then the activation time
    is not re-stamped, but the pending flag is cleared: the call draws
    nothing, and on every later call for as long as the intent stays set
    nothing is drawn and no capture or allocation is attempted.  The
    attempt is not repeated. *)
Theorem failed_attempt_is_not_retried f r fs :
  should_blur f = true ->
  blur_capture_pending_ r = true ->
  blur_processed_ r = false ->
  blur_enabled_last_frame_ r = true ->
  returned (render_frame f r) = true ->
  fl_geb (fl_sub (GetTime (world f)) (blur_enable_time_ r)) (delay_time (params f)) = true ->
  blur_processed_ (after (render_frame f r)) = false ->
  Forall (fun g => should_blur g = true) fs ->
  blur_enable_time_ (after (render_frame f r)) = blur_enable_time_ r /\
  blur_capture_pending_ (after (render_frame f r)) = false /\
  drawn (render_frame f r) = [] /\
  Forall (fun st =>
            drawn (result st) = [] /\
            Forall (fun c => housekeeping c = true) (calls (result st)) /\
            blur_capture_pending_ (after (result st)) = false /\
            blur_processed_ (after (result st)) = false /\
            blur_enable_time_ (after (result st)) = blur_enable_time_ r)
         (run (after (render_frame f r)) fs).
Proof.
  intros Hb Hp Hq Hl Hret Hd Hfail Hfs.
  destruct (frame_accepted f r Hret) as (done & Hf & _). rewrite Hb in Hf.
  assert (Hfail' : blur_processed_
                     (advance (params f) true (GetTime (world f)) done r) = false).
  { pose proof Hf as Hf'. flags_eq Hf'. congruence. }
  destruct (advance_failed (params f) (GetTime (world f)) done r Hp Hq Hl Hd Hfail')
    as [Hst Ht].
  pose proof (stalled_flags _ _ Hf Hst) as Hst'.
  assert (Ht' : blur_enable_time_ (after (render_frame f r)) = blur_enable_time_ r).
  { pose proof Hf as Hf'. flags_eq Hf'. congruence. }
  split; [ exact Ht' | ]. split; [ apply Hst' | ].
  split; [ apply stalled_no_draw, Hst' | ].
  rewrite <- Ht'. apply run_stalled; assumption.
Qed.

(** C2, as the code does it. The blur is processed and the intent stays
    set; a completed call sees a changed width or height.  That call draws
    nothing and records the new size, but it leaves no capture pending:
    on every later call for as long as the intent stays set nothing is
    drawn and no capture or allocation is attempted.  The blur comes back
    only after the intent has been cleared and set again. *)
Theorem resize_discards_blur f r fs :
  should_blur f = true ->
  blur_processed_ r = true ->
  blur_enabled_last_frame_ r = true ->
  returned (render_frame f r) = true ->
  resized (params f) r = true ->
  Forall (fun g => should_blur g = true) fs ->
  drawn (render_frame f r) = [] /\
  blur_capture_pending_ (after (render_frame f r)) = false /\
  blur_processed_ (after (render_frame f r)) = false /\
  width_ (after (render_frame f r)) = window_width (params f) /\
  height_ (after (render_frame f r)) = window_height (params f) /\
  Forall (fun st =>
            drawn (result st) = [] /\
            Forall (fun c => housekeeping c = true) (calls (result st)) /\
            blur_capture_pending_ (after (result st)) = false /\
            blur_processed_ (after (result st)) = false)
         (run (after (render_frame f r)) fs).
Proof.
  intros Hb Hq Hl Hret Hr Hfs.
  destruct (frame_accepted f r Hret) as (done & Hf & _). rewrite Hb in Hf.
  destruct (advance_resized (params f) (GetTime (world f)) done r Hl Hr)
    as (Hst & Hw & Hh).
  pose proof (stalled_flags _ _ Hf Hst) as Hst'.
  split; [ apply stalled_no_draw, Hst' | ].
  split; [ apply Hst' | ]. split; [ apply Hst' | ].
  split; [ | split ].
  - pose proof Hf as Hf'. flags_eq Hf'. congruence.
  - pose proof Hf as Hf'. flags_eq Hf'. congruence.
  - eapply Forall_impl; [ | apply run_stalled; eassumption ].
    cbn. intros st (H1 & H2 & H3 & H4 & _). auto.
Qed.

(** *** The final texture view between captures *)

Ltac untouched_or_released :=
  first [ untouched | intros ? ? ?; right; reflexivity ].

Lemma cleanup_render_targets_srv x : maintains (kept_or_released x) cleanup_render_targets.
Proof. unfold cleanup_render_targets. maintain_with untouched_or_released. Qed.

Lemma cleanup_all_srv x : maintains (kept_or_released x) cleanup_all.
Proof.
  unfold cleanup_all.
  maintain_with ltac:(first [ untouched_or_released | apply cleanup_render_targets_srv ]).
Qed.

Lemma init_phase_srv params x : maintains (kept_or_released x) (init_phase params).
Proof.
  unfold init_phase, initialize_shaders, initialize_render_states.
  maintain_with ltac:(first [ untouched_or_released | apply cleanup_all_srv ]).
Qed.

Lemma resize_phase_srv params x : maintains (kept_or_released x) (resize_phase params).
Proof.
  unfold resize_phase.
  maintain_with ltac:(first [ untouched_or_released | apply cleanup_render_targets_srv ]).
Qed.

Lemma on_intent_srv should_blur now r :
  blur_srv_ (on_intent should_blur now r) = blur_srv_ r.
Proof.
  unfold on_intent, reset_flags.
  destruct (should_blur && negb (blur_enabled_last_frame_ r));
    [ reflexivity | ].
  destruct (negb should_blur && blur_enabled_last_frame_ r); reflexivity.
Qed.

Lemma render_srv params should_blur e s :
  due params should_blur (GetTime e)
    (on_intent should_blur (GetTime e) (on_resize params (rend s))) = false \/
  fst (render params should_blur e s) = false ->
  kept_or_released (blur_srv_ (rend s)) (snd (render params should_blur e s)).
Proof.
  intros Hcase.
  assert (Hs : kept_or_released (blur_srv_ (rend s)) s) by (left; reflexivity).
  rewrite render_phases in *.
  destruct (bad_handles params); [ exact Hs | ].
  pose proof (init_phase_view params e s) as Hv.
  pose proof (init_phase_srv params _ e s Hs) as Hl.
  destruct (init_phase params e s) as [failed s1]. cbn [snd] in *.
  destruct failed; [ exact Hl | ].
  destruct (bad_size params); [ exact Hl | ].
  destruct Hcase as [ Hdue | Hret ];
    [ | destruct (body_effect params should_blur e s1) as [Ht _]; congruence ].
  apply view_inv in Hv. destruct Hv as (_ & _ & Hf).
  unfold body, bind.
  destruct (resize_phase_effect params e s1) as (Hf1 & _ & _).
  pose proof (resize_phase_srv params _ e s1 Hl) as Hl1.
  destruct (resize_phase params e s1) as [u1 s2]. cbn [snd] in *.
  rewrite activation_phase_effect.
  rewrite capture_phase_skipped.
  - rewrite finish_phase_effect. unfold kept_or_released in *. cbn.
    rewrite on_intent_srv. exact Hl1.
  - cbn [rend]. rewrite <- Hdue. apply due_flags, on_intent_flags.
    rewrite Hf1. apply on_resize_flags, Hf.
Qed.

Lemma frame_srv f r :
  due (params f) (should_blur f) (GetTime (world f))
    (on_intent (should_blur f) (GetTime (world f)) (on_resize (params f) r)) = false \/
  returned (render_frame f r) = false ->
  is_set (blur_srv_ (after (render_frame f r))) = true ->
  is_set (blur_srv_ r) = true.
Proof.
  rewrite render_frame_eq. cbn. intros H Hset.
  destruct (render_srv (params f) (should_blur f) (world f) (start r (host f)) H)
    as [ Hk | Hk ]; cbn in Hk; rewrite Hk in Hset; [ exact Hset | discriminate ].
Qed.

Lemma due_processed params now r :
  blur_processed_ r = true ->
  blur_enabled_last_frame_ r = true ->
  due params true now (on_intent true now (on_resize params r)) = false.
Proof.
  intros Hq Hl. unfold due, on_intent, on_resize, reset_flags.
  destruct (resized params r); cbn; rewrite Hl; cbn.
  - reflexivity.
  - rewrite Hq. cbn. rewrite andb_false_r. reflexivity.
Qed.

(** *** The debounce *)

Lemma advance_transition params should_blur now done r :
  (blur_capture_pending_ r = true -> blur_processed_ r = false) ->
  (blur_capture_pending_ r = true \/ blur_processed_ r = true ->
   blur_enabled_last_frame_ r = true) ->
  blur_enabled_last_frame_ (advance params should_blur now done r) = should_blur /\
  transition params should_blur now r (advance params should_blur now done r).
Proof.
  intros A1 A2. split; [ reflexivity | ].
  remember (advance params should_blur now done r) as r' eqn:Hr'.
  assert (Hp : blur_capture_pending_ r' =
               blur_capture_pending_ (advance params should_blur now done r))
    by (rewrite Hr'; reflexivity).
  assert (Hq : blur_processed_ r' =
               blur_processed_ (advance params should_blur now done r))
    by (rewrite Hr'; reflexivity).
  assert (Ht : blur_enable_time_ r' =
               blur_enable_time_ (advance params should_blur now done r))
    by (rewrite Hr'; reflexivity).
  clear Hr'. revert Hp Hq Ht.
  advance_cases params should_blur r done; intros Hp Hq Ht;
    try (specialize (A1 eq_refl); discriminate);
    try (specialize (A2 (or_introl eq_refl)); discriminate);
    try (specialize (A2 (or_intror eq_refl)); discriminate);
    first [ solve [ apply t_idle; congruence ]
          | solve [ apply t_armed; congruence ]
          | solve [ apply t_waiting; congruence ]
          | solve [ apply t_captured_at_once; congruence ]
          | solve [ apply t_captured; congruence ]
          | solve [ apply t_kept; congruence ] ].
Qed.

Lemma nth_error_snoc {A} (l : list A) (x y : A) i :
  nth_error (l ++ [x]) i = Some y ->
  i < length l /\ nth_error l i = Some y \/ i = length l /\ y = x.
Proof.
  intro H. destruct (Nat.lt_ge_cases i (length l)) as [Hlt | Hge].
  - left. rewrite nth_error_app1 in H by exact Hlt. auto.
  - right. rewrite nth_error_app2 in H by exact Hge.
    destruct (i - length l) as [ | n ] eqn:Hn.
    + cbn in H. injection H as <-. split; [ lia | reflexivity ].
    + cbn in H. destruct n; discriminate.
Qed.

Lemma nth_error_keep {A} (l : list A) (x y : A) i :
  nth_error l i = Some y -> nth_error (l ++ [x]) i = Some y.
Proof.
  intro H. rewrite nth_error_app1; [ exact H | ].
  apply nth_error_Some. rewrite H. discriminate.
Qed.

Lemma nth_error_last {A} (l : list A) (x : A) :
  nth_error (l ++ [x]) (length l) = Some x.
Proof. rewrite nth_error_app2, Nat.sub_diag by lia. reflexivity. Qed.

Lemma intent_held_snoc tr st j :
  intent_held tr j ->
  (returned (result st) = true -> should_blur (req st) = true) ->
  intent_held (tr ++ [st]) j.
Proof.
  intros H Hst i si Hi Hn Hret.
  apply nth_error_snoc in Hn. destruct Hn as [[_ Hn] | [_ ->]].
  - exact (H i si Hi Hn Hret).
  - exact (Hst Hret).
Qed.

Lemma intent_held_last tr st : intent_held (tr ++ [st]) (length tr).
Proof.
  intros i si Hi Hn Hret.
  apply nth_error_snoc in Hn. destruct Hn as [[Hlt _] | [Heq _]]; lia.
Qed.

Lemma no_draw_snoc tr st j :
  no_draw tr j (length tr) ->
  drawn (result st) = [] ->
  no_draw (tr ++ [st]) j (length (tr ++ [st])).
Proof.
  intros H Hst i si Hi Hn.
  apply nth_error_snoc in Hn. destruct Hn as [[Hlt Hn] | [_ ->]].
  - apply (H i si); [ lia | exact Hn ].
  - exact Hst.
Qed.

Lemma no_draw_keep tr st j m :
  no_draw tr j m -> m <= length tr -> no_draw (tr ++ [st]) j m.
Proof.
  intros H Hm i si Hi Hn.
  apply nth_error_snoc in Hn. destruct Hn as [[Hlt Hn] | [Heq _]].
  - exact (H i si Hi Hn).
  - lia.
Qed.

Lemma nth_error_bound {A} (l : list A) i x : nth_error l i = Some x -> i < length l.
Proof. intro H. apply nth_error_Some. rewrite H. discriminate. Qed.

Lemma unprocessed_no_draw f r :
  blur_processed_ (after (render_frame f r)) = false -> drawn (render_frame f r) = [].
Proof.
  intro Hq. destruct (drawn (render_frame f r)) eqn:Hd; [ reflexivity | ].
  assert (Hne : drawn (render_frame f r) <> []) by (rewrite Hd; discriminate).
  apply frame_drawn in Hne. destruct Hne as (_ & _ & Hp & _). congruence.
Qed.

Lemma transition_flags params should_blur now r r1 r2 :
  flags r1 = flags r2 ->
  transition params should_blur now r r2 -> transition params should_blur now r r1.
Proof.
  intros Hf H. flags_eq Hf.
  destruct H;
    [ apply t_idle | apply t_armed | apply t_waiting
    | apply t_captured_at_once | apply t_captured | apply t_kept ]; congruence.
Qed.

Lemma composite_when_drawn params r :
  is_set (draw_list params) = true ->
  blur_processed_ r = true ->
  is_set (blur_srv_ r) = true ->
  composite_when params true r <> [].
Proof.
  unfold composite_when. intros Hl Hq Hs.
  destruct (draw_list params); [ | discriminate ].
  destruct (blur_srv_ r); [ | discriminate ].
  rewrite Hq. discriminate.
Qed.

Lemma accepted_draw_list params e r :
  accepted params e r = true -> is_set (draw_list params) = true.
Proof.
  unfold accepted, bad_handles. intro H.
  apply andb_prop in H. destruct H as [H _].
  apply andb_prop in H. destruct H as [H _].
  apply negb_true_iff, orb_false_elim in H. destruct H as [_ H].
  apply negb_false_iff, H.
Qed.

Lemma debounced_step tr f r :
  debounced tr r ->
  debounced (tr ++ [ {| req := f; before := r; result := render_frame f r |} ])
            (after (render_frame f r)).
Proof.
  intros (A1 & A2 & Apend & Aproc).
  set (st := {| req := f; before := r; result := render_frame f r |}).
  destruct (returned (render_frame f r)) eqn:Hret.
  - (* the call completes *)
    destruct (frame_accepted f r Hret) as (done & Hf & Hdraw).
    assert (Hlist : is_set (draw_list (params f)) = true).
    { apply (accepted_draw_list _ (world f) r). rewrite <- frame_returned. exact Hret. }
    destruct (advance_transition (params f) (should_blur f) (GetTime (world f)) done r
                A1 A2) as [Hlast' Htr].
    apply (transition_flags _ _ _ _ _ _ Hf) in Htr.
    flags_eq Hf. rewrite <- Hlast in Hlast'.
    clear Hcap Hproc Hpend Hlast Htime Hw Hh.
    set (r' := after (render_frame f r)) in *.
    destruct Htr as [ Hp Hq | Hb Hl Hp Hq Ht | Hb Hp0 Hp Hq Ht
                    | Hb Hl Hp Hq He | Hb Hp0 Hp Hq He | Hb Hq0 Hp Hq ];
      unfold debounced; (split; [ congruence | ]);
      (split; [ intros [Hx | Hx]; congruence | ]).
    + split; intro; congruence.
    + split; [ intros _ | intro; congruence ].
      exists (length tr), st. split; [ apply nth_error_last | ].
      split; [ unfold activation; cbn; auto | ].
      split; [ exact Ht | ].
      split; [ apply intent_held_last | ].
      intros i si Hi Hn. apply nth_error_snoc in Hn.
      destruct Hn as [[Hlt _] | [_ ->]]; [ lia | ].
      apply unprocessed_no_draw, Hq.
    + split; [ intros _ | intro; congruence ].
      destruct (Apend Hp0) as (j & sj & Hj & Hact & Htj & Hheld & Hnd).
      exists j, sj. split; [ apply nth_error_keep, Hj | ].
      split; [ exact Hact | ]. split; [ congruence | ].
      split; [ apply intent_held_snoc; [ exact Hheld | intros _; exact Hb ] | ].
      apply no_draw_snoc; [ exact Hnd | apply unprocessed_no_draw, Hq ].
    + split; [ intro; congruence | intros _ ].
      exists (length tr), (length tr), st, st.
      split; [ lia | ]. split; [ apply nth_error_last | ].
      split; [ apply nth_error_last | ].
      split; [ unfold activation; cbn; auto | ].
      split; [ apply intent_held_last | ].
      split; [ exact He | ].
      split; [ intros i si Hi; lia | ].
      intro Hs. unfold st. cbn [result]. rewrite Hdraw, Hb.
      apply composite_when_drawn; assumption.
    + split; [ intro; congruence | intros _ ].
      destruct (Apend Hp0) as (j & sj & Hj & Hact & Htj & Hheld & Hnd).
      exists j, (length tr), sj, st.
      split; [ apply nth_error_bound in Hj; lia | ].
      split; [ apply nth_error_keep, Hj | ]. split; [ apply nth_error_last | ].
      split; [ exact Hact | ].
      split; [ apply intent_held_snoc; [ exact Hheld | intros _; exact Hb ] | ].
      split; [ unfold elapsed_between; cbn; rewrite <- Htj; exact He | ].
      split; [ apply no_draw_keep; [ exact Hnd | lia ] | ].
      intro Hs. unfold st. cbn [result]. rewrite Hdraw, Hb.
      apply composite_when_drawn; assumption.
    + split; [ intro; congruence | intros _ ].
      destruct (Aproc Hq0)
        as (j & m & sj & sm & Hjm & Hj & Hm & Hact & Hheld & He & Hnd & Hdr).
      exists j, m, sj, sm. split; [ exact Hjm | ].
      split; [ apply nth_error_keep, Hj | ]. split; [ apply nth_error_keep, Hm | ].
      split; [ exact Hact | ].
      split; [ apply intent_held_snoc; [ exact Hheld | intros _; exact Hb ] | ].
      split; [ exact He | ].
      split; [ apply no_draw_keep; [ exact Hnd | apply nth_error_bound in Hm; lia ] | ].
      intro Hs. apply Hdr. apply (frame_srv f r); [ left | exact Hs ].
      rewrite Hb. apply due_processed; [ exact Hq0 | apply A2; right; exact Hq0 ].
  - (* the call is rejected *)
    destruct (frame_rejected f r Hret) as (Hf & Hd & _). flags_eq Hf.
    unfold debounced. rewrite Hproc, Hpend, Hlast, Htime.
    split; [ exact A1 | ]. split; [ exact A2 | ]. split.
    + intro Hp. destruct (Apend Hp) as (j & sj & Hj & Hact & Htj & Hheld & Hnd).
      exists j, sj. split; [ apply nth_error_keep, Hj | ].
      split; [ exact Hact | ]. split; [ exact Htj | ].
      split; [ apply intent_held_snoc; [ exact Hheld | cbn; congruence ] | ].
      apply no_draw_snoc; [ exact Hnd | exact Hd ].
    + intro Hq.
      destruct (Aproc Hq)
        as (j & m & sj & sm & Hjm & Hj & Hm & Hact & Hheld & He & Hnd & Hdr).
      exists j, m, sj, sm. split; [ exact Hjm | ].
      split; [ apply nth_error_keep, Hj | ]. split; [ apply nth_error_keep, Hm | ].
      split; [ exact Hact | ].
      split; [ apply intent_held_snoc; [ exact Hheld | cbn; congruence ] | ].
      split; [ exact He | ].
      split; [ apply no_draw_keep; [ exact Hnd | apply nth_error_bound in Hm; lia ] | ].
      intro Hs. apply Hdr. apply (frame_srv f r); [ right; exact Hret | exact Hs ].
Qed.

Lemma run_snoc fs f r :
  run r (fs ++ [f]) =
  run r fs ++ [ {| req := f; before := final r fs;
                   result := render_frame f (final r fs) |} ].
Proof.
  revert r. induction fs as [ | g fs IH ]; intro r.
  - reflexivity.
  - cbn [app run final]. rewrite IH. reflexivity.
Qed.

Lemma final_snoc fs f r :
  final r (fs ++ [f]) = after (render_frame f (final r fs)).
Proof.
  revert r. induction fs as [ | g fs IH ]; intro r.
  - reflexivity.
  - cbn [app final]. apply IH.
Qed.

Lemma run_length fs r : length (run r fs) = length fs.
Proof.
  revert r. induction fs as [ | g fs IH ]; intro r; [ reflexivity | ].
  cbn [run length]. rewrite IH. reflexivity.
Qed.

Lemma debounced_run fs : debounced (run new_renderer fs) (final new_renderer fs).
Proof.
  induction fs as [ | f fs IH ] using rev_ind.
  - unfold debounced. cbn. repeat split; try discriminate.
    intros [H | H]; discriminate.
  - rewrite run_snoc, final_snoc. apply debounced_step, IH.
Qed.

(** C3. Take any sequence of calls on a new renderer whose last call adds
    the composite to the draw list.  Then there is an activation call [j]
    (it completes with the intent set, the intent having been clear on the
    last completed call before it) and a call [m], not before [j] and not
    after the drawing call, such that [m] is the first call from [j] on
    that draws, and at [m] the delay has elapsed since the time of [j]:
    the first composite of an activation comes no earlier than the delay
    after it.  The intent is set on every completed call after [j], so
    every completed call with the intent clear, even a single one, lies
    before [j]: the delay is measured from the latest reactivation.
    Only completed calls count: a call that [render] rejects returns
    before it looks at the intent, so a deactivation on such a call
    resets nothing. *)
Theorem blur_waits_for_delay fs f :
  drawn (render_frame f (final new_renderer fs)) <> [] ->
  exists j m sj sm,
    j <= m /\ m <= length fs /\
    nth_error (run new_renderer (fs ++ [f])) j = Some sj /\
    nth_error (run new_renderer (fs ++ [f])) m = Some sm /\
    activation sj /\
    elapsed_between sj sm /\
    no_draw (run new_renderer (fs ++ [f])) j m /\
    drawn (result sm) <> [] /\
    intent_held (run new_renderer (fs ++ [f])) j /\
    (forall i si,
       nth_error (run new_renderer (fs ++ [f])) i = Some si ->
       returned (result si) = true -> should_blur (req si) = false -> i < j).
Proof.
  intro Hd. apply frame_drawn in Hd.
  destruct Hd as (_ & _ & Hq & list & srv & _ & Hsrv & _).
  destruct (debounced_run (fs ++ [f])) as (_ & _ & _ & Aproc).
  rewrite final_snoc in Aproc.
  destruct (Aproc Hq)
    as (j & m & sj & sm & Hjm & Hj & Hm & Hact & Hheld & He & Hnd & Hdr).
  assert (Hdm : drawn (result sm) <> []) by (apply Hdr; rewrite Hsrv; reflexivity).
  exists j, m, sj, sm.
  repeat (split; [ assumption | ]).
  split.
  { apply nth_error_bound in Hm. rewrite run_length, length_app in Hm. cbn in Hm. lia. }
  repeat (split; [ assumption | ]).
  intros i si Hi Hret Hb.
  destruct (Nat.lt_trichotomy i j) as [ Hlt | [ Heq | Hgt ] ]; [ exact Hlt | | ].
  - subst i. rewrite Hj in Hi. injection Hi as <-.
    destruct Hact as (Hb' & _). congruence.
  - specialize (Hheld i si Hgt Hi Hret). congruence.
Qed.

(** *** The release helpers, exactly *)

Lemma release_exact get set :
  (forall r, get r = None -> set None r = r) ->
  forall e s,
    release get set e s =
    (tt, {| rend := set None (rend s); gctx := gctx s;
            glog := glog s ++ released (get (rend s)); gdraw := gdraw s |}).
Proof.
  intros law e s. unfold release, bind. cbn [this].
  destruct (get (rend s)) eqn:Hg.
  - reflexivity.
  - cbn. rewrite (law _ Hg), app_nil_r. destruct s; reflexivity.
Qed.

Lemma cleanup_render_targets_exact e s :
  cleanup_render_targets e s =
  (tt, {| rend := clear_targets (rend s); gctx := gctx s;
          glog := glog s ++ held_targets (rend s); gdraw := gdraw s |}).
Proof.
  unfold cleanup_render_targets.
  repeat (unfold bind at 1; rewrite release_exact by lens_law;
          cbv beta iota; cbn [rend gctx glog gdraw]).
  rewrite release_exact by lens_law. cbn [rend gctx glog gdraw].
  unfold clear_targets, held_targets. rewrite <- !app_assoc. reflexivity.
Qed.

Lemma cleanup_all_exact e s :
  cleanup_all e s =
  (tt, {| rend := clear_all (rend s); gctx := gctx s;
          glog := glog s ++ held_targets (rend s) ++ held_pipeline (rend s);
          gdraw := gdraw s |}).
Proof.
  unfold cleanup_all.
  unfold bind at 1. rewrite cleanup_render_targets_exact. cbv beta iota.
  repeat (unfold bind at 1; rewrite release_exact by lens_law;
          cbv beta iota; cbn [rend gctx glog gdraw]).
  unfold bind, assign. cbn [rend gctx glog gdraw].
  unfold clear_all, held_pipeline. rewrite <- !app_assoc. reflexivity.
Qed.

Lemma clear_targets_idem r : clear_targets (clear_targets r) = clear_targets r.
Proof. destruct r. vm_compute. reflexivity. Qed.

(** X1. [cleanup_render_targets] gives back each render-target object
    that is held, once, in the order the members are declared, and makes
    no other call; afterwards all eight members are null, while the
    flags, the recorded size, the context state and the draw list are as
    before.  Run again at once it does nothing. *)
Theorem cleanup_render_targets_releases_held e s :
  let s' := snd (cleanup_render_targets e s) in
  glog s' = glog s ++ held_targets (rend s) /\
  targets (rend s') = (None, None, None, None, None, None, None, None) /\
  view s' = view s /\
  cleanup_render_targets e s' = (tt, s').
Proof.
  cbv zeta. rewrite cleanup_render_targets_exact. cbn [snd rend glog gctx gdraw].
  split; [ reflexivity | ].
  split; [ vm_compute; reflexivity | ].
  split; [ vm_compute; reflexivity | ].
  rewrite cleanup_render_targets_exact. cbn [rend glog gctx gdraw].
  replace (held_targets (clear_targets (rend s))) with (@nil gpu_call)
    by (vm_compute; reflexivity).
  rewrite app_nil_r, clear_targets_idem. reflexivity.
Qed.

(** X2. [cleanup_all], and with it the destructor, gives back every
    object that is held, once: the render targets, then the pipeline
    objects, then the context.  Afterwards every pointer is null and
    [initialized_] is false; the activation flags and the recorded size
    are not reset, and neither the context state nor the draw list is
    touched. *)
Theorem cleanup_all_releases_held e s :
  let s' := snd (destroy e s) in
  glog s' = glog s ++ held_targets (rend s) ++ held_pipeline (rend s) /\
  targets (rend s') = (None, None, None, None, None, None, None, None) /\
  pipeline_empty (rend s') = true /\
  context_ (rend s') = None /\ device_ (rend s') = None /\
  initialized_ (rend s') = false /\
  flags (rend s') = flags (rend s) /\
  gctx s' = gctx s /\ gdraw s' = gdraw s.
Proof.
  cbv zeta. unfold destroy. rewrite cleanup_all_exact. cbn [snd rend glog gctx gdraw].
  split; [ reflexivity | ].
  repeat (split; [ vm_compute; reflexivity | ]).
  split; reflexivity.
Qed.

(** *** What the caller of [render] sees *)

(** X3. [render] returns [true] exactly when both handles are non-null,
    the pipeline is there for the device of the request or every
    compilation and creation succeeds on this call, and the truncated
    window size is positive in both directions; the intent flag plays no
    part. *)
Theorem render_returns_true_iff f r :
  returned (render_frame f r) = true <->
  is_set (device (params f)) = true /\ is_set (draw_list (params f)) = true /\
  (needs_init (params f) r = true ->
   shaders_ok (world f) = true /\ render_states_ok (world f) = true) /\
  (0 < window_width (params f))%Z /\ (0 < window_height (params f))%Z.
Proof.
  rewrite frame_returned. unfold accepted, bad_handles, init_ok, bad_size.
  destruct (is_set (device (params f))), (is_set (draw_list (params f)));
    cbn [negb orb andb]; try (split; [ discriminate | intros (? & ? & _); discriminate ]).
  destruct (Z.leb_spec (window_width (params f)) 0),
           (Z.leb_spec (window_height (params f)) 0);
    cbn [negb orb andb]; rewrite ?andb_false_r, ?andb_true_r;
    try (split; [ discriminate | intros (_ & _ & _ & ? & ?); lia ]).
  destruct (needs_init (params f) r).
  - rewrite andb_true_iff. split.
    + intro Hok. repeat split; try lia. exact (proj1 Hok). exact (proj2 Hok).
    + intros (_ & _ & Hok & _). apply Hok. reflexivity.
  - split; [ | reflexivity ]. intros _. repeat split; try lia; discriminate.
Qed.

(** X4. A call that returns [false], for whatever reason, leaves the
    activation flags and the recorded size as they were, adds nothing to
    the draw list, leaves the context state as the host set it, and makes
    no call other than releasing the renderer's objects and rebuilding
    the pipeline. *)
Theorem rejected_call_is_invisible f r :
  returned (render_frame f r) = false ->
  flags (after (render_frame f r)) = flags r /\
  drawn (render_frame f r) = [] /\
  context_after (render_frame f r) = host f /\
  Forall (fun c => housekeeping c = true) (calls (render_frame f r)).
Proof.
  intro H. destruct (frame_rejected f r H) as (Hf & Hd & Hc).
  repeat split; try assumption. apply frame_rejected_calls, H.
Qed.

(** X5. After every call of [render_blur_overlay], whatever it did and
    whatever it returned, the render target, the depth-stencil view and
    the viewport bound in the context are the ones the host had bound
    before the call. *)
Theorem render_keeps_host_bindings params should_blur e s :
  om_rtv (gctx (snd (render_blur_overlay params should_blur e s))) = om_rtv (gctx s) /\
  om_dsv (gctx (snd (render_blur_overlay params should_blur e s))) = om_dsv (gctx s) /\
  rs_viewport (gctx (snd (render_blur_overlay params should_blur e s)))
  = rs_viewport (gctx s).
Proof.
  pose proof (render_ambient params should_blur e s) as H.
  unfold render_blur_overlay, ambient in *.
  injection H as H1 H2 H3. auto.
Qed.

(** X6. A call of [render] adds at most one command to a draw list: to
    the list of the request, the image of [blur_srv_] from the window
    position to the window position plus the window size, with texture
    coordinates (0,0) to (1,1), in white, with the corner radius of the
    request. *)
Theorem composite_covers_window f r :
  drawn (render_frame f r) = [] \/
  exists list srv,
    draw_list (params f) = Some list /\
    blur_srv_ (after (render_frame f r)) = Some srv /\
    drawn (render_frame f r) =
    [ {| cmd_list := list;
         cmd_texture := srv;
         cmd_p_min := window_pos (params f);
         cmd_p_max :=
           {| vec_x := fl_add (vec_x (window_pos (params f))) (vec_x (window_size (params f)));
              vec_y := fl_add (vec_y (window_pos (params f))) (vec_y (window_size (params f))) |};
         cmd_uv_min := {| vec_x := fl_of_Z 0; vec_y := fl_of_Z 0 |};
         cmd_uv_max := {| vec_x := fl_of_Z 1; vec_y := fl_of_Z 1 |};
         cmd_col := 4294967295;
         cmd_rounding := corner_radius (params f) |} ].
Proof.
  destruct (drawn (render_frame f r)) as [ | d l ] eqn:Hd; [ left; reflexivity | right ].
  assert (Hne : drawn (render_frame f r) <> []) by (rewrite Hd; discriminate).
  destruct (frame_drawn f r Hne) as (_ & _ & _ & list & srv & Hl & Hs & Hdraw).
  exists list, srv. rewrite <- Hd, Hdraw. repeat split; assumption.
Qed.

(** *** Calls that find everything in place *)

Lemma settled_inv params r :
  settled params r = true ->
  bad_handles params = false /\ needs_init params r = false /\
  bad_size params = false /\ resized params r = false.
Proof.
  unfold settled.
  destruct (bad_handles params), (needs_init params r), (bad_size params),
           (resized params r); cbn; intro H; try discriminate; auto.
Qed.

Lemma resize_phase_skipped params e s :
  resized params (rend s) = false -> resize_phase params e s = (tt, s).
Proof.
  unfold resize_phase, resized, bind, when. cbn [this]. intro H. rewrite H. reflexivity.
Qed.

(** A settled call on which no capture is due: only lines 160-167 and
    181-195 act. *)
Lemma render_settled params should_blur e s :
  settled params (rend s) = true ->
  due params should_blur (GetTime e) (on_intent should_blur (GetTime e) (rend s)) = false ->
  render params should_blur e s =
  (true, {| rend := set_blur_enabled_last_frame_ should_blur
                      (on_intent should_blur (GetTime e) (rend s));
            gctx := gctx s; glog := glog s;
            gdraw := gdraw s ++ composite_when params should_blur
                                  (on_intent should_blur (GetTime e) (rend s)) |}).
Proof.
  intros Hs Hdue. apply settled_inv in Hs. destruct Hs as (H1 & H2 & H3 & H4).
  rewrite render_phases, H1, (init_phase_skipped _ _ _ H2), H3.
  unfold body, bind.
  rewrite (resize_phase_skipped _ _ _ H4), activation_phase_effect.
  rewrite capture_phase_skipped by exact Hdue.
  rewrite finish_phase_effect. reflexivity.
Qed.

Lemma frame_settled f r :
  settled (params f) r = true ->
  due (params f) (should_blur f) (GetTime (world f))
    (on_intent (should_blur f) (GetTime (world f)) r) = false ->
  render_frame f r =
  {| returned := true;
     drawn := composite_when (params f) (should_blur f)
                (on_intent (should_blur f) (GetTime (world f)) r);
     calls := [];
     after := set_blur_enabled_last_frame_ (should_blur f)
                (on_intent (should_blur f) (GetTime (world f)) r);
     context_after := host f |}.
Proof.
  intros Hs Hdue. unfold render_frame.
  rewrite (render_settled (params f) (should_blur f) (world f) (start r (host f)) Hs Hdue).
  reflexivity.
Qed.

Lemma set_last_same r :
  set_blur_enabled_last_frame_ (blur_enabled_last_frame_ r) r = r.
Proof. destruct r; reflexivity. Qed.

(** X7. While the blur is shown, a call with the intent set, for the
    same device and the same window size, is a replay: it makes no API
    call at all, leaves the renderer exactly as it was, and draws the one
    image of [blur_srv_]; the background is not captured again, whatever
    is on screen by then. *)
Theorem shown_blur_is_replayed fs r srv :
  blur_processed_ r = true ->
  blur_enabled_last_frame_ r = true ->
  blur_srv_ r = Some srv ->
  Forall (fun f => settled (params f) r = true /\ should_blur f = true) fs ->
  Forall (fun st =>
            returned (result st) = true /\
            calls (result st) = [] /\
            after (result st) = r /\
            context_after (result st) = host (req st) /\
            exists list,
              draw_list (params (req st)) = Some list /\
              drawn (result st) = [composite (params (req st)) list srv])
         (run r fs).
Proof.
  intros Hp Hl Hsrv Hfs.
  refine (run_Forall_frames
            (fun f => settled (params f) r = true /\ should_blur f = true)
            (fun r' => r' = r) _ _ fs r Hfs eq_refl).
  intros f r' [Hs Hb] ->.
  assert (Hi : on_intent true (GetTime (world f)) r = r).
  { unfold on_intent. rewrite Hl. reflexivity. }
  rewrite frame_settled; rewrite ?Hb, ?Hi; try assumption.
  - cbn [returned calls after context_after drawn req result].
    assert (Hsame : set_blur_enabled_last_frame_ true r = r)
      by (rewrite <- Hl at 1; apply set_last_same).
    rewrite Hsame. split; [ reflexivity | ].
    repeat split.
    apply settled_inv in Hs. destruct Hs as (Hh & _).
    unfold bad_handles in Hh. unfold composite_when. rewrite Hsrv, Hp.
    destruct (draw_list (params f)) as [ list | ];
      [ | rewrite orb_true_r in Hh; discriminate ].
    exists list. split; reflexivity.
  - unfold due. rewrite Hp, andb_false_r. reflexivity.
Qed.

(** X8. While a capture is pending and the delay of the request has not
    elapsed, a call with the intent set, for the same device and window
    size, changes nothing: no API call, no draw command, the renderer
    exactly as before, with the capture still pending and the start time
    unchanged. *)
Theorem waiting_call_changes_nothing f r :
  settled (params f) r = true ->
  should_blur f = true ->
  blur_enabled_last_frame_ r = true ->
  blur_capture_pending_ r = true ->
  blur_processed_ r = false ->
  fl_geb (fl_sub (GetTime (world f)) (blur_enable_time_ r)) (delay_time (params f)) = false ->
  render_frame f r =
  {| returned := true; drawn := []; calls := []; after := r; context_after := host f |}.
Proof.
  intros Hs Hb Hl Hpend Hp Hwait.
  assert (Hi : on_intent true (GetTime (world f)) r = r).
  { unfold on_intent. rewrite Hl. reflexivity. }
  rewrite frame_settled; rewrite ?Hb, ?Hi; try assumption.
  - assert (Hsame : set_blur_enabled_last_frame_ true r = r)
      by (rewrite <- Hl at 1; apply set_last_same).
    rewrite Hsame. unfold composite_when. rewrite Hp.
    destruct (draw_list (params f)), (blur_srv_ r); reflexivity.
  - unfold due. rewrite Hwait, andb_false_r. reflexivity.
Qed.

(** X9. Turning the intent off, for the same device and window size,
    clears [background_captured_], [blur_processed_] and
    [blur_capture_pending_] and draws nothing; it makes no API call, so
    no texture is released: the render-target set stays allocated for the
    next activation. *)
Theorem deactivation_keeps_textures f r :
  settled (params f) r = true ->
  should_blur f = false ->
  blur_enabled_last_frame_ r = true ->
  let o := render_frame f r in
  returned o = true /\ drawn o = [] /\ calls o = [] /\
  context_after o = host f /\
  targets (after o) = targets r /\
  background_captured_ (after o) = false /\
  blur_processed_ (after o) = false /\
  blur_capture_pending_ (after o) = false /\
  blur_enabled_last_frame_ (after o) = false.
Proof.
  intros Hs Hb Hl. cbv zeta.
  assert (Hi : on_intent false (GetTime (world f)) r = reset_flags r).
  { unfold on_intent. rewrite Hl. reflexivity. }
  rewrite frame_settled; rewrite ?Hb, ?Hi; try assumption; [ | reflexivity ].
  cbn [returned calls after context_after drawn].
  unfold composite_when.
  destruct (draw_list (params f)), (blur_srv_ (reset_flags r)); repeat split.
Qed.

(** *** The calls of a capture *)

Lemma capture_background_calls window_pos window_size e s :
  let o := capture_background window_pos window_size e s in
  fst o = is_set (om_rtv (gctx s)) && is_set (rtv_resource e) /\
  rend (snd o) = (if fst o then set_background_captured_ true (rend s) else rend s) /\
  gctx (snd o) = gctx s /\ gdraw (snd o) = gdraw s /\
  exists l,
    glog (snd o) = glog s ++ l /\
    filter is_copy l =
    match om_rtv (gctx s), rtv_resource e with
    | Some _, Some back_buffer =>
      [CopySubresourceRegion (background_capture_ (rend s)) back_buffer
         (capture_box window_pos window_size)]
    | _, _ => []
    end /\
    releases l =
    match om_rtv (gctx s) with
    | Some rtv => reference (rtv_resource e) ++ [rtv] ++ reference (om_dsv (gctx s))
    | None => []
    end /\
    filter allocates_texture l = [] /\ filter is_draw l = [].
Proof.
  cbv zeta. unfold capture_background, release_local, bind.
  cbn [this context ask call assign set_context ret fst snd rend gctx glog gdraw].
  destruct (om_rtv (gctx s)) as [ rtv | ];
    [ destruct (rtv_resource e), (om_dsv (gctx s)) | ];
    cbn [this context ask call assign set_context ret fst snd rend gctx glog gdraw
         is_set andb];
    (split; [ reflexivity | ]); (split; [ reflexivity | ]);
    (split; [ reflexivity | ]); (split; [ reflexivity | ]);
    rewrite <- ?app_assoc; eexists; (split; [ reflexivity | ]);
    repeat split.
Qed.

Lemma process_blur_calls blur_strength e s :
  background_captured_ (rend s) = true ->
  exists l,
    glog (snd (process_blur blur_strength e s)) = glog s ++ l /\
    uploads l =
    (if map_succeeds e then
       [ {| texture_size_0 := fl_of_Z (width_ (rend s));
            texture_size_1 := fl_of_Z (height_ (rend s));
            constants_blur_strength := blur_strength;
            padding := fl_of_Z 0 |} ]
     else []) /\
    filter is_draw l = [Draw 4 0; Draw 4 0] /\
    releases l = reference (om_rtv (gctx s)) ++ reference (om_dsv (gctx s)) /\
    filter is_copy l = [] /\ filter allocates_texture l = [].
Proof.
  intro H.
  unfold process_blur, context_call, when, release_local, bind.
  cbn [this]. rewrite H. cbn [negb].
  cbn [this context ask call assign set_context ret fst snd rend gctx glog gdraw].
  destruct (map_succeeds e), (om_rtv (gctx s)), (om_dsv (gctx s));
    cbn [this context ask call assign set_context ret fst snd rend gctx glog gdraw];
    rewrite <- ?app_assoc; eexists; (split; [ reflexivity | ]);
    repeat split.
Qed.

(** *** The render-target set across a capture *)

Lemma ensure_render_targets_reused width height e s :
  is_set (background_capture_ (rend s)) = true ->
  width_ (rend s) = width -> height_ (rend s) = height ->
  ensure_render_targets width height e s = (true, s).
Proof.
  intros Hb Hw Hh. unfold ensure_render_targets, bind. cbn [this].
  rewrite Hb, Hw, Hh, !Z.eqb_refl. reflexivity.
Qed.

Lemma textures_ok_inv e :
  textures_ok e = true ->
  is_set (create e (Texture2D_site Background)) = true /\
  is_set (create e (ShaderResourceView_site Background)) = true /\
  is_set (create e (Texture2D_site Temp)) = true /\
  is_set (create e (RenderTargetView_site Temp)) = true /\
  is_set (create e (ShaderResourceView_site Temp)) = true /\
  is_set (create e (Texture2D_site Blur)) = true /\
  is_set (create e (RenderTargetView_site Blur)) = true /\
  is_set (create e (ShaderResourceView_site Blur)) = true.
Proof.
  unfold textures_ok. rewrite !andb_true_iff. tauto.
Qed.

Lemma ensure_render_targets_fresh width height e s :
  background_capture_ (rend s) = None ->
  textures_ok e = true ->
  ensure_render_targets width height e s =
  (true, {| rend := fresh_targets e (rend s); gctx := gctx s;
            glog := glog s ++ held_targets (rend s) ++ allocation width height;
            gdraw := gdraw s |}).
Proof.
  intros Hb Hok. apply textures_ok_inv in Hok.
  destruct Hok as (H1 & H2 & H3 & H4 & H5 & H6 & H7 & H8).
  unfold ensure_render_targets. unfold bind at 1. cbn [this]. rewrite Hb. cbn [is_set andb].
  unfold bind at 1. rewrite cleanup_render_targets_exact. cbv beta iota.
  unfold and_then, create_texture, device_create, not_, bind.
  cbn [this context ask call assign set_context ret fst snd rend gctx glog gdraw].
  rewrite H1. cbn [negb this context ask call assign set_context ret fst snd rend gctx glog gdraw].
  rewrite H2. cbn [negb this context ask call assign set_context ret fst snd rend gctx glog gdraw].
  rewrite H3. cbn [negb this context ask call assign set_context ret fst snd rend gctx glog gdraw].
  rewrite H4. cbn [negb this context ask call assign set_context ret fst snd rend gctx glog gdraw].
  rewrite H5. cbn [negb this context ask call assign set_context ret fst snd rend gctx glog gdraw].
  rewrite H6. cbn [negb this context ask call assign set_context ret fst snd rend gctx glog gdraw].
  rewrite H7. cbn [negb this context ask call assign set_context ret fst snd rend gctx glog gdraw].
  rewrite H8. cbn [negb this context ask call assign set_context ret fst snd rend gctx glog gdraw].
  unfold fresh_targets, allocation. rewrite <- !app_assoc. reflexivity.
Qed.

Lemma capture_phase_due params should_blur e s :
  due params should_blur (GetTime e) (rend s) = true ->
  capture_phase params should_blur e s =
  capture_and_blur params e
    {| rend := set_blur_capture_pending_ false (rend s); gctx := gctx s;
       glog := glog s; gdraw := gdraw s |}.
Proof.
  unfold due. intro H. apply andb_prop in H. destruct H as [H1 H2].
  unfold capture_phase, bind, when. cbn [this ask]. rewrite H1, H2. reflexivity.
Qed.

(** Capture and blur once the render targets are in place and the host
    has a render target with a resource bound. *)
Lemma capture_and_blur_core params e s s1 rtv back_buffer :
  ensure_render_targets (window_width params) (window_height params) e s = (true, s1) ->
  om_rtv (gctx s1) = Some rtv -> rtv_resource e = Some back_buffer ->
  rend (snd (capture_and_blur params e s)) =
    set_blur_processed_ true (set_background_captured_ true (rend s1)) /\
  gdraw (snd (capture_and_blur params e s)) = gdraw s1 /\
  exists l,
    glog (snd (capture_and_blur params e s)) = glog s1 ++ l /\
    filter is_copy l =
      [CopySubresourceRegion (background_capture_ (rend s1)) back_buffer
         (capture_box (window_pos params) (window_size params))] /\
    filter allocates_texture l = [] /\
    filter is_draw l = [Draw 4 0; Draw 4 0].
Proof.
  intros Hens Hrtv Hres.
  remember (capture_and_blur params e s) as o eqn:Ho.
  unfold capture_and_blur, bind in Ho. rewrite Hens in Ho. cbn [when] in Ho.
  pose proof (capture_background_calls (window_pos params) (window_size params) e s1) as Hc.
  cbv zeta in Hc. rewrite Hrtv, Hres in Hc.
  destruct (capture_background (window_pos params) (window_size params) e s1)
    as [captured s2].
  cbn [fst snd is_set andb] in Hc.
  destruct Hc as (-> & Hr2 & Hg2 & Hd2 & l1 & Hl1 & Hcopy1 & _ & Halloc1 & Hdraw1).
  cbn [when] in Ho.
  assert (Hcap : background_captured_ (rend s2) = true) by (rewrite Hr2; reflexivity).
  destruct (process_blur_passes (blur_strength params) e s2 Hcap)
    as (_ & Hr3 & Hd3 & _).
  destruct (process_blur_calls (blur_strength params) e s2 Hcap)
    as (l2 & Hl2 & _ & Hdraw2 & _ & Hcopy2 & Halloc2).
  destruct (process_blur (blur_strength params) e s2) as [b s3].
  cbn [fst snd] in *. unfold ret in Ho. subst o. cbn [snd].
  rewrite Hr3, Hr2, Hd3, Hd2. split; [ reflexivity | ]. split; [ reflexivity | ].
  exists (l1 ++ l2). rewrite Hl2, Hl1, <- app_assoc, !filter_app.
  rewrite Hcopy1, Hcopy2, Halloc1, Halloc2, Hdraw1, Hdraw2. repeat split.
Qed.

Lemma resized_inv params r :
  resized params r = false ->
  width_ r = window_width params /\ height_ r = window_height params.
Proof.
  unfold resized. intro H. apply orb_false_elim in H. destruct H as [Hw Hh].
  apply negb_false_iff in Hw, Hh. apply Z.eqb_eq in Hw, Hh. auto.
Qed.

(** A settled call with the intent held on which the pending capture is
    due: lines 171-195. *)
Lemma render_due params e s :
  settled params (rend s) = true ->
  blur_enabled_last_frame_ (rend s) = true ->
  due params true (GetTime e) (rend s) = true ->
  render params true e s =
  finish_phase params true e
    (snd (capture_and_blur params e
            {| rend := set_blur_capture_pending_ false (rend s); gctx := gctx s;
               glog := glog s; gdraw := gdraw s |})).
Proof.
  intros Hs Hl Hdue. apply settled_inv in Hs. destruct Hs as (H1 & H2 & H3 & H4).
  assert (Hi : on_intent true (GetTime e) (rend s) = rend s).
  { unfold on_intent. rewrite Hl. reflexivity. }
  rewrite render_phases, H1, (init_phase_skipped _ _ _ H2), H3.
  unfold body, bind.
  rewrite (resize_phase_skipped _ _ _ H4), activation_phase_effect, Hi.
  rewrite capture_phase_due by (cbn [rend]; exact Hdue).
  cbn [rend gctx glog gdraw].
  assert (Hsame : {| rend := rend s; gctx := gctx s; glog := glog s; gdraw := gdraw s |} = s)
    by (destruct s; reflexivity).
  destruct (capture_and_blur params e _) as [u s3]. reflexivity.
Qed.

(** The same call, seen from the state [ensure_render_targets] leaves. *)
Lemma frame_capture f r s1 rtv back_buffer :
  settled (params f) r = true ->
  should_blur f = true ->
  blur_enabled_last_frame_ r = true ->
  blur_capture_pending_ r = true ->
  blur_processed_ r = false ->
  fl_geb (fl_sub (GetTime (world f)) (blur_enable_time_ r)) (delay_time (params f)) = true ->
  ensure_render_targets (window_width (params f)) (window_height (params f)) (world f)
    (start (set_blur_capture_pending_ false r) (host f)) = (true, s1) ->
  om_rtv (gctx s1) = Some rtv -> rtv_resource (world f) = Some back_buffer ->
  returned (render_frame f r) = true /\
  after (render_frame f r) =
    set_blur_enabled_last_frame_ true
      (set_blur_processed_ true (set_background_captured_ true (rend s1))) /\
  drawn (render_frame f r) =
    gdraw s1 ++ composite_when (params f) true
                  (set_blur_processed_ true (set_background_captured_ true (rend s1))) /\
  exists l,
    calls (render_frame f r) = glog s1 ++ l /\
    filter is_copy l =
      [CopySubresourceRegion (background_capture_ (rend s1)) back_buffer
         (capture_box (window_pos (params f)) (window_size (params f)))] /\
    filter allocates_texture l = [] /\
    filter is_draw l = [Draw 4 0; Draw 4 0].
Proof.
  intros Hs Hb Hl Hpend Hp Hwait Hens Hrtv Hres.
  assert (Hdue : due (params f) true (GetTime (world f)) r = true)
    by (unfold due; rewrite Hpend, Hp, Hwait; reflexivity).
  unfold render_frame. rewrite Hb.
  rewrite (render_due (params f) (world f) (start r (host f)) Hs Hl Hdue).
  cbn [rend gctx glog gdraw start].
  fold (start (set_blur_capture_pending_ false r) (host f)).
  destruct (capture_and_blur_core (params f) (world f) _ s1 rtv back_buffer Hens Hrtv Hres)
    as (Hr & Hd & l & Hlog & Hfilters).
  destruct (capture_and_blur (params f) (world f)
              (start (set_blur_capture_pending_ false r) (host f))) as [u s3].
  cbn [snd] in *. rewrite finish_phase_effect.
  cbn [fst snd rend gctx glog gdraw returned after drawn calls].
  rewrite Hr, Hd. repeat split. exists l. split; assumption.
Qed.

Lemma filter_released (p : gpu_call -> bool) x :
  (forall h, p (Release h) = false) -> filter p (released x) = [].
Proof. intro H. destruct x; cbn; rewrite ?H; reflexivity. Qed.

Lemma held_targets_filter (p : gpu_call -> bool) r :
  (forall h, p (Release h) = false) -> filter p (held_targets r) = [].
Proof.
  intro H. unfold held_targets. rewrite !filter_app, !filter_released by exact H.
  reflexivity.
Qed.

Lemma captured_fresh_srv e r :
  blur_srv_ (set_blur_processed_ true (set_background_captured_ true (fresh_targets e r)))
  = create e (ShaderResourceView_site Blur).
Proof. vm_compute. reflexivity. Qed.

Lemma shown_fresh_srv e r :
  blur_srv_ (set_blur_enabled_last_frame_ true
               (set_blur_processed_ true
                  (set_background_captured_ true (fresh_targets e r))))
  = create e (ShaderResourceView_site Blur).
Proof. vm_compute. reflexivity. Qed.

Lemma captured_fresh_background e r :
  background_capture_ (fresh_targets e r) = create e (Texture2D_site Background).
Proof. vm_compute. reflexivity. Qed.

Lemma held_targets_pending b r :
  held_targets (set_blur_capture_pending_ b r) = held_targets r.
Proof. reflexivity. Qed.

(** X10. The capture itself, on its first run: the intent is held, a
    capture is pending, the delay has elapsed, the renderer holds no
    background texture, every texture and view creation succeeds and the
    host has a render target with a resource bound.  Then this call
    creates the three textures at the truncated window size, copies the
    window box of the host's render target into the new background
    texture, runs the two passes, and draws the image of the final
    texture view created on this very call; afterwards the blur counts as
    captured and processed and nothing is pending. *)
Theorem due_capture_shows_blur f r list srv rtv back_buffer :
  settled (params f) r = true ->
  should_blur f = true ->
  blur_enabled_last_frame_ r = true ->
  blur_capture_pending_ r = true ->
  blur_processed_ r = false ->
  fl_geb (fl_sub (GetTime (world f)) (blur_enable_time_ r)) (delay_time (params f)) = true ->
  background_capture_ r = None ->
  textures_ok (world f) = true ->
  create (world f) (ShaderResourceView_site Blur) = Some srv ->
  draw_list (params f) = Some list ->
  om_rtv (host f) = Some rtv ->
  rtv_resource (world f) = Some back_buffer ->
  let o := render_frame f r in
  returned o = true /\
  drawn o = [composite (params f) list srv] /\
  blur_srv_ (after o) = Some srv /\
  background_captured_ (after o) = true /\
  blur_processed_ (after o) = true /\
  blur_capture_pending_ (after o) = false /\
  filter allocates_texture (calls o) =
    allocation (window_width (params f)) (window_height (params f)) /\
  filter is_copy (calls o) =
    [CopySubresourceRegion (create (world f) (Texture2D_site Background)) back_buffer
       (capture_box (window_pos (params f)) (window_size (params f)))] /\
  filter is_draw (calls o) = [Draw 4 0; Draw 4 0].
Proof.
  intros Hs Hb Hl Hpend Hp Hwait Hbg Hok Hsrv Hlist Hrtv Hres. cbv zeta.
  pose proof (ensure_render_targets_fresh
                (window_width (params f)) (window_height (params f)) (world f)
                (start (set_blur_capture_pending_ false r) (host f)) Hbg Hok) as Hens.
  destruct (frame_capture f r _ rtv back_buffer Hs Hb Hl Hpend Hp Hwait Hens Hrtv Hres)
    as (Hret & Hafter & Hdrawn & l & Hcalls & Hcopy & Halloc & Hdraw).
  cbn [rend gctx glog gdraw start app] in *.
  rewrite Hret, Hafter, Hdrawn, Hcalls.
  split; [ reflexivity | ].
  split.
  { unfold composite_when. rewrite Hlist, captured_fresh_srv, Hsrv. reflexivity. }
  split.
  { rewrite shown_fresh_srv. exact Hsrv. }
  split; [ vm_compute; reflexivity | ]. split; [ vm_compute; reflexivity | ].
  split; [ vm_compute; reflexivity | ].
  rewrite !filter_app, Hcopy, Halloc, Hdraw, captured_fresh_background.
  rewrite !held_targets_filter by reflexivity.
  repeat split.
Qed.

(** X11. A later capture reuses the textures: with a background texture
    held for the recorded size, a due capture creates and releases no
    texture or view; it copies into the texture that is there, runs the
    two passes and draws the image of the [blur_srv_] that is there. *)
Theorem due_capture_reuses_textures f r list srv rtv back_buffer :
  settled (params f) r = true ->
  should_blur f = true ->
  blur_enabled_last_frame_ r = true ->
  blur_capture_pending_ r = true ->
  blur_processed_ r = false ->
  fl_geb (fl_sub (GetTime (world f)) (blur_enable_time_ r)) (delay_time (params f)) = true ->
  is_set (background_capture_ r) = true ->
  blur_srv_ r = Some srv ->
  draw_list (params f) = Some list ->
  om_rtv (host f) = Some rtv ->
  rtv_resource (world f) = Some back_buffer ->
  let o := render_frame f r in
  returned o = true /\
  drawn o = [composite (params f) list srv] /\
  targets (after o) = targets r /\
  background_captured_ (after o) = true /\
  blur_processed_ (after o) = true /\
  blur_capture_pending_ (after o) = false /\
  filter allocates_texture (calls o) = [] /\
  filter is_copy (calls o) =
    [CopySubresourceRegion (background_capture_ r) back_buffer
       (capture_box (window_pos (params f)) (window_size (params f)))] /\
  filter is_draw (calls o) = [Draw 4 0; Draw 4 0].
Proof.
  intros Hs Hb Hl Hpend Hp Hwait Hbg Hsrv Hlist Hrtv Hres. cbv zeta.
  destruct (resized_inv _ _ (proj2 (proj2 (proj2 (settled_inv _ _ Hs))))) as [Hw Hh].
  pose proof (ensure_render_targets_reused
                (window_width (params f)) (window_height (params f)) (world f)
                (start (set_blur_capture_pending_ false r) (host f)) Hbg Hw Hh) as Hens.
  destruct (frame_capture f r _ rtv back_buffer Hs Hb Hl Hpend Hp Hwait Hens Hrtv Hres)
    as (Hret & Hafter & Hdrawn & l & Hcalls & Hcopy & Halloc & Hdraw).
  cbn [rend gctx glog gdraw start app] in *.
  rewrite Hret, Hafter, Hdrawn, Hcalls, Hcopy, Halloc, Hdraw.
  split; [ reflexivity | ].
  split.
  { unfold composite_when. rewrite Hlist.
    replace (blur_srv_ (set_blur_processed_ true (set_background_captured_ true
                          (set_blur_capture_pending_ false r))))
      with (blur_srv_ r) by (vm_compute; reflexivity).
    rewrite Hsrv. reflexivity. }
  split; [ vm_compute; reflexivity | ].
  split; [ vm_compute; reflexivity | ].
  split; [ vm_compute; reflexivity | ].
  split; [ vm_compute; reflexivity | ].
  repeat split.
Qed.

(** *** Without a final texture view *)

Lemma clear_all_idem r : clear_all (clear_all r) = clear_all r.
Proof. destruct r. vm_compute. reflexivity. Qed.

Lemma cleanup_all_again e s :
  cleanup_all e (snd (cleanup_all e s)) = (tt, snd (cleanup_all e s)).
Proof.
  rewrite !cleanup_all_exact. cbn [snd rend gctx glog gdraw].
  rewrite clear_all_idem.
  replace (held_targets (clear_all (rend s))) with (@nil gpu_call)
    by (vm_compute; reflexivity).
  replace (held_pipeline (clear_all (rend s))) with (@nil gpu_call)
    by (vm_compute; reflexivity).
  cbn [app]. rewrite (app_nil_r (glog s ++ _)). reflexivity.
Qed.

(** Initialisation starts from a clean renderer: running it on what
    [cleanup_all] leaves gives the same result. *)
Lemma init_phase_from_clean params e s :
  needs_init params (rend s) = true ->
  init_phase params e s = init_phase params e (snd (cleanup_all e s)).
Proof.
  intro H.
  assert (Hn : needs_init params (rend (snd (cleanup_all e s))) = true).
  { rewrite cleanup_all_rend. unfold needs_init.
    replace (initialized_ (clear_all (rend s))) with false by (vm_compute; reflexivity).
    reflexivity. }
  pose proof (cleanup_all_again e s) as Hagain.
  assert (Hfirst : cleanup_all e s = (tt, snd (cleanup_all e s)))
    by (destruct (cleanup_all e s) as [[] s0]; reflexivity).
  remember (snd (cleanup_all e s)) as s1 eqn:Hs1.
  unfold needs_init in H, Hn.
  unfold init_phase. unfold bind at 1. cbn [this]. rewrite H.
  unfold bind at 1. rewrite Hfirst.
  symmetry. unfold bind at 1. cbn [this]. rewrite Hn.
  unfold bind at 1. rewrite Hagain. reflexivity.
Qed.

Lemma init_phase_clears params e s :
  needs_init params (rend s) = true ->
  blur_srv_ (rend (snd (init_phase params e s))) = None.
Proof.
  intro H. rewrite (init_phase_from_clean params e s H).
  assert (Hs : kept_or_released None (snd (cleanup_all e s))).
  { left. rewrite cleanup_all_rend. vm_compute. reflexivity. }
  destruct (init_phase_srv params None e _ Hs) as [ Hk | Hk ]; exact Hk.
Qed.

Lemma render_reinit_srv params should_blur e s :
  bad_handles params = false ->
  needs_init params (rend s) = true ->
  due params should_blur (GetTime e)
    (on_intent should_blur (GetTime e) (on_resize params (rend s))) = false \/
  fst (render params should_blur e s) = false ->
  blur_srv_ (rend (snd (render params should_blur e s))) = None.
Proof.
  intros Hh Hn Hcase.
  rewrite render_phases in *. rewrite Hh in *.
  pose proof (init_phase_view params e s) as Hv.
  pose proof (init_phase_clears params e s Hn) as Hl.
  destruct (init_phase params e s) as [failed s1]. cbn [snd] in *.
  destruct failed; [ exact Hl | ].
  destruct (bad_size params); [ exact Hl | ].
  destruct Hcase as [ Hdue | Hret ];
    [ | destruct (body_effect params should_blur e s1) as [Ht _]; congruence ].
  apply view_inv in Hv. destruct Hv as (_ & _ & Hf).
  unfold body, bind.
  destruct (resize_phase_effect params e s1) as (Hf1 & _ & _).
  assert (Hk : kept_or_released None s1) by (left; exact Hl).
  pose proof (resize_phase_srv params _ e s1 Hk) as Hl1.
  destruct (resize_phase params e s1) as [u1 s2]. cbn [snd] in *.
  rewrite activation_phase_effect.
  rewrite capture_phase_skipped.
  - rewrite finish_phase_effect. cbn [snd rend].
    replace (blur_srv_ (set_blur_enabled_last_frame_ should_blur
                          (on_intent should_blur (GetTime e) (rend s2))))
      with (blur_srv_ (on_intent should_blur (GetTime e) (rend s2))) by reflexivity.
    rewrite on_intent_srv. destruct Hl1 as [ Hk1 | Hk1 ]; exact Hk1.
  - cbn [rend]. rewrite <- Hdue. apply due_flags, on_intent_flags.
    rewrite Hf1. apply on_resize_flags, Hf.
Qed.

Lemma advance_idle params now done r :
  blur_capture_pending_ r = false -> blur_enabled_last_frame_ r = true ->
  blur_capture_pending_ (advance params true now done r) = false /\
  blur_enabled_last_frame_ (advance params true now done r) = true /\
  (resized params r = false ->
   blur_processed_ (advance params true now done r) = blur_processed_ r).
Proof.
  intros Hp Hl.
  advance_cases params true r done; repeat split; congruence.
Qed.

Lemma due_idle params now r :
  blur_capture_pending_ r = false -> blur_enabled_last_frame_ r = true ->
  due params true now (on_intent true now (on_resize params r)) = false.
Proof.
  intros Hp Hl.
  unfold due, on_intent, on_resize, reset_flags.
  destruct (resized params r); cbn; rewrite Hl; cbn; [ reflexivity | ].
  rewrite Hp. reflexivity.
Qed.

Lemma frame_idle_flags f r :
  should_blur f = true ->
  blur_capture_pending_ r = false -> blur_enabled_last_frame_ r = true ->
  blur_capture_pending_ (after (render_frame f r)) = false /\
  blur_enabled_last_frame_ (after (render_frame f r)) = true /\
  (returned (render_frame f r) = true -> resized (params f) r = false ->
   blur_processed_ (after (render_frame f r)) = blur_processed_ r).
Proof.
  intros Hb Hp Hl. destruct (returned (render_frame f r)) eqn:Hret.
  - destruct (frame_accepted f r Hret) as (done & Hf & _). rewrite Hb in Hf.
    destruct (advance_idle (params f) (GetTime (world f)) done r Hp Hl)
      as (Hp' & Hl' & Hq').
    flags_eq Hf. repeat split; try congruence.
    intros _ Hr. rewrite Hproc. apply Hq', Hr.
  - destruct (frame_rejected f r Hret) as (Hf & _).
    flags_eq Hf. repeat split; congruence.
Qed.

Lemma no_view_no_draw f r :
  blur_srv_ (after (render_frame f r)) = None -> drawn (render_frame f r) = [].
Proof.
  intro Hn. destruct (drawn (render_frame f r)) eqn:Hd; [ reflexivity | ].
  assert (Hne : drawn (render_frame f r) <> []) by (rewrite Hd; discriminate).
  apply frame_drawn in Hne. destruct Hne as (_ & _ & _ & list & srv & _ & Hs & _).
  congruence.
Qed.

Lemma frame_viewless f r :
  should_blur f = true ->
  viewless r ->
  viewless (after (render_frame f r)) /\
  drawn (render_frame f r) = [] /\
  Forall (fun c => housekeeping c = true) (calls (render_frame f r)).
Proof.
  intros Hb (Hp & Hl & Hn).
  assert (Hdue : due (params f) (should_blur f) (GetTime (world f))
                   (on_intent (should_blur f) (GetTime (world f))
                      (on_resize (params f) r)) = false)
    by (rewrite Hb; apply due_idle; assumption).
  destruct (frame_idle_flags f r Hb Hp Hl) as (Hp' & Hl' & _).
  assert (Hn' : blur_srv_ (after (render_frame f r)) = None).
  { pose proof (frame_srv f r (or_introl Hdue)) as Hs.
    destruct (blur_srv_ (after (render_frame f r))); [ | reflexivity ].
    rewrite Hn in Hs. specialize (Hs eq_refl). discriminate. }
  split; [ unfold viewless; auto | ].
  split; [ apply no_view_no_draw, Hn' | apply frame_calls, Hdue ].
Qed.

(** X12. A change of device, or a first initialisation, while the blur is
    up: the call that sees it releases the final texture view with
    everything else, draws nothing and leaves [blur_srv_] null; unless the
    window size changed as well it keeps [blur_processed_] as it was, so
    no new capture is armed.  As long as the intent then stays set, no
    later call draws or makes any call besides housekeeping: the blur
    stays away until the intent is toggled. *)
Theorem device_change_loses_blur f r fs :
  is_set (device (params f)) = true ->
  is_set (draw_list (params f)) = true ->
  needs_init (params f) r = true ->
  should_blur f = true ->
  blur_enabled_last_frame_ r = true ->
  blur_capture_pending_ r = false ->
  Forall (fun g => should_blur g = true) fs ->
  let o := render_frame f r in
  drawn o = [] /\
  blur_srv_ (after o) = None /\
  Forall (fun c => housekeeping c = true) (calls o) /\
  (returned o = true -> resized (params f) r = false ->
   blur_processed_ (after o) = blur_processed_ r) /\
  Forall (fun st =>
            drawn (result st) = [] /\
            Forall (fun c => housekeeping c = true) (calls (result st)))
         (run (after o) fs).
Proof.
  intros Hdev Hlist Hn Hb Hl Hp Hfs. cbv zeta.
  assert (Hh : bad_handles (params f) = false)
    by (unfold bad_handles; rewrite Hdev, Hlist; reflexivity).
  assert (Hdue : due (params f) (should_blur f) (GetTime (world f))
                   (on_intent (should_blur f) (GetTime (world f))
                      (on_resize (params f) r)) = false)
    by (rewrite Hb; apply due_idle; assumption).
  destruct (frame_idle_flags f r Hb Hp Hl) as (Hp' & Hl' & Hq').
  assert (Hn' : blur_srv_ (after (render_frame f r)) = None).
  { rewrite render_frame_eq. cbn.
    apply render_reinit_srv; [ exact Hh | exact Hn | left; exact Hdue ]. }
  split; [ apply no_view_no_draw, Hn' | ].
  split; [ exact Hn' | ].
  split; [ apply frame_calls, Hdue | ].
  split; [ exact Hq' | ].
  apply run_Forall_frames
    with (R := fun g => should_blur g = true) (P := viewless);
    [ | exact Hfs | unfold viewless; auto ].
  intros g r0 Hg Hv.
  destruct (frame_viewless g r0 Hg Hv) as (Hv' & Hd & Hc).
  cbn [result]. auto.
Qed.

(** *** Initialisation and the shader blobs *)

(** X13. [initialize_shaders] gives back every blob [D3DCompile]
    returned, once each and in the order vertex, horizontal, vertical, on
    every path: when a compilation fails, when a shader or the input
    layout cannot be created, and on success.  It returns [true] exactly
    when the three compilations and the four creations succeed. *)
Theorem initialize_shaders_releases_blobs e s :
  fst (initialize_shaders e s) = shaders_ok e /\
  exists l,
    glog (snd (initialize_shaders e s)) = glog s ++ l /\
    releases l =
    reference (compile_shader e vertex_shader_source_)
    ++ reference (compile_shader e horizontal_blur_source_)
    ++ reference (compile_shader e vertical_blur_source_).
Proof.
  split; [ apply initialize_shaders_effect | ].
  unfold initialize_shaders, compile, device_create, and_then, release_local, bind.
  cbn [this context ask call assign set_context ret fst snd rend gctx glog gdraw].
  destruct (compile_shader e vertex_shader_source_);
  destruct (compile_shader e horizontal_blur_source_);
  destruct (compile_shader e vertical_blur_source_);
    cbn [this context ask call assign set_context ret fst snd rend gctx glog gdraw
         is_set negb orb];
    try (rewrite <- ?app_assoc; eexists; split; reflexivity).
  destruct (create e VertexShader_site);
    cbn [this context ask call assign set_context ret fst snd rend gctx glog gdraw is_set];
    [ destruct (create e PixelShader_horizontal_site);
      cbn [this context ask call assign set_context ret fst snd rend gctx glog gdraw is_set];
      [ destruct (create e PixelShader_vertical_site);
        cbn [this context ask call assign set_context ret fst snd rend gctx glog gdraw
             is_set];
        [ destruct (create e InputLayout_site);
          cbn [this context ask call assign set_context ret fst snd rend gctx glog gdraw
               is_set] | ] | ] | ];
    rewrite <- ?app_assoc; eexists; split; reflexivity.
Qed.

(** *** Capture and blur on their own *)

(** X14. [capture_background] succeeds exactly when the host has a render
    target bound and that view has a resource.  Then it copies the window
    box of that resource into [background_capture_], once, and sets
    [background_captured_]; otherwise it copies nothing and leaves the
    renderer as it was.  The resource and the views it obtained are given
    back, except that with no render target bound it returns before
    giving back the depth-stencil view. *)
Theorem capture_background_outcome window_pos window_size e s :
  let o := capture_background window_pos window_size e s in
  fst o = is_set (om_rtv (gctx s)) && is_set (rtv_resource e) /\
  rend (snd o) = (if fst o then set_background_captured_ true (rend s) else rend s) /\
  gctx (snd o) = gctx s /\ gdraw (snd o) = gdraw s /\
  exists l,
    glog (snd o) = glog s ++ l /\
    filter is_copy l =
    match om_rtv (gctx s), rtv_resource e with
    | Some _, Some back_buffer =>
      [CopySubresourceRegion (background_capture_ (rend s)) back_buffer
         {| box_left := fl_to_uint (fl_max (fl_of_Z 0) (vec_x window_pos));
            box_top := fl_to_uint (fl_max (fl_of_Z 0) (vec_y window_pos));
            box_right := fl_to_uint (fl_add (vec_x window_pos) (vec_x window_size));
            box_bottom := fl_to_uint (fl_add (vec_y window_pos) (vec_y window_size));
            box_front := 0;
            box_back := 1 |}]
    | _, _ => []
    end /\
    releases l =
    match om_rtv (gctx s) with
    | Some rtv => reference (rtv_resource e) ++ [rtv] ++ reference (om_dsv (gctx s))
    | None => []
    end.
Proof.
  destruct (capture_background_calls window_pos window_size e s)
    as (H1 & H2 & H3 & H4 & l & H5 & H6 & H7 & _).
  cbv zeta. repeat (split; [ assumption | ]).
  exists l. repeat split; assumption.
Qed.

(** X15. [process_blur] does nothing and returns [false] without a
    captured background.  With one, it uploads the recorded size, the
    strength it was given and a zero padding when the constant buffer can
    be mapped, and uploads nothing when it cannot; either way it draws
    twice, four vertices each, gives back the two views obtained from the
    context, and copies and allocates nothing. *)
Theorem process_blur_passes_and_constants blur_strength e s :
  if background_captured_ (rend s) then
    exists l,
      glog (snd (process_blur blur_strength e s)) = glog s ++ l /\
      uploads l =
      (if map_succeeds e then
         [ {| texture_size_0 := fl_of_Z (width_ (rend s));
              texture_size_1 := fl_of_Z (height_ (rend s));
              constants_blur_strength := blur_strength;
              padding := fl_of_Z 0 |} ]
       else []) /\
      filter is_draw l = [Draw 4 0; Draw 4 0] /\
      releases l = reference (om_rtv (gctx s)) ++ reference (om_dsv (gctx s)) /\
      filter is_copy l = [] /\ filter allocates_texture l = []
  else process_blur blur_strength e s = (false, s).
Proof.
  destruct (background_captured_ (rend s)) eqn:H.
  - apply process_blur_calls, H.
  - apply process_blur_guard, H.
Qed.

(** X16. [process_blur] restores the render target, the depth-stencil
    view and the viewport only: its own vertex shader, vertical pixel
    shader, vertex buffer, input layout, triangle-strip topology, constant
    buffer, sampler, rasterizer state and blend state are still bound in
    the context when it returns, and [blur_processed_] is the only member
    it changes. *)
Theorem process_blur_leaves_pipeline_bound blur_strength e s :
  background_captured_ (rend s) = true ->
  let s' := snd (process_blur blur_strength e s) in
  vs_shader (gctx s') = vertex_shader_ (rend s) /\
  ps_shader (gctx s') = pixel_shader_vertical_ (rend s) /\
  ia_vertex_buffer (gctx s') = vertex_buffer_ (rend s) /\
  ia_input_layout (gctx s') = input_layout_ (rend s) /\
  ia_triangle_strip (gctx s') = true /\
  ps_constant_buffer (gctx s') = constant_buffer_ (rend s) /\
  ps_sampler (gctx s') = sampler_state_ (rend s) /\
  rs_state (gctx s') = rasterizer_state_ (rend s) /\
  om_blend_state (gctx s') = blend_state_ (rend s) /\
  rend s' = set_blur_processed_ true (rend s).
Proof.
  intro H. cbv zeta.
  unfold process_blur, context_call, when, release_local, bind.
  cbn [this]. rewrite H. cbn [negb].
  cbn [this context ask call assign set_context ret fst snd rend gctx glog gdraw].
  destruct (map_succeeds e), (om_rtv (gctx s)), (om_dsv (gctx s)); cbn;
    repeat split; reflexivity.
Qed.

(** *** The recorded size *)

Lemma advance_size params should_blur now done r :
  width_ (advance params should_blur now done r) = window_width params /\
  height_ (advance params should_blur now done r) = window_height params.
Proof.
  destruct (resized params r) eqn:Hr.
  - unfold advance, on_capture, on_intent, on_resize. rewrite Hr.
    repeat match goal with
           | |- context [if ?c then _ else _] => destruct c
           end; split; reflexivity.
  - destruct (resized_inv params r Hr) as [Hw Hh].
    unfold advance, on_capture, on_intent, on_resize. rewrite Hr.
    repeat match goal with
           | |- context [if ?c then _ else _] => destruct c
           end; split; assumption.
Qed.

(** X17. After every call that returns [true] the recorded size is the
    truncated window size of that call, positive in both directions:
    whatever the textures are created for afterwards is this size. *)
Theorem completed_call_records_size f r :
  returned (render_frame f r) = true ->
  width_ (after (render_frame f r)) = window_width (params f) /\
  height_ (after (render_frame f r)) = window_height (params f) /\
  (0 < width_ (after (render_frame f r)))%Z /\
  (0 < height_ (after (render_frame f r)))%Z.
Proof.
  intro Hret. destruct (frame_accepted f r Hret) as (done & Hf & _).
  destruct (advance_size (params f) (should_blur f) (GetTime (world f)) done r)
    as [Hw' Hh'].
  flags_eq Hf. rewrite Hw, Hh, Hw', Hh'.
  rewrite frame_returned in Hret. unfold accepted, bad_size in Hret.
  apply andb_prop in Hret. destruct Hret as [_ Hsize].
  apply negb_true_iff, orb_false_elim in Hsize. destruct Hsize as [H1 H2].
  apply Z.leb_gt in H1, H2. auto.
Qed.

(** *** The render-target set as a whole *)

Lemma cleanup_render_targets_sound :
  maintains (fun s => targets_sound (rend s)) cleanup_render_targets.
Proof.
  intros e s _. rewrite cleanup_render_targets_exact. cbn [snd rend].
  unfold targets_sound. vm_compute. discriminate.
Qed.

Lemma cleanup_all_sound : maintains (fun s => targets_sound (rend s)) cleanup_all.
Proof.
  intros e s _. rewrite cleanup_all_exact. cbn [snd rend].
  unfold targets_sound. vm_compute. discriminate.
Qed.

Lemma ensure_render_targets_sound width height :
  maintains (fun s => targets_sound (rend s)) (ensure_render_targets width height).
Proof.
  intros e s Hs. unfold ensure_render_targets. unfold bind at 1. cbn [this].
  destruct (is_set (background_capture_ (rend s)) && (width_ (rend s) =? width)%Z
            && (height_ (rend s) =? height)%Z); [ exact Hs | ].
  unfold bind at 1. rewrite cleanup_render_targets_exact. cbv beta iota.
  unfold and_then, create_texture, device_create, not_, bind.
  cbn [this context ask call assign set_context ret fst snd rend gctx glog gdraw].
  repeat match goal with
         | |- context [create e ?st] =>
           destruct (create e st);
           cbn [is_set negb this context ask call assign set_context ret fst snd
                rend gctx glog gdraw]
         end;
    unfold targets_sound; vm_compute; intro; first [ discriminate | reflexivity ].
Qed.

Lemma init_phase_sound params :
  maintains (fun s => targets_sound (rend s)) (init_phase params).
Proof.
  unfold init_phase, initialize_shaders, initialize_render_states.
  maintain_with ltac:(idtac;
                      match goal with
                      | |- maintains _ cleanup_all => apply cleanup_all_sound
                      | _ => untouched
                      end).
Qed.

Lemma body_sound params should_blur :
  maintains (fun s => targets_sound (rend s)) (body params should_blur).
Proof.
  unfold body, resize_phase, activation_phase, capture_phase, capture_and_blur,
    finish_phase, capture_background, process_blur.
  maintain_with ltac:(idtac;
                      match goal with
                      | |- maintains _ cleanup_render_targets =>
                        apply cleanup_render_targets_sound
                      | |- maintains _ (ensure_render_targets _ _) =>
                        apply ensure_render_targets_sound
                      | _ => untouched
                      end).
Qed.

Lemma frame_sound f r : targets_sound r -> targets_sound (after (render_frame f r)).
Proof.
  intro Hr. rewrite render_frame_eq. cbn [after]. rewrite render_phases.
  destruct (bad_handles (params f)); [ exact Hr | ].
  pose proof (init_phase_sound (params f) (world f) (start r (host f)) Hr) as H1.
  destruct (init_phase (params f) (world f) (start r (host f))) as [failed s1].
  cbn [snd] in H1.
  destruct failed; [ exact H1 | ].
  destruct (bad_size (params f)); [ exact H1 | ].
  apply body_sound, H1.
Qed.

(** X24. Whatever fails on the way, [blur_srv_] is non-null only while
    all three textures and all five views are there: after any sequence
    of calls on the global renderer, and in particular after every call
    that draws.  A set left incomplete by a failed creation is never
    shown. *)
Theorem shown_view_has_complete_set fs :
  targets_sound (final g_blur_renderer fs) /\
  Forall (fun st => drawn (result st) <> [] ->
                    targets_complete (after (result st)) = true)
         (run g_blur_renderer fs).
Proof.
  assert (H0 : targets_sound g_blur_renderer) by (vm_compute; discriminate).
  split.
  - exact (final_invariant targets_sound frame_sound fs g_blur_renderer H0).
  - refine (run_Forall targets_sound _ _ fs g_blur_renderer H0).
    intros f r Hr. pose proof (frame_sound f r Hr) as Hs.
    split; [ exact Hs | ]. cbn [result]. intro Hd.
    apply frame_drawn in Hd. destruct Hd as (_ & _ & _ & list & srv & _ & Hsrv & _).
    apply Hs. rewrite Hsrv. reflexivity.
Qed.

(** *** Initialisation from scratch *)

(** X25. [initialize_render_states] creates the vertex buffer, the
    constant buffer, the sampler, the blend state and the rasterizer
    state in this order and stops at the first creation that fails: no
    later object is created, nothing is released, and the result is
    [true] exactly when all five succeed.  Flags, context state and draw
    list are not touched. *)
Theorem initialize_render_states_stops_at_failure e s :
  glog (snd (initialize_render_states e s)) =
    glog s ++ map DeviceCreate (attempted e render_state_sites) /\
  fst (initialize_render_states e s) = render_states_ok e /\
  view (snd (initialize_render_states e s)) = view s.
Proof.
  split; [ | split;
             [ apply initialize_render_states_effect
             | apply (quiet_view initialize_render_states_quiet) ] ].
  unfold initialize_render_states, device_create, bind.
  cbn [attempted render_state_sites map
       this context ask call assign set_context ret fst snd rend gctx glog gdraw].
  repeat match goal with
         | |- context [create e ?st] =>
           destruct (create e st);
           cbn [is_set negb map
                this context ask call assign set_context ret fst snd rend gctx glog gdraw]
         end;
    rewrite <- ?app_assoc; reflexivity.
Qed.

(** A leaf that only adds to the call log. *)
Ltac log_grows :=
  first [ untouched | intros ? ? ?; cbn; apply in_or_app; left; assumption ].

Lemma establish_bind {A B} (J : mstate -> Prop) (m : M A) (k : A -> M B) :
  (forall e s, J (snd (m e s))) -> (forall a, maintains J (k a)) ->
  forall e s, J (snd (bind m k e s)).
Proof.
  intros Hm Hk e s. unfold bind. specialize (Hm e s).
  destruct (m e s) as [a s']. apply Hk, Hm.
Qed.

Lemma body_keeps_log c params should_blur :
  maintains (fun s => In c (glog s)) (body params should_blur).
Proof.
  unfold body, resize_phase, activation_phase, capture_phase, capture_and_blur,
    finish_phase, ensure_render_targets, capture_background, process_blur,
    cleanup_render_targets.
  maintain_with log_grows.
Qed.

Lemma establish_later {A B} (J : mstate -> Prop) (m : M A) (k : A -> M B) :
  (forall a e s, J (snd (k a e s))) -> forall e s, J (snd (bind m k e s)).
Proof.
  intros Hk e s. unfold bind. destruct (m e s) as [a s']. apply Hk.
Qed.

Lemma compile_logged src e s : In (D3DCompile src) (glog (snd (compile src e s))).
Proof. unfold compile, bind. cbn. apply in_or_app. right. left. reflexivity. Qed.

Lemma initialize_shaders_compiles src e s :
  In (D3DCompile src) (glog (snd (initialize_shaders e s))).
Proof.
  revert e s. unfold initialize_shaders. destruct src.
  - apply (establish_bind (fun s0 => In (D3DCompile vertex_shader_source_) (glog s0)));
      [ apply compile_logged | intro; maintain_with log_grows ].
  - apply (establish_later (fun s0 => In (D3DCompile horizontal_blur_source_) (glog s0))).
    intro.
    apply (establish_bind (fun s0 => In (D3DCompile horizontal_blur_source_) (glog s0)));
      [ apply compile_logged | intro; maintain_with log_grows ].
  - apply (establish_later (fun s0 => In (D3DCompile vertical_blur_source_) (glog s0))).
    intro.
    apply (establish_later (fun s0 => In (D3DCompile vertical_blur_source_) (glog s0))).
    intro.
    apply (establish_bind (fun s0 => In (D3DCompile vertical_blur_source_) (glog s0)));
      [ apply compile_logged | intro; maintain_with log_grows ].
Qed.

(** What a call that has to initialise is sure to do first. *)
Lemma init_phase_starts_over params e s dev c :
  needs_init params (rend s) = true ->
  device params = Some dev ->
  In c (glog s ++ held_targets (rend s) ++ held_pipeline (rend s)
        ++ [GetImmediateContext dev])
  \/ (exists src, c = D3DCompile src) ->
  In c (glog (snd (init_phase params e s))).
Proof.
  intros Hn Hdev Hc. unfold needs_init in Hn.
  unfold init_phase. unfold bind at 1. cbn [this]. rewrite Hn, Hdev.
  unfold bind at 1. rewrite cleanup_all_exact. cbv beta iota.
  unfold bind at 1. cbn [assign]. cbv beta iota.
  unfold bind at 1. cbn [ask]. cbv beta iota.
  unfold bind at 1. cbn [call rend gctx glog gdraw]. cbv beta iota.
  unfold bind at 1. cbn [assign rend gctx glog gdraw]. cbv beta iota.
  destruct Hc as [ Hc | [src ->] ].
  - match goal with
    | |- In c (glog (snd (?m e ?s0))) =>
      assert (Hm : maintains (fun s1 => In c (glog s1)) m)
        by (unfold initialize_shaders, initialize_render_states; maintain_with log_grows);
      apply Hm
    end.
    cbn [glog]. rewrite <- !app_assoc. exact Hc.
  - unfold or_else, not_.
    apply (establish_bind (fun s0 => In (D3DCompile src) (glog s0)));
      [ | intro; maintain_with log_grows ].
    apply (establish_bind (fun s0 => In (D3DCompile src) (glog s0)));
      [ | intro; unfold initialize_render_states; maintain_with log_grows ].
    apply (establish_bind (fun s0 => In (D3DCompile src) (glog s0)));
      [ | intro; maintain_with log_grows ].
    intros. apply initialize_shaders_compiles.
Qed.

Lemma render_starts_over params should_blur e s dev c :
  is_set (draw_list params) = true ->
  needs_init params (rend s) = true ->
  device params = Some dev ->
  In c (glog s ++ held_targets (rend s) ++ held_pipeline (rend s)
        ++ [GetImmediateContext dev])
  \/ (exists src, c = D3DCompile src) ->
  In c (glog (snd (render params should_blur e s))).
Proof.
  intros Hl Hn Hdev Hc.
  assert (Hh : bad_handles params = false)
    by (unfold bad_handles; rewrite Hdev, Hl; reflexivity).
  rewrite render_phases, Hh.
  pose proof (init_phase_starts_over params e s dev c Hn Hdev Hc) as H1.
  destruct (init_phase params e s) as [failed s1]. cbn [snd] in H1.
  destruct failed; [ exact H1 | ].
  destruct (bad_size params); [ exact H1 | ].
  apply body_keeps_log, H1.
Qed.

Lemma render_initialised params should_blur e s :
  bad_handles params = false ->
  needs_init params (rend s) = true ->
  initialized_ (rend (snd (render params should_blur e s))) =
  shaders_ok e && render_states_ok e.
Proof.
  intros Hh Hn. rewrite render_phases, Hh.
  destruct (init_phase_effect params e s Hn) as (H1 & H2 & _).
  destruct (init_phase params e s) as [failed s1]. cbn [fst snd] in *.
  destruct failed; [ exact H2 | ].
  destruct (bad_size params); [ exact H2 | ].
  pose proof (body_steady params should_blur _ e s1 eq_refl) as Hb.
  unfold steady in Hb. injection Hb as _ Hb. rewrite Hb. exact H2.
Qed.

(** X26. A call that finds the renderer not initialised for the device of
    the request starts over, whatever was there: it releases every object
    the renderer holds, including what a failed initialisation left
    behind, fetches the immediate context and compiles all three shaders
    again.  [initialized_] afterwards says whether every compilation and
    creation succeeded; if not, the next call does all of this again. *)
Theorem uninitialised_call_starts_over f r dev :
  device (params f) = Some dev ->
  is_set (draw_list (params f)) = true ->
  needs_init (params f) r = true ->
  let o := render_frame f r in
  (forall c, In c (held_targets r ++ held_pipeline r) -> In c (calls o)) /\
  In (GetImmediateContext dev) (calls o) /\
  (forall src, In (D3DCompile src) (calls o)) /\
  initialized_ (after o) = shaders_ok (world f) && render_states_ok (world f) /\
  (shaders_ok (world f) && render_states_ok (world f) = false ->
   forall params', needs_init params' (after o) = true).
Proof.
  intros Hdev Hl Hn. cbv zeta. rewrite render_frame_eq. cbn [calls after].
  assert (Hh : bad_handles (params f) = false)
    by (unfold bad_handles; rewrite Hdev, Hl; reflexivity).
  pose proof (fun c => render_starts_over (params f) (should_blur f) (world f)
                         (start r (host f)) dev c Hl Hn Hdev) as Hin.
  cbn [start rend glog app] in Hin.
  pose proof (render_initialised (params f) (should_blur f) (world f)
                (start r (host f)) Hh Hn) as Hi.
  split; [ | split; [ | split; [ | split ] ] ].
  - intros c Hc. apply Hin. left. rewrite app_assoc. apply in_or_app. left. exact Hc.
  - apply Hin. left. rewrite app_assoc. apply in_or_app. right. left. reflexivity.
  - intro src. apply Hin. right. exists src. reflexivity.
  - exact Hi.
  - intros Hfail params'. unfold needs_init. rewrite Hi, Hfail. reflexivity.
Qed.

End Renderer.

(** * Concrete runs

    The renderer over IEEE 754 values, on a device with numbered
    objects.  These are the runs behind the scenarios of the
    specification. *)

Module Scenario.

Local Open Scope Q_scope.

(** The [float] and the [double] a decimal literal [n/d] stands for: the
    quotient of [n] by [d] in the format, which is the value of the
    format nearest to [n/d] when [n] and [d] are values of the format
    themselves, as they are in every run below. *)
Definition to_float (q : Q) : spec_float :=
  SFdiv 24 128 (binary_normalize 24 128 (Qnum q) 0 false)
               (binary_normalize 24 128 (Zpos (Qden q)) 0 false).

Definition to_double (q : Q) : spec_float :=
  SFdiv 53 1024 (binary_normalize 53 1024 (Qnum q) 0 false)
                (binary_normalize 53 1024 (Zpos (Qden q)) 0 false).

Definition viewport_800x600 : @D3D11_VIEWPORT spec_float :=
  {| TopLeftX := to_float 0; TopLeftY := to_float 0;
     Width := to_float 800; Height := to_float 600;
     MinDepth := to_float 0; MaxDepth := to_float 1 |}.

(** The host has its back buffer bound as render target 100, with
    depth-stencil view 101. *)
Definition bound : @context_state spec_float :=
  {| om_rtv := Some 100%positive; om_dsv := Some 101%positive;
     rs_viewport := viewport_800x600;
     ps_srv := None; ps_shader := None; vs_shader := None;
     ia_vertex_buffer := None; ia_input_layout := None; ia_triangle_strip := false;
     ps_constant_buffer := None; ps_sampler := None; rs_state := None;
     om_blend_state := None |}.

(** The host has no render target bound. *)
Definition unbound : @context_state spec_float :=
  {| om_rtv := None; om_dsv := None;
     rs_viewport := viewport_800x600;
     ps_srv := None; ps_shader := None; vs_shader := None;
     ia_vertex_buffer := None; ia_input_layout := None; ia_triangle_strip := false;
     ps_constant_buffer := None; ps_sampler := None; rs_state := None;
     om_blend_state := None |}.

Definition object_of (s : site) : handle :=
  match s with
  | VertexShader_site => 1
  | PixelShader_horizontal_site => 2
  | PixelShader_vertical_site => 3
  | InputLayout_site => 4
  | VertexBuffer_site => 5
  | ConstantBuffer_site => 6
  | SamplerState_site => 7
  | BlendState_site => 8
  | RasterizerState_site => 9
  | Texture2D_site Background => 10
  | Texture2D_site Temp => 11
  | Texture2D_site Blur => 12
  | RenderTargetView_site Background => 13
  | RenderTargetView_site Temp => 14
  | RenderTargetView_site Blur => 15
  | ShaderResourceView_site Background => 16
  | ShaderResourceView_site Temp => 17
  | ShaderResourceView_site Blur => 18
  end%positive.

Definition blob_of (s : shader_source) : handle :=
  match s with
  | vertex_shader_source_ => 20
  | horizontal_blur_source_ => 21
  | vertical_blur_source_ => 22
  end%positive.

(** A device on which every call succeeds, at time [t]. *)
Definition device_ok (t : Q) : @env spec_float :=
  {| GetTime := to_double t; immediate_context := 50%positive;
     compile_shader := fun s => Some (blob_of s);
     create := fun s => Some (object_of s);
     map_succeeds := true;
     rtv_resource := Some 60%positive |}.

(** The same device, except that the calls at the sites in [failing] fail. *)
Definition device_failing (failing : site -> bool) (t : Q) : @env spec_float :=
  {| GetTime := to_double t; immediate_context := 50%positive;
     compile_shader := fun s => Some (blob_of s);
     create := fun s => if failing s then None else Some (object_of s);
     map_succeeds := true;
     rtv_resource := Some 60%positive |}.

(** A request for a window of [w] by [h] pixels at (10, 20), with the
    default strength, radius and delay of [blur_params]. *)
Definition request (w h : Q) : @blur_params spec_float :=
  {| device := Some 30%positive; draw_list := Some 40%positive;
     window_pos := mkImVec2 (to_float 10) (to_float 20);
     window_size := mkImVec2 (to_float w) (to_float h);
     blur_strength := to_float (95 # 100); corner_radius := to_float 6;
     delay_time := to_double (15 # 100) |}.

Definition call_at (t : Q) (w h : Q) (intent : bool) (c : context_state) : frame :=
  {| params := request w h; should_blur := intent; world := device_ok t; host := c |}.

(** What the host can observe of a step, and the two flags. *)
Definition observed (st : @step spec_float) :=
  (returned (result st), length (drawn (result st)),
   existsb capture_attempt (calls (result st)),
   blur_capture_pending_ (after (result st)),
   blur_processed_ (after (result st))).

(** Activation at time 0; the delay of 0.15 has elapsed at time 1, but no
    render target is bound; at times 2 and 3 everything is in order. *)
Definition capture_fails_once : list frame :=
  [ call_at 0 200 100 true bound;
    call_at 1 200 100 true unbound;
    call_at 2 200 100 true bound;
    call_at 3 200 100 true bound ].

(** Scenario C: blur shown for a 200 by 100 window, then the window is
    300 by 150 and the intent stays set. *)
Definition resize_while_captured : list frame :=
  [ call_at 0 200 100 true bound;
    call_at (2 # 10) 200 100 true bound;
    call_at (3 # 10) 300 150 true bound;
    call_at 1 300 150 true bound;
    call_at 2 300 150 true bound ].

(** Scenario A: ten calls without intent. *)
Definition ten_idle_calls : list frame :=
  map (fun n => call_at (inject_Z (Z.of_nat n)) 200 100 false bound) (seq 0 10).

(** Scenario B in short: idle, then the intent is set at time 0.1. *)
Definition activation_run : list frame :=
  [ call_at 0 200 100 false bound;
    call_at (1 # 10) 200 100 true bound;
    call_at (2 # 10) 200 100 true bound ].

Definition only (s0 : site) (s : site) : bool :=
  match s0, s with
  | PixelShader_horizontal_site, PixelShader_horizontal_site => true
  | Texture2D_site Temp, Texture2D_site Temp => true
  | _, _ => false
  end.

(** A call on a device that cannot create the horizontal pixel shader. *)
Definition pixel_shader_fails : frame :=
  {| params := request 200 100; should_blur := false;
     world := device_failing (only PixelShader_horizontal_site) 0; host := bound |}.

(** A renderer without textures that has recorded the size 200 by 100,
    as [render] does before it calls [ensure_render_targets]. *)
Definition sized_renderer : @blur_renderer spec_float :=
  set_height_ 100 (set_width_ 200 new_renderer).

(** The intermediate texture cannot be created on the second call; the
    intent is then cleared at time 2 and set again at time 3. *)
Definition allocation_fails_once : list frame :=
  [ call_at 0 200 100 true bound;
    {| params := request 200 100; should_blur := true;
       world := device_failing (only (Texture2D_site Temp)) 1; host := bound |};
    call_at 2 200 100 false bound;
    call_at 3 200 100 true bound;
    call_at 4 200 100 true bound ].

(** A renderer with a capture pending since time 0. *)
Definition pending_renderer : @blur_renderer spec_float :=
  final new_renderer [ call_at 0 200 100 true bound ].

(** A renderer that shows the blur of a 200 by 100 window. *)
Definition captured_renderer : @blur_renderer spec_float :=
  final new_renderer
    [ call_at 0 200 100 true bound; call_at (2 # 10) 200 100 true bound ].

(** A state in which [process_blur] passes its guard. *)
Definition captured_state : mstate :=
  start (set_background_captured_ true captured_renderer) bound.

(** A renderer that holds the textures of an earlier blur and has a
    capture pending since time 0.4: the intent was cleared at time 0.3
    and set again at time 0.4. *)
Definition rearmed_renderer : @blur_renderer spec_float :=
  final new_renderer
    [ call_at 0 200 100 true bound; call_at (2 # 10) 200 100 true bound;
      call_at (3 # 10) 200 100 false bound; call_at (4 # 10) 200 100 true bound ].

(** A call with the intent set that names another device. *)
Definition call_on_other_device (t : Q) : frame :=
  {| params := {| device := Some 31%positive; draw_list := Some 40%positive;
                  window_pos := mkImVec2 (to_float 10) (to_float 20);
                  window_size := mkImVec2 (to_float 200) (to_float 100);
                  blur_strength := to_float (95 # 100); corner_radius := to_float 6;
                  delay_time := to_double (15 # 100) |};
     should_blur := true; world := device_ok t; host := bound |}.

(** The intent is set at time 0.  At time 0.1 it is clear, on a call for
    a window of size zero, which [render] rejects.  It is set again at
    times 0.12 and 0.16. *)
Definition deactivated_on_a_rejected_call : list frame :=
  [ call_at 0 200 100 true bound;
    call_at (1 # 10) 0 0 false bound;
    call_at (12 # 100) 200 100 true bound;
    call_at (16 # 100) 200 100 true bound ].

(** The blur is shown at time 0.2.  At time 1 the intent is clear, on a
    call for a window of size zero; at time 5 it is set again. *)
Definition hidden_on_a_rejected_call : list frame :=
  [ call_at 0 200 100 true bound;
    call_at (2 # 10) 200 100 true bound;
    call_at 1 0 0 false bound;
    call_at 5 200 100 true bound ].

(** ** Where the code departs from the specification, and the theorems at work *)

(** Against C1 as stated. The capture fails on the second call, with the delay long elapsed.
    After it no capture is pending, and the third and fourth call, with
    the render target bound again, neither capture nor draw. *)
Lemma failed_capture_is_dropped :
  map observed (run new_renderer capture_fails_once) =
  [ (true, 0, false, true, false);
    (true, 0, true, false, false);
    (true, 0, false, false, false);
    (true, 0, false, false, false) ]%nat
  /\ fl_geb (fl_sub (to_double 1) (to_double 0)) (delay_time (request 200 100)) = true
  /\ map (fun st => blur_enable_time_ (after (result st)))
         (run new_renderer capture_fails_once)
     = [to_double 0; to_double 0; to_double 0; to_double 0].
Proof. vm_compute. repeat split. Qed.

(** Against C2 as stated.  The blur is drawn on the second call.  The third call sees the new
    size: nothing is drawn, nothing is pending.  At times 1 and 2, long
    after a fresh delay, there is still no capture and no blur. *)
Lemma resize_blur_never_returns :
  map observed (run new_renderer resize_while_captured) =
  [ (true, 0, false, true, false);
    (true, 1, true, false, true);
    (true, 0, false, false, false);
    (true, 0, false, false, false);
    (true, 0, false, false, false) ]%nat.
Proof. vm_compute. reflexivity. Qed.

(** The same run, continued: the intent is cleared at time 3 and set
    again at time 4; at time 5 the textures are allocated at the new size
    and the blur is drawn again. *)
Lemma blur_returns_after_toggle :
  map observed
    (run new_renderer
       (resize_while_captured ++
        [ call_at 3 300 150 false bound;
          call_at 4 300 150 true bound;
          call_at 5 300 150 true bound ])) =
  [ (true, 0, false, true, false);
    (true, 1, true, false, true);
    (true, 0, false, false, false);
    (true, 0, false, false, false);
    (true, 0, false, false, false);
    (true, 0, false, false, false);
    (true, 0, false, true, false);
    (true, 1, true, false, true) ]%nat /\
  In (CreateTexture2D Blur 300 150 40)
     (calls (render_frame (call_at 5 300 150 true bound)
               (final new_renderer
                  (resize_while_captured ++
                   [ call_at 3 300 150 false bound; call_at 4 300 150 true bound ])))).
Proof. vm_compute. split; [ reflexivity | ]. do 5 right. left. reflexivity. Qed.

(** Against C3 as stated.  A deactivation that arrives on a call [render]
    rejects is not seen: the call at time 0.1 returns [false] and leaves
    the capture pending with its start time 0, so the call at time 0.16
    captures and draws although the intent has been set again for 0.04
    seconds only, less than the delay of 0.15.  In the second run the
    call at time 5 draws the capture of time 0.2 at once, without a new
    capture attempt. *)
Lemma rejected_deactivation_is_not_seen :
  map observed (run new_renderer deactivated_on_a_rejected_call) =
  [ (true, 0, false, true, false);
    (false, 0, false, true, false);
    (true, 0, false, true, false);
    (true, 1, true, false, true) ]%nat
  /\ fl_geb (fl_sub (to_double (16 # 100)) (to_double (12 # 100)))
            (delay_time (request 200 100)) = false
  /\ map (fun st => blur_enable_time_ (after (result st)))
         (run new_renderer deactivated_on_a_rejected_call)
     = [to_double 0; to_double 0; to_double 0; to_double 0]
  /\ map observed (run new_renderer hidden_on_a_rejected_call) =
     [ (true, 0, false, true, false);
       (true, 1, true, false, true);
       (false, 0, false, false, true);
       (true, 1, false, false, true) ]%nat.
Proof. vm_compute. repeat split. Qed.

(** Against C5 as stated.  A first call with a window of size zero is rejected, but only after
    it has compiled the shaders and created the pipeline objects. *)
Lemma zero_size_still_initialises :
  bad_size (request 0 0) = true /\
  returned (render_frame (call_at 0 0 0 false bound) new_renderer) = false /\
  calls (render_frame (call_at 0 0 0 false bound) new_renderer) =
  [ GetImmediateContext 30; D3DCompile vertex_shader_source_;
    D3DCompile horizontal_blur_source_; D3DCompile vertical_blur_source_;
    DeviceCreate VertexShader_site; DeviceCreate PixelShader_horizontal_site;
    DeviceCreate PixelShader_vertical_site; DeviceCreate InputLayout_site;
    Release 20; Release 21; Release 22;
    DeviceCreate VertexBuffer_site; DeviceCreate ConstantBuffer_site;
    DeviceCreate SamplerState_site; DeviceCreate BlendState_site;
    DeviceCreate RasterizerState_site ]%positive.
Proof. vm_compute. repeat split. Qed.

(** Against C7 as stated.  The horizontal pixel shader cannot be
    created.  The call fails and the renderer stays uninitialised, but it
    keeps the vertex shader it has just created: the only releases are
    those of the three blobs, so the pipeline is neither complete nor
    empty. *)
Lemma failed_initialisation_keeps_vertex_shader :
  returned (render_frame pixel_shader_fails new_renderer) = false /\
  initialized_ (after (render_frame pixel_shader_fails new_renderer)) = false /\
  vertex_shader_ (after (render_frame pixel_shader_fails new_renderer)) = Some 1%positive /\
  pixel_shader_horizontal_ (after (render_frame pixel_shader_fails new_renderer)) = None /\
  pipeline_complete (after (render_frame pixel_shader_fails new_renderer)) = false /\
  pipeline_empty (after (render_frame pixel_shader_fails new_renderer)) = false /\
  calls (render_frame pixel_shader_fails new_renderer) =
  [ GetImmediateContext 30; D3DCompile vertex_shader_source_;
    D3DCompile horizontal_blur_source_; D3DCompile vertical_blur_source_;
    DeviceCreate VertexShader_site; DeviceCreate PixelShader_horizontal_site;
    Release 20; Release 21; Release 22 ]%positive.
Proof. vm_compute. repeat split. Qed.

(** C6. On the sized renderer the intermediate texture cannot be
    created: [ensure_render_targets] returns [false] and releases nothing,
    so the capture texture and its view stay while the other six pointers
    are null.  A second call at the same size, on a device where
    everything would succeed, returns [true] without a call to the device
    and leaves the set incomplete. *)
Lemma ensure_render_targets_keeps_partial_set :
  let first := ensure_render_targets 200 100
                 (device_failing (only (Texture2D_site Temp)) 0)
                 (start sized_renderer bound) in
  let second := ensure_render_targets 200 100 (device_ok 1)
                  (start (rend (snd first)) bound) in
  fst first = false /\
  targets (rend (snd first)) =
    (Some 10, Some 16, None, None, None, None, None, None)%positive /\
  glog (snd first) =
    [ CreateTexture2D Background 200 100 8;
      DeviceCreate (ShaderResourceView_site Background);
      CreateTexture2D Temp 200 100 40 ] /\
  fst second = true /\
  glog (snd second) = [] /\
  targets (rend (snd second)) = targets (rend (snd first)).
Proof. vm_compute. repeat split. Qed.

(** The same defect through [render]: the allocation fails on the second
    call; after the intent has been cleared and set again, the fifth call
    captures and runs both passes against the incomplete set, counts the
    blur as processed, and draws nothing, as there is no [blur_srv_]. *)
Lemma partial_set_is_reused :
  map observed (run new_renderer allocation_fails_once) =
  [ (true, 0, false, true, false);
    (true, 0, false, false, false);
    (true, 0, false, false, false);
    (true, 0, false, true, false);
    (true, 0, true, false, true) ]%nat /\
  targets (final new_renderer allocation_fails_once) =
    (Some 10, Some 16, None, None, None, None, None, None)%positive.
Proof. vm_compute. repeat split. Qed.

Ltac by_computation :=
  lazymatch goal with
  | |- Forall _ _ =>
    repeat first [ apply Forall_nil | apply Forall_cons ];
    cbv beta; repeat split; vm_compute; reflexivity
  | _ => vm_compute; first [ reflexivity | discriminate | repeat constructor ]
  end.

(** Discharge the hypotheses of [H] one by one by computation. *)
Ltac discharge H :=
  repeat match type of H with
         | ?A -> _ =>
           let a := fresh "premise" in
           assert (a : A) by by_computation; specialize (H a); clear a
         end.

(** C1 on the run [capture_fails_once]. *)
Lemma failed_attempt_is_not_retried_witness :
  drawn (render_frame (call_at 1 200 100 true unbound) pending_renderer) = [] /\
  blur_capture_pending_
    (after (render_frame (call_at 1 200 100 true unbound) pending_renderer)) = false.
Proof.
  pose proof (failed_attempt_is_not_retried
                (call_at 1 200 100 true unbound) pending_renderer
                [ call_at 2 200 100 true bound; call_at 3 200 100 true bound ]) as H.
  discharge H. destruct H as (_ & Hp & Hd & _).
  split; assumption.
Defined.

(** C2 on the run [resize_while_captured]. *)
Lemma resize_discards_blur_witness :
  drawn (render_frame (call_at (3 # 10) 300 150 true bound) captured_renderer) = [] /\
  width_ (after (render_frame (call_at (3 # 10) 300 150 true bound) captured_renderer))
  = 300%Z.
Proof.
  pose proof (resize_discards_blur
                (call_at (3 # 10) 300 150 true bound) captured_renderer
                [ call_at 1 300 150 true bound; call_at 2 300 150 true bound ]) as H.
  discharge H. destruct H as (Hd & _ & _ & Hw & _).
  split; [ exact Hd | exact Hw ].
Defined.

(** C3 on [activation_run] followed by a call at time 0.3, which draws. *)
Lemma blur_waits_for_delay_witness :
  exists j m sj sm,
    (j <= m)%nat /\ (m <= 3)%nat /\
    nth_error (run new_renderer (activation_run ++ [call_at (3 # 10) 200 100 true bound])) j
    = Some sj /\
    nth_error (run new_renderer (activation_run ++ [call_at (3 # 10) 200 100 true bound])) m
    = Some sm /\
    elapsed_between sj sm.
Proof.
  pose proof (blur_waits_for_delay activation_run
                (call_at (3 # 10) 200 100 true bound)) as H.
  discharge H.
  destruct H as (j & m & sj & sm & H1 & H2 & H3 & H4 & _ & H5 & _).
  exists j, m, sj, sm. repeat split; assumption.
Defined.

(** C4 on scenario A. *)
Lemma no_blur_without_intent_witness :
  Forall (fun st => drawn (result st) = [] /\
                    Forall (fun c => allocates_texture c = false) (calls (result st)) /\
                    (accepted (params (req st)) (world (req st)) (before st) = true ->
                     returned (result st) = true))
         (run new_renderer ten_idle_calls).
Proof.
  pose proof (no_blur_without_intent ten_idle_calls new_renderer) as H.
  discharge H. exact H.
Defined.

(** C5 on a first call with a window of size zero. *)
Lemma degenerate_request_rejected_witness :
  returned (render_frame (call_at 0 0 0 false bound) new_renderer) = false /\
  drawn (render_frame (call_at 0 0 0 false bound) new_renderer) = [].
Proof.
  pose proof (proj2 (degenerate_request_rejected (call_at 0 0 0 false bound) new_renderer))
    as H.
  discharge H. destruct H as (Hr & Hd & _).
  split; assumption.
Defined.

(** C7 on a failed initialisation followed by a successful one. *)
Lemma pipeline_complete_when_used_witness :
  pipeline_complete
    (after (render_frame (call_at 1 200 100 false bound)
              (final new_renderer [ pixel_shader_fails ]))) = true.
Proof.
  destruct (pipeline_complete_when_used [ pixel_shader_fails ]
              (call_at 1 200 100 false bound))
    as (_ & _ & H & _).
  discharge H. exact H.
Defined.

(** C9 on a captured state with the host's render target 100 bound. *)
Lemma process_blur_restores_host_state_witness :
  om_rtv (gctx (snd (process_blur (to_float (95 # 100)) (device_ok 1) captured_state)))
  = Some 100%positive /\
  ps_srv (gctx (snd (process_blur (to_float (95 # 100)) (device_ok 1) captured_state))) = None.
Proof.
  pose proof (process_blur_restores_host_state (to_float (95 # 100)) (device_ok 1) captured_state)
    as H.
  discharge H. destruct H as (H1 & _ & _ & H4).
  split; [ exact H1 | exact H4 ].
Defined.

(** ** Further properties at work *)

(** X4 on a first call with a window of size zero. *)
Lemma rejected_call_is_invisible_witness :
  drawn (render_frame (call_at 0 0 0 true bound) new_renderer) = [] /\
  context_after (render_frame (call_at 0 0 0 true bound) new_renderer) = bound.
Proof.
  pose proof (rejected_call_is_invisible (call_at 0 0 0 true bound) new_renderer) as H.
  discharge H. destruct H as (_ & Hd & Hc & _).
  split; assumption.
Defined.

(** X7 on two more calls while the blur of the 200 by 100 window is shown. *)
Lemma shown_blur_is_replayed_witness :
  Forall (fun st => calls (result st) = [] /\ after (result st) = captured_renderer)
         (run captured_renderer
            [ call_at (3 # 10) 200 100 true unbound; call_at 5 200 100 true bound ]).
Proof.
  pose proof (shown_blur_is_replayed
                [ call_at (3 # 10) 200 100 true unbound; call_at 5 200 100 true bound ]
                captured_renderer 18%positive) as H.
  discharge H.
  refine (Forall_impl _ _ H). intros st (_ & Hc & Ha & _). split; assumption.
Defined.

(** X8 on a call at time 0.1, before the delay of 0.15 has elapsed. *)
Lemma waiting_call_changes_nothing_witness :
  after (render_frame (call_at (1 # 10) 200 100 true bound) pending_renderer)
  = pending_renderer /\
  calls (render_frame (call_at (1 # 10) 200 100 true bound) pending_renderer) = [].
Proof.
  pose proof (waiting_call_changes_nothing
                (call_at (1 # 10) 200 100 true bound) pending_renderer) as H.
  discharge H. rewrite H. split; reflexivity.
Defined.

(** X9 on a call without intent while the blur is shown. *)
Lemma deactivation_keeps_textures_witness :
  targets (after (render_frame (call_at (3 # 10) 200 100 false bound) captured_renderer))
  = targets captured_renderer /\
  blur_processed_
    (after (render_frame (call_at (3 # 10) 200 100 false bound) captured_renderer)) = false.
Proof.
  pose proof (deactivation_keeps_textures
                (call_at (3 # 10) 200 100 false bound) captured_renderer) as H.
  discharge H. cbv zeta in H. destruct H as (_ & _ & _ & _ & Ht & _ & Hp & _).
  split; assumption.
Defined.

(** X10 on the call at time 0.2 after an activation at time 0. *)
Lemma due_capture_shows_blur_witness :
  drawn (render_frame (call_at (2 # 10) 200 100 true bound) pending_renderer)
  = [composite (request 200 100) 40%positive 18%positive] /\
  filter allocates_texture
    (calls (render_frame (call_at (2 # 10) 200 100 true bound) pending_renderer))
  = allocation 200 100.
Proof.
  pose proof (due_capture_shows_blur
                (call_at (2 # 10) 200 100 true bound) pending_renderer
                40%positive 18%positive 100%positive 60%positive) as H.
  discharge H. cbv zeta in H. destruct H as (_ & Hd & _ & _ & _ & _ & Ha & _).
  split; assumption.
Defined.

(** X11 on the second capture of [rearmed_renderer], at time 0.6. *)
Lemma due_capture_reuses_textures_witness :
  filter allocates_texture
    (calls (render_frame (call_at (6 # 10) 200 100 true bound) rearmed_renderer)) = [] /\
  targets (after (render_frame (call_at (6 # 10) 200 100 true bound) rearmed_renderer))
  = targets rearmed_renderer.
Proof.
  pose proof (due_capture_reuses_textures
                (call_at (6 # 10) 200 100 true bound) rearmed_renderer
                40%positive 18%positive 100%positive 60%positive) as H.
  discharge H. cbv zeta in H. destruct H as (_ & _ & Ht & _ & _ & _ & Ha & _).
  split; assumption.
Defined.

(** X12 on a call for another device while the blur is shown, followed by
    two more calls with the intent set. *)
Lemma device_change_loses_blur_witness :
  blur_srv_ (after (render_frame (call_on_other_device (3 # 10)) captured_renderer)) = None /\
  Forall (fun st => drawn (result st) = [])
         (run (after (render_frame (call_on_other_device (3 # 10)) captured_renderer))
              [ call_on_other_device 1; call_on_other_device 2 ]).
Proof.
  pose proof (device_change_loses_blur
                (call_on_other_device (3 # 10)) captured_renderer
                [ call_on_other_device 1; call_on_other_device 2 ]) as H.
  discharge H. cbv zeta in H. destruct H as (_ & Hs & _ & _ & Hrun).
  split; [ exact Hs | ].
  refine (Forall_impl _ _ Hrun). intros st (Hd & _). exact Hd.
Defined.

(** X16 on a captured state. *)
Lemma process_blur_leaves_pipeline_bound_witness :
  vs_shader (gctx (snd (process_blur (to_float (95 # 100)) (device_ok 1) captured_state)))
  = Some 1%positive /\
  om_blend_state (gctx (snd (process_blur (to_float (95 # 100)) (device_ok 1) captured_state)))
  = Some 8%positive.
Proof.
  pose proof (process_blur_leaves_pipeline_bound (to_float (95 # 100)) (device_ok 1) captured_state)
    as H.
  discharge H. cbv zeta in H. destruct H as (H1 & _ & _ & _ & _ & _ & _ & _ & H9 & _).
  split; [ exact H1 | exact H9 ].
Defined.

(** X17 on a first call for a 200.7 by 100.2 window. *)
Lemma completed_call_records_size_witness :
  width_ (after (render_frame (call_at 0 (2007 # 10) (1002 # 10) false bound) new_renderer))
  = 200%Z /\
  height_ (after (render_frame (call_at 0 (2007 # 10) (1002 # 10) false bound) new_renderer))
  = 100%Z.
Proof.
  pose proof (completed_call_records_size
                (call_at 0 (2007 # 10) (1002 # 10) false bound) new_renderer) as H.
  discharge H. destruct H as (Hw & Hh & _).
  split; [ exact Hw | exact Hh ].
Defined.

(** X26 on the call after a failed initialisation, which had left the
    vertex shader behind. *)
Lemma uninitialised_call_starts_over_witness :
  In (Release 1%positive)
     (calls (render_frame (call_at 1 200 100 false bound)
               (final new_renderer [ pixel_shader_fails ]))) /\
  initialized_ (after (render_frame (call_at 1 200 100 false bound)
                         (final new_renderer [ pixel_shader_fails ]))) = true.
Proof.
  pose proof (uninitialised_call_starts_over
                (call_at 1 200 100 false bound)
                (final new_renderer [ pixel_shader_fails ]) 30%positive) as H.
  discharge H. cbv zeta in H. destruct H as (Hrel & _ & _ & Hi & _).
  split; [ apply Hrel; vm_compute; left; reflexivity | exact Hi ].
Defined.

(** ** The capture box in IEEE 754 arithmetic *)

Lemma float_to_uint_range x : (0 <= float_to_uint x < 2 ^ 32)%Z.
Proof.
  unfold float_to_uint. destruct (truncate x) as [ z | ]; [ | lia ].
  destruct ((- 2 ^ 63 <=? z) && (z <? 2 ^ 63))%Z; [ | lia ].
  apply Z.mod_pos_bound. lia.
Qed.

Lemma float_max_zero_uint x :
  SFltb (float_of_int 0) x = false -> float_to_uint (float_max (float_of_int 0) x) = 0%Z.
Proof. intro H. unfold float_max. rewrite H. reflexivity. Qed.

Lemma magnitude_nonneg m e : (0 <= magnitude m e)%Z.
Proof.
  unfold magnitude. destruct e as [ | p | p ].
  - apply Z.mul_nonneg_nonneg; [ | apply Z.pow_nonneg ]; lia.
  - apply Z.mul_nonneg_nonneg; [ | apply Z.pow_nonneg ]; lia.
  - apply Z.div_pos; [ | apply Z.pow_pos_nonneg ]; lia.
Qed.

Lemma truncate_negative m e z :
  truncate (S754_finite true m e) = Some z -> (0 <= z)%Z -> z = 0%Z.
Proof.
  intros H Hz. pose proof (magnitude_nonneg m e) as Hm.
  cbn [truncate] in H. injection H as <-. lia.
Qed.

Lemma float_max_zero_truncates x z :
  truncate x = Some z -> (0 <= z < 2 ^ 32)%Z ->
  float_to_uint (float_max (float_of_int 0) x) = z.
Proof.
  intros H Hz. destruct x as [ s | s | | s m e ]; try discriminate H.
  - injection H as <-. destruct s; reflexivity.
  - destruct s.
    + rewrite (truncate_negative m e z H) by lia. reflexivity.
    + change (float_max (float_of_int 0) (S754_finite false m e))
        with (S754_finite false m e).
      unfold float_to_uint. rewrite H.
      replace ((- 2 ^ 63 <=? z) && (z <? 2 ^ 63))%Z with true
        by (symmetry; apply andb_true_iff; split; [ apply Z.leb_le | apply Z.ltb_lt ]; lia).
      apply Z.mod_small. lia.
Qed.

(** X23. In IEEE 754 arithmetic the source box of the capture has depth
    range 0 to 1 and its four edges are [UINT]s.  The left edge is 0
    whenever [0.0f < window_pos.x] is false, that is for a window position
    that is negative, zero or a NaN, and it is the integer part of
    [window_pos.x] whenever that is a [UINT]; the same holds of the top
    edge and [window_pos.y]. *)
Theorem capture_box_is_clamped_at_origin (window_pos window_size : @ImVec2 spec_float) :
  box_front (capture_box window_pos window_size) = 0%Z /\
  box_back (capture_box window_pos window_size) = 1%Z /\
  (0 <= box_left (capture_box window_pos window_size) < 2 ^ 32)%Z /\
  (0 <= box_top (capture_box window_pos window_size) < 2 ^ 32)%Z /\
  (0 <= box_right (capture_box window_pos window_size) < 2 ^ 32)%Z /\
  (0 <= box_bottom (capture_box window_pos window_size) < 2 ^ 32)%Z /\
  (SFltb (float_of_int 0) (vec_x window_pos) = false ->
   box_left (capture_box window_pos window_size) = 0%Z) /\
  (SFltb (float_of_int 0) (vec_y window_pos) = false ->
   box_top (capture_box window_pos window_size) = 0%Z) /\
  (forall z, truncate (vec_x window_pos) = Some z -> (0 <= z < 2 ^ 32)%Z ->
             box_left (capture_box window_pos window_size) = z) /\
  (forall z, truncate (vec_y window_pos) = Some z -> (0 <= z < 2 ^ 32)%Z ->
             box_top (capture_box window_pos window_size) = z).
Proof.
  unfold capture_box.
  cbn [box_front box_back box_left box_top box_right box_bottom
       fl_to_uint fl_max fl_add fl_of_Z IEEE_FloatOps].
  repeat split;
    first [ apply float_to_uint_range
          | apply float_max_zero_uint
          | apply float_max_zero_truncates ].
Qed.

(** X23 on a window at (-30.5, 20.75): the box starts at (0, 20).  On a
    window at x = 4294967040 that is 300 wide, the sum of the two rounds
    to 2^32 and the right edge comes out as 0. *)
Lemma capture_box_is_clamped_at_origin_witness :
  (box_left (capture_box (mkImVec2 (to_float (- 305 # 10)) (to_float (2075 # 100)))
                         (mkImVec2 (to_float 200) (to_float 100))) = 0%Z /\
   box_top (capture_box (mkImVec2 (to_float (- 305 # 10)) (to_float (2075 # 100)))
                        (mkImVec2 (to_float 200) (to_float 100))) = 20%Z) /\
  capture_box (mkImVec2 (to_float 4294967040) (to_float 20))
              (mkImVec2 (to_float 300) (to_float 100))
  = {| box_left := 4294967040; box_top := 20; box_front := 0;
       box_right := 0; box_bottom := 120; box_back := 1 |}.
Proof.
  split; [ | vm_compute; reflexivity ].
  pose proof (capture_box_is_clamped_at_origin
                (mkImVec2 (to_float (- 305 # 10)) (to_float (2075 # 100)))
                (mkImVec2 (to_float 200) (to_float 100)))
    as (_ & _ & _ & _ & _ & _ & Hl & _ & _ & Ht).
  split; [ apply Hl; vm_compute; reflexivity | apply Ht; [ vm_compute; reflexivity | lia ] ].
Defined.

End Scenario.

(** * The fragment shaders

    The two pixel shaders are HLSL source text inside [blur.hpp].  Their
    [main] functions are modelled over an arithmetic that is a parameter:
    the operations on [float] the source applies, in the order it applies
    them.  A texture with its sampler is any function from coordinates to
    colours.  Two arithmetics are given: the real numbers, where every
    operation is exact, and IEEE 754 binary32. *)
Module Shader.

(** The operations of the shaders on [float]. *)
Class Arith (fl : Type) := {
  f_zero : fl;               (* 0.0f *)
  f_one : fl;                (* 1.0f *)
  f_half : fl;               (* 0.5f *)
  f_of_int : Z -> fl;        (* an int where a float is expected *)
  f_neg : fl -> fl;          (* unary minus *)
  f_add : fl -> fl -> fl;
  f_mul : fl -> fl -> fl;
  f_div : fl -> fl -> fl;
  f_exp : fl -> fl;          (* the intrinsic exp *)
  f_min : fl -> fl -> fl;    (* the intrinsics min and max *)
  f_max : fl -> fl -> fl
}.

Section Pass.

Context {fl : Type} {A : Arith fl}.

Record float2 := mkfloat2 { f2_x : fl; f2_y : fl }.

Record float4 := mkfloat4 { f4_x : fl; f4_y : fl; f4_z : fl; f4_w : fl }.

Definition add2 (a b : float2) : float2 :=
  {| f2_x := f_add (f2_x a) (f2_x b); f2_y := f_add (f2_y a) (f2_y b) |}.

Definition add4 (a b : float4) : float4 :=
  {| f4_x := f_add (f4_x a) (f4_x b); f4_y := f_add (f4_y a) (f4_y b);
     f4_z := f_add (f4_z a) (f4_z b); f4_w := f_add (f4_w a) (f4_w b) |}.

Definition mul4 (a : float4) (k : fl) : float4 :=
  {| f4_x := f_mul (f4_x a) k; f4_y := f_mul (f4_y a) k;
     f4_z := f_mul (f4_z a) k; f4_w := f_mul (f4_w a) k |}.

Definition div4 (a : float4) (k : fl) : float4 :=
  {| f4_x := f_div (f4_x a) k; f4_y := f_div (f4_y a) k;
     f4_z := f_div (f4_z a) k; f4_w := f_div (f4_w a) k |}.

(** The HLSL intrinsic: [min(max(x, lo), hi)], per component. *)
Definition clamp (x lo hi : fl) : fl := f_min (f_max x lo) hi.

Definition clamp2 (p lo hi : float2) : float2 :=
  {| f2_x := clamp (f2_x p) (f2_x lo) (f2_x hi);
     f2_y := clamp (f2_y p) (f2_y lo) (f2_y hi) |}.

(** [cbuffer BlurConstants : register(b0)]. *)
Record BlurConstants := {
  texture_size : float2;
  blur_strength : fl;
  padding : fl
}.

(** [source_texture.Sample(texture_sampler, uv)]. *)
Definition Texture2D := float2 -> float4.

Definition radius : Z := 4.

(** The values of [i] in [for (int i = -radius; i <= radius; i++)]. *)
Definition taps : list Z :=
  map (fun k => (- radius + Z.of_nat k)%Z) (seq 0 (Z.to_nat (radius - - radius + 1))).

(** [exp(-0.5f * (i * i) / (radius * radius * 0.5f))]: the two products
    of [int]s are made in [int] and then converted. *)
Definition weight (i : Z) : fl :=
  f_exp (f_div (f_mul (f_neg f_half) (f_of_int (i * i)))
               (f_mul (f_of_int (radius * radius)) f_half)).

Definition horizontal_main (cb : BlurConstants) (source_texture : Texture2D)
    (uv : float2) : float4 :=
  let pixel_size := f_div f_one (f2_x (texture_size cb)) in
  let '(color, total_weight) :=
    fold_left
      (fun '(color, total_weight) i =>
         let sample_uv :=
           add2 uv (mkfloat2 (f_mul (f_mul pixel_size (f_of_int i)) (blur_strength cb))
                             f_zero) in
         let sample_uv :=
           clamp2 sample_uv (mkfloat2 f_zero f_zero) (mkfloat2 f_one f_one) in
         let weight := weight i in
         (add4 color (mul4 (source_texture sample_uv) weight), f_add total_weight weight))
      taps (mkfloat4 f_zero f_zero f_zero f_zero, f_zero) in
  div4 color total_weight.

Definition vertical_main (cb : BlurConstants) (source_texture : Texture2D)
    (uv : float2) : float4 :=
  let pixel_size := f_div f_one (f2_y (texture_size cb)) in
  let '(color, total_weight) :=
    fold_left
      (fun '(color, total_weight) i =>
         let sample_uv :=
           add2 uv (mkfloat2 f_zero
                             (f_mul (f_mul pixel_size (f_of_int i)) (blur_strength cb))) in
         let sample_uv :=
           clamp2 sample_uv (mkfloat2 f_zero f_zero) (mkfloat2 f_one f_one) in
         let weight := weight i in
         (add4 color (mul4 (source_texture sample_uv) weight), f_add total_weight weight))
      taps (mkfloat4 f_zero f_zero f_zero f_zero, f_zero) in
  div4 color total_weight.

(** ** Channels, axes and sample positions *)
Inductive channel := Red | Green | Blue | Alpha.

Definition component (c : channel) (v : float4) : fl :=
  match c with
  | Red => f4_x v
  | Green => f4_y v
  | Blue => f4_z v
  | Alpha => f4_w v
  end.

Inductive axis := Horizontal | Vertical.

Definition main (a : axis) : BlurConstants -> Texture2D -> float2 -> float4 :=
  match a with
  | Horizontal => horizontal_main
  | Vertical => vertical_main
  end.

(** Where tap [i] samples the texture. *)
Definition sample_uv (a : axis) (cb : BlurConstants) (uv : float2) (i : Z) : float2 :=
  match a with
  | Horizontal =>
    clamp2 (add2 uv (mkfloat2 (f_mul (f_mul (f_div f_one (f2_x (texture_size cb)))
                                            (f_of_int i))
                                     (blur_strength cb))
                              f_zero))
           (mkfloat2 f_zero f_zero) (mkfloat2 f_one f_one)
  | Vertical =>
    clamp2 (add2 uv (mkfloat2 f_zero
                              (f_mul (f_mul (f_div f_one (f2_y (texture_size cb)))
                                            (f_of_int i))
                                     (blur_strength cb))))
           (mkfloat2 f_zero f_zero) (mkfloat2 f_one f_one)
  end.

(** The loop, for any way of sampling. *)
Definition accumulate (s : Z -> float4) (acc : float4 * fl) (i : Z) : float4 * fl :=
  let '(color, total_weight) := acc in
  (add4 color (mul4 (s i) (weight i)), f_add total_weight (weight i)).

(** The weight sum as the loop builds it. *)
Definition accumulated_weight : fl :=
  fold_left (fun total_weight i => f_add total_weight (weight i)) taps f_zero.

End Pass.

(** ** Exact arithmetic: the real numbers *)

#[export] Instance Real_Arith : Arith R := {|
  f_zero := 0%R;
  f_one := 1%R;
  f_half := 0.5%R;
  f_of_int := IZR;
  f_neg := Ropp;
  f_add := Rplus;
  f_mul := Rmult;
  f_div := Rdiv;
  f_exp := Rtrigo_def.exp;
  f_min := Rmin;
  f_max := Rmax
|}.

(** ** HLSL's arithmetic: IEEE 754 binary32

    Sums, products and quotients are those of binary32, rounded to
    nearest with ties to even, each operation on its own.  [exp] is
    given at the five arguments the shaders evaluate it at, 0, -1/16,
    -1/4, -9/16 and -1, by the binary32 value nearest to the exponential;
    elsewhere it is left a NaN.  [min] and [max] return the other operand
    when one is a NaN. *)

Definition binary32_exp (x : spec_float) : spec_float :=
  if SFeqb x (S754_zero false) then S754_finite false 8388608 (-23)
  else if SFeqb x (S754_finite true 8388608 (-27)) then S754_finite false 15760736 (-24)
  else if SFeqb x (S754_finite true 8388608 (-25)) then S754_finite false 13066109 (-24)
  else if SFeqb x (S754_finite true 9437184 (-24)) then S754_finite false 9559370 (-24)
  else if SFeqb x (S754_finite true 8388608 (-23)) then S754_finite false 12343986 (-25)
  else S754_nan.

Definition binary32_max (a b : spec_float) : spec_float :=
  match SFcompare a b with
  | Some Lt => b
  | Some _ => a
  | None => match a with S754_nan => b | _ => a end
  end.

Definition binary32_min (a b : spec_float) : spec_float :=
  match SFcompare a b with
  | Some Gt => b
  | Some _ => a
  | None => match a with S754_nan => b | _ => a end
  end.

#[export] Instance Binary32_Arith : Arith spec_float := {|
  f_zero := S754_zero false;
  f_one := S754_finite false 8388608 (-23);
  f_half := S754_finite false 8388608 (-24);
  f_of_int := fun z => binary_normalize 24 128 z 0 false;
  f_neg := SFopp;
  f_add := SFadd 24 128;
  f_mul := SFmul 24 128;
  f_div := SFdiv 24 128;
  f_exp := binary32_exp;
  f_min := binary32_min;
  f_max := binary32_max
|}.

(** ** Notions of the exact reading *)

Local Open Scope R_scope.

(** The texture coordinates a texture is defined on. *)
Definition in_unit_square (p : @float2 R) : Prop :=
  0 <= f2_x p <= 1 /\ 0 <= f2_y p <= 1.

Fixpoint sum (l : list R) : R :=
  match l with
  | [] => 0
  | x :: l' => x + sum l'
  end.

Definition total_weight : R := sum (map weight taps).

Definition maximum (l : list R) : R :=
  match l with
  | [] => 0
  | x :: l' => fold_left Rmax l' x
  end.

(** The colours one channel of the nine samples takes. *)
Definition sampled (a : axis) (cb : @BlurConstants R) (t : @Texture2D R) (uv : @float2 R)
    (c : channel) : list R :=
  map (fun i => component c (t (sample_uv a cb uv i))) taps.

(** ** A uniform texture in binary32 *)

(** The [float] nearest to 11/255, as the division gives it. *)
Definition dark_grey : spec_float := f_div (f_of_int 11) (f_of_int 255).

Definition uniform_dark_grey : @Texture2D spec_float :=
  fun _ => mkfloat4 dark_grey dark_grey dark_grey f_one.

(** The constants [process_blur] uploads for a 200 by 100 window with the
    default strength 0.95f. *)
Definition constants_200x100 : @BlurConstants spec_float :=
  {| texture_size := mkfloat2 (f_of_int 200) (f_of_int 100);
     blur_strength := S754_finite false 15938355 (-24);
     padding := f_zero |}.

Definition centre : @float2 spec_float := mkfloat2 f_half f_half.

(** ** Proofs *)

Section Loop.

Context {fl : Type} {A : Arith fl}.

Lemma taps_are : taps = [-4; -3; -2; -1; 0; 1; 2; 3; 4]%Z.
Proof. reflexivity. Qed.

Lemma main_accumulate a cb t uv :
  main a cb t uv =
  div4 (fst (fold_left (accumulate (fun i => t (sample_uv a cb uv i))) taps
                       (mkfloat4 f_zero f_zero f_zero f_zero, f_zero)))
       (snd (fold_left (accumulate (fun i => t (sample_uv a cb uv i))) taps
                       (mkfloat4 f_zero f_zero f_zero f_zero, f_zero))).
Proof.
  destruct a; cbn [main]; unfold horizontal_main, vertical_main.
  - match goal with
    | |- (let '(_, _) := ?x in _) = div4 (fst ?y) _ => change x with y; destruct y
    end. reflexivity.
  - match goal with
    | |- (let '(_, _) := ?x in _) = div4 (fst ?y) _ => change x with y; destruct y
    end. reflexivity.
Qed.

Lemma accumulate_ext (s1 s2 : Z -> float4) l acc :
  (forall i, s1 i = s2 i) ->
  fold_left (accumulate s1) l acc = fold_left (accumulate s2) l acc.
Proof.
  intro H. revert acc. induction l as [ | i l IH ]; intro acc; cbn; [ reflexivity | ].
  rewrite IH. unfold accumulate. destruct acc. rewrite H. reflexivity.
Qed.

(** The weight sum does not depend on the texture. *)
Lemma accumulate_weight (s : Z -> float4) l acc :
  snd (fold_left (accumulate s) l acc) =
  fold_left (fun total_weight i => f_add total_weight (weight i)) l (snd acc).
Proof.
  revert acc. induction l as [ | i l IH ]; intros [color total]; cbn; [ reflexivity | ].
  rewrite IH. reflexivity.
Qed.

(** Neither pass reads the texture anywhere but at clamped coordinates. *)
Lemma pass_reads_clamped_only a cb (t1 t2 : Texture2D) uv :
  (forall p, t1 (clamp2 p (mkfloat2 f_zero f_zero) (mkfloat2 f_one f_one))
             = t2 (clamp2 p (mkfloat2 f_zero f_zero) (mkfloat2 f_one f_one))) ->
  main a cb t1 uv = main a cb t2 uv.
Proof.
  intro H. rewrite !main_accumulate.
  rewrite (accumulate_ext (fun i => t1 (sample_uv a cb uv i))
                          (fun i => t2 (sample_uv a cb uv i))); [ reflexivity | ].
  intro i. destruct a; apply H.
Qed.

End Loop.

(** *** Exact arithmetic *)

Ltac exact_arithmetic :=
  cbn [f_zero f_one f_half f_of_int f_neg f_add f_mul f_div f_exp f_min f_max Real_Arith]
    in *.

Lemma weight_exact i :
  weight i = Rtrigo_def.exp (- 0.5 * IZR (i * i) / (IZR (radius * radius) * 0.5)).
Proof.
  unfold weight. exact_arithmetic. f_equal.
  change (IZR (radius * radius)) with 16. lra.
Qed.

Lemma weight_pos i : 0 < weight i.
Proof. rewrite weight_exact. apply exp_pos. Qed.

Lemma sum_weights_pos l : l <> [] -> 0 < sum (map weight l).
Proof.
  destruct l as [ | i l ]; [ congruence | intros _ ]. cbn [map sum].
  assert (H : 0 <= sum (map weight l)).
  { induction l as [ | j l IH ]; cbn [map sum]; [ lra | ]. pose proof (weight_pos j). lra. }
  pose proof (weight_pos i). lra.
Qed.

Lemma total_weight_pos : 0 < total_weight.
Proof. apply sum_weights_pos. rewrite taps_are. discriminate. Qed.

Lemma component_add4 c (a b : @float4 R) :
  component c (add4 a b) = component c a + component c b.
Proof. destruct c; reflexivity. Qed.

Lemma component_mul4 c (a : @float4 R) k : component c (mul4 a k) = component c a * k.
Proof. destruct c; reflexivity. Qed.

Lemma component_div4 c (a : @float4 R) k : component c (div4 a k) = component c a / k.
Proof. destruct c; reflexivity. Qed.

Lemma accumulate_sums (s : Z -> @float4 R) c l acc :
  component c (fst (fold_left (accumulate s) l acc)) =
  component c (fst acc) + sum (map (fun i => component c (s i) * weight i) l) /\
  snd (fold_left (accumulate s) l acc) = snd acc + sum (map weight l).
Proof.
  revert acc. induction l as [ | i l IH ]; intros [color total]; cbn [fold_left map sum].
  - cbn [fst snd]. split; lra.
  - destruct (IH (accumulate s (color, total) i)) as [H1 H2].
    rewrite H1, H2. cbn [accumulate fst snd].
    rewrite component_add4, component_mul4. exact_arithmetic. split; lra.
Qed.

Lemma main_component a cb t uv c :
  component c (main a cb t uv) =
  sum (map (fun i => component c (t (sample_uv a cb uv i)) * weight i) taps) / total_weight.
Proof.
  rewrite main_accumulate, component_div4.
  destruct (accumulate_sums (fun i => t (sample_uv a cb uv i)) c taps
              (mkfloat4 f_zero f_zero f_zero f_zero, f_zero)) as [H1 H2].
  rewrite H1, H2. unfold total_weight. cbn [fst snd].
  replace (component c (mkfloat4 f_zero f_zero f_zero f_zero)) with 0
    by (destruct c; reflexivity).
  exact_arithmetic. f_equal; lra.
Qed.

Lemma sum_scaled (f : Z -> R) k l :
  sum (map (fun i => weight i / k * f i) l) = sum (map (fun i => f i * weight i) l) / k.
Proof.
  induction l as [ | i l IH ]; cbn [map sum]; [ lra | ]. rewrite IH. lra.
Qed.

Lemma fold_Rmax_ge l x : x <= fold_left Rmax l x.
Proof.
  revert x. induction l as [ | y l IH ]; intro x; cbn; [ lra | ].
  eapply Rle_trans; [ apply Rmax_l | apply IH ].
Qed.

Lemma fold_Rmax_mono l x y : x <= y -> fold_left Rmax l x <= fold_left Rmax l y.
Proof.
  revert x y. induction l as [ | z l IH ]; intros x y H; cbn; [ exact H | ].
  apply IH. apply Rle_max_compat_r, H.
Qed.

Lemma maximum_ge l x : In x l -> x <= maximum l.
Proof.
  destruct l as [ | y l ]; [ contradiction | ]. cbn [maximum].
  revert y. induction l as [ | z l IH ]; intros y [ <- | H ].
  - cbn. lra.
  - contradiction.
  - apply fold_Rmax_ge.
  - cbn. destruct H as [ <- | H ].
    + eapply Rle_trans; [ apply Rmax_r | apply fold_Rmax_ge ].
    + eapply Rle_trans; [ apply (IH z); right; exact H | ].
      apply fold_Rmax_mono, Rmax_r.
Qed.

Lemma weighted_sum_le (f : Z -> R) M l :
  (forall i, In i l -> f i <= M) ->
  sum (map (fun i => f i * weight i) l) <= M * sum (map weight l).
Proof.
  induction l as [ | i l IH ]; intro H; cbn [map sum]; [ lra | ].
  assert (Hi : f i <= M) by (apply H; left; reflexivity).
  assert (Hl : sum (map (fun i => f i * weight i) l) <= M * sum (map weight l))
    by (apply IH; intros j Hj; apply H; right; exact Hj).
  pose proof (weight_pos i). nra.
Qed.

Lemma clamp_unit (x : R) : 0 <= clamp x f_zero f_one <= 1.
Proof.
  unfold clamp. exact_arithmetic. unfold Rmin, Rmax.
  destruct (Rle_dec x 0); destruct (Rle_dec _ 1); lra.
Qed.

Lemma clamp2_in_unit_square (p : @float2 R) :
  in_unit_square (clamp2 p (mkfloat2 f_zero f_zero) (mkfloat2 f_one f_one)).
Proof.
  unfold in_unit_square, clamp2; cbn [f2_x f2_y]; split; apply clamp_unit.
Qed.

Lemma sample_uv_in_unit_square a cb uv i : in_unit_square (sample_uv a cb uv i).
Proof. destruct a; apply clamp2_in_unit_square. Qed.

(** *** binary32 *)

Lemma binary32_accumulated_weight :
  @accumulated_weight spec_float Binary32_Arith = S754_finite false 13236704 (-21).
Proof. vm_compute. reflexivity. Qed.

(** ** The two passes as weighted averages *)

(** C8. On either axis and in any arithmetic, the loop visits the nine
    offsets from -4 to 4, the weight of offset [i] is
    [exp(-0.5 i^2 / (4^2 0.5))], and the result is the accumulated
    weighted sum of the nine samples divided by the accumulated sum of the
    nine weights, which does not depend on the texture.  In exact
    arithmetic, for every blur strength, the sum of the weights is
    positive, each channel of the result is the sum of the nine sampled
    values with coefficients [weight i / total_weight], which are positive
    and add up to 1, and no channel of the result exceeds the largest of
    the nine sampled values of that channel.  In binary32 each of the nine
    weights is positive and their accumulated sum is 13236704 * 2^-21,
    about 6.31, and so positive as well; the bound by the largest sample
    is not claimed there. *)
Theorem blur_is_weighted_average :
  taps = [-4; -3; -2; -1; 0; 1; 2; 3; 4]%Z /\
  length taps = 9%nat /\
  (forall (fl : Type) (A : Arith fl) (a : axis) (cb : BlurConstants) (t : Texture2D)
          (uv : float2) (i : Z),
     weight i = f_exp (f_div (f_mul (f_neg f_half) (f_of_int (i * i)))
                             (f_mul (f_of_int (4 * 4)) f_half)) /\
     main a cb t uv =
       div4 (fst (fold_left (accumulate (fun i => t (sample_uv a cb uv i))) taps
                            (mkfloat4 f_zero f_zero f_zero f_zero, f_zero)))
            accumulated_weight) /\
  (forall (a : axis) (cb : @BlurConstants R) (t : Texture2D) (uv : float2) (c : channel),
     (forall i, weight i = exp (- 0.5 * (IZR i * IZR i) / (4 * 4 * 0.5))) /\
     0 < total_weight /\
     (forall i, 0 < weight i / total_weight) /\
     sum (map (fun i => weight i / total_weight) taps) = 1 /\
     component c (main a cb t uv) =
       sum (map (fun i => weight i / total_weight * component c (t (sample_uv a cb uv i)))
                taps) /\
     component c (main a cb t uv) <= maximum (sampled a cb t uv c)) /\
  forallb (fun i => SFltb f_zero (@weight spec_float Binary32_Arith i)) taps = true /\
  @accumulated_weight spec_float Binary32_Arith = S754_finite false 13236704 (-21) /\
  SFltb f_zero (@accumulated_weight spec_float Binary32_Arith) = true.
Proof.
  split; [ exact taps_are | ]. split; [ reflexivity | ].
  split.
  { intros fl A a cb t uv i. split; [ reflexivity | ].
    rewrite main_accumulate, accumulate_weight. reflexivity. }
  split;
    [ | split; [ vm_compute; reflexivity
               | rewrite binary32_accumulated_weight; split; reflexivity ] ].
  intros a cb t uv c.
  pose proof total_weight_pos as HW.
  split.
  { intro i. rewrite weight_exact. unfold radius. rewrite mult_IZR. f_equal.
    change (IZR (4 * 4)) with (IZR 16). lra. }
  split; [ exact HW | ].
  split.
  { intro i. apply Rdiv_lt_0_compat; [ apply weight_pos | exact HW ]. }
  split.
  { replace (sum (map (fun i => weight i / total_weight) taps))
      with (sum (map (fun i => weight i / total_weight * 1) taps))
      by (f_equal; apply map_ext; intro; lra).
    rewrite (sum_scaled (fun _ => 1)).
    replace (sum (map (fun i => 1 * weight i) taps)) with total_weight
      by (unfold total_weight; f_equal; apply map_ext; intro; lra).
    field. lra. }
  split.
  { rewrite main_component.
    rewrite (sum_scaled (fun i => component c (t (sample_uv a cb uv i)))). reflexivity. }
  rewrite main_component.
  set (M := maximum (sampled a cb t uv c)).
  replace M with (M * total_weight / total_weight) by (field; lra).
  unfold Rdiv. apply Rmult_le_compat_r; [ left; apply Rinv_0_lt_compat, HW | ].
  unfold total_weight.
  apply (weighted_sum_le (fun i => component c (t (sample_uv a cb uv i)))).
  intros i Hi. apply maximum_ge. unfold sampled.
  apply (in_map (fun i => component c (t (sample_uv a cb uv i)))), Hi.
Qed.

(** Against C8 as stated.  In binary32, on the uniform texture whose
    colour channels are the [float] nearest to 11/255, every sample is
    that value, yet both passes return the next [float] above it: the
    rounded sum of the rounded products, divided by the rounded sum of the
    weights, exceeds the largest sample. *)
Lemma uniform_texture_comes_out_brighter :
  dark_grey = S754_finite false 11579569 (-28) /\
  (forall i, component Red (uniform_dark_grey (sample_uv Horizontal constants_200x100 centre i))
             = dark_grey) /\
  component Red (main Horizontal constants_200x100 uniform_dark_grey centre)
  = S754_finite false 11579570 (-28) /\
  component Red (main Vertical constants_200x100 uniform_dark_grey centre)
  = S754_finite false 11579570 (-28) /\
  SFltb dark_grey
        (component Red (main Horizontal constants_200x100 uniform_dark_grey centre)) = true /\
  SFltb dark_grey
        (component Red (main Vertical constants_200x100 uniform_dark_grey centre)) = true.
Proof.
  split; [ vm_compute; reflexivity | ].
  split; [ intro i; reflexivity | ].
  vm_compute. repeat split.
Qed.

(** ** Further properties of the two passes *)

(** X18. Neither pass reads the texture outside the unit square: two
    textures that agree on the texture coordinates between (0,0) and
    (1,1) give the same result at every coordinate, for every strength
    and texture size. *)
Theorem pass_reads_unit_square_only (a : axis) (cb : BlurConstants)
    (t1 t2 : Texture2D) (uv : float2) :
  (forall p, in_unit_square p -> t1 p = t2 p) ->
  main a cb t1 uv = main a cb t2 uv.
Proof.
  intro H. apply pass_reads_clamped_only.
  intro p. apply H, clamp2_in_unit_square.
Qed.

(** X21. In exact arithmetic the kernel is symmetric, has its peak 1 at
    offset 0, and falls strictly with the distance from the centre. *)
Theorem kernel_is_symmetric_and_peaked (i j : Z) :
  (weight (- i) : R) = weight i /\
  weight 0 = 1 /\
  ((Z.abs i < Z.abs j)%Z -> weight j < weight i).
Proof.
  split; [ | split ].
  - rewrite !weight_exact, Z.mul_opp_opp. reflexivity.
  - rewrite weight_exact.
    replace (- 0.5 * IZR (0 * 0) / (IZR (radius * radius) * 0.5)) with 0.
    + apply exp_0.
    + change (IZR (0 * 0)) with 0. change (IZR (radius * radius)) with 16. lra.
  - intro H. rewrite !weight_exact. apply exp_increasing.
    change (IZR (radius * radius)) with 16.
    assert (Hz : (i * i < j * j)%Z) by nia.
    apply IZR_lt in Hz. lra.
Qed.

(** ** The further properties at work *)

(** X18 on a texture that is black on the unit square and red to the
    right of it, against one that is black everywhere. *)
Lemma pass_reads_unit_square_only_witness :
  main Horizontal
    {| texture_size := mkfloat2 200 100; blur_strength := 1; padding := 0 |}
    (fun p => mkfloat4 (Rmax 0 (f2_x p - 1)) 0 0 0) (mkfloat2 1 0) =
  main Horizontal
    {| texture_size := mkfloat2 200 100; blur_strength := 1; padding := 0 |}
    (fun _ => mkfloat4 0 0 0 0) (mkfloat2 1 0).
Proof.
  apply (pass_reads_unit_square_only Horizontal
           {| texture_size := mkfloat2 200 100; blur_strength := 1; padding := 0 |}
           (fun p => mkfloat4 (Rmax 0 (f2_x p - 1)) 0 0 0)
           (fun _ => mkfloat4 0 0 0 0) (mkfloat2 1 0)).
  intros p [[_ Hx] _]. rewrite Rmax_left by lra. reflexivity.
Defined.

End Shader.
